(** * Callback and layout validation of dash ([dash/_validate.py])

    A shallow embedding of the validators of [dash/_validate.py] and the
    properties its specification states about them.

    Python values are embedded as the inductive type [PyVal]; a function
    that can raise returns a [result], whose [Raise] carries the exception
    class and the form and arguments of its message (the text of a message
    is not rendered; a [format] that can fail while the message is built
    is).  The modules the validators import but that are
    not part of the verified file ([dash.dependencies],
    [dash.development.base_component], [dash._utils]) are interfaces
    (type classes); one instance of each, modelled from the specification,
    is given at the end of the definitions and used for the examples. *)

From Stdlib Require Import ZArith QArith_base Ascii String.
From stdpp Require Import base decidable list strings pretty gmap.

Local Open Scope Z_scope.
Local Open Scope string_scope.
Local Open Scope list_scope.

(** ** Python values *)

(** The wildcard objects of [dash.dependencies]. *)
Inductive Wildcard := ANY | ALL | ALLSMALLER.

(** The three dependency classes. *)
Inductive DepClass := Output | Input | State.

(** The part of Python's value universe the validators look at.
    A float is held as the rational number it stands for.
    [PyDep] is an instance of [Output], [Input] or [State] with its
    attributes ([component_event] records whether the legacy attribute is
    present); [PyComponent] is an instance of a [Component] subclass, an
    absent [id] or [children] attribute being [PyNone]; [PyObject] is an
    instance of any other class (a function, a set, a user object), with
    the name of its type and its truth value. *)
#[warnings="-register-all"]
Inductive PyVal :=
| PyNone
| PyBool (b : bool)
| PyInt (n : Z)
| PyFloat (q : Q)
| PyStr (s : string)
| PyWildcard (w : Wildcard)
| PyList (items : list PyVal)
| PyTuple (items : list PyVal)
| PyDict (entries : list (PyVal * PyVal))
| PyDep (cls : DepClass) (component_id component_property : PyVal)
        (component_event : bool)
| PyComponent (type_name : string) (id : PyVal)
              (available_properties available_wildcard_properties : list string)
              (children : PyVal)
| PyObject (type_name : string) (truth : bool).

Definition Wildcard_eqb (a b : Wildcard) : bool :=
  match a, b with
  | ANY, ANY | ALL, ALL | ALLSMALLER, ALLSMALLER => true
  | _, _ => false
  end.

Definition DepClass_eqb (a b : DepClass) : bool :=
  match a, b with
  | Output, Output | Input, Input | State, State => true
  | _, _ => false
  end.

(** [cls.__name__] *)
Definition class_name (c : DepClass) : string :=
  match c with Output => "Output" | Input => "Input" | State => "State" end.

(** [type(v).__name__] *)
Definition type_name_of (v : PyVal) : string :=
  match v with
  | PyNone => "NoneType"
  | PyBool _ => "bool"
  | PyInt _ => "int"
  | PyFloat _ => "float"
  | PyStr _ => "str"
  | PyWildcard _ => "_Wildcard"
  | PyList _ => "list"
  | PyTuple _ => "tuple"
  | PyDict _ => "dict"
  | PyDep c _ _ _ => class_name c
  | PyComponent n _ _ _ _ => n
  | PyObject n _ => n
  end.

(** [isinstance(v, (list, tuple))] *)
Definition is_list_or_tuple (v : PyVal) : bool :=
  match v with PyList _ | PyTuple _ => true | _ => false end.

(** [isinstance(v, list)] *)
Definition is_list (v : PyVal) : bool :=
  match v with PyList _ => true | _ => false end.

(** [isinstance(v, (tuple, collections.MutableSequence))] *)
Definition is_sequence (v : PyVal) : bool :=
  match v with PyList _ | PyTuple _ => true | _ => false end.

(** [isinstance(v, Component)] *)
Definition is_component (v : PyVal) : bool :=
  match v with PyComponent _ _ _ _ _ => true | _ => false end.

(** [isinstance(v, _strings)] *)
Definition is_string (v : PyVal) : bool :=
  match v with PyStr _ => true | _ => false end.

(** [v is None] *)
Definition is_none (v : PyVal) : bool :=
  match v with PyNone => true | _ => false end.

(** [isinstance(v, dict)] *)
Definition is_dict (v : PyVal) : bool :=
  match v with PyDict _ => true | _ => false end.

(** The elements of a list or tuple; the validators iterate, index and
    slice a value only after [isinstance(_, (list, tuple))] held. *)
Definition seq_items (v : PyVal) : list PyVal :=
  match v with PyList l | PyTuple l => l | _ => [] end.

(** [getattr(v, "id", None)] *)
Definition getattr_id (v : PyVal) : PyVal :=
  match v with PyComponent _ i _ _ _ => i | _ => PyNone end.

(** [getattr(v, "children", None)] *)
Definition getattr_children (v : PyVal) : PyVal :=
  match v with PyComponent _ _ _ _ c => c | _ => PyNone end.

(** The number a [bool], [int] or [float] stands for. *)
Definition as_number (v : PyVal) : option Q :=
  match v with
  | PyBool b => Some (inject_Z (if b then 1 else 0))
  | PyInt n => Some (inject_Z n)
  | PyFloat q => Some q
  | _ => None
  end.

(** ** Exceptions and results *)

(** The four messages of [DuplicateCallbackOutput]
    ([prevent_duplicate_outputs]). *)
Inductive DuplicateOutputMsg :=
| SameOutputUsedTwice (out : string)
| TwoOutputsMatchSameId (out out2 : string)
| OutputAlreadySet (new_outputs already_used : list string)
| AlreadyAssigned (out_repr : string).

(** The two messages of [SameInputOutputException]. *)
Inductive SameInputOutputMsg :=
| SameOutputAndInput (out : string)
| InputAndOutputMatchSameId (in_ out : string).

(** The two messages of [InconsistentCallbackWildcards]. *)
Inductive InconsistentWildcardsMsg :=
| OutputDoesNotMatchFirst (out first : PyVal)
| NotCoveredByOutputs (any_keys : list PyVal) (dep : PyVal)
                      (wildcard_keys : list PyVal).

(** The messages of [IncorrectTypeException]. *)
Inductive IncorrectTypeMsg :=
| MustBeListOrTuple (cls : DepClass) (args : PyVal)
| MustBeOfType (cls : DepClass) (arg : PyVal)
| PropertyMustBeString (prop : PyVal)
| IdMustBeStringOrDict (component_id : PyVal)
| KeyMustBeNonEmptyString (k arg_id : PyVal)
| ValueMustBeScalarOrWildcard (cls : DepClass) (k arg_id : PyVal).

(** The messages of [InvalidCallbackReturnValue]: four of
    [validate_multi_return] and two of [fail_callback_output]. *)
Inductive ReturnValueMsg :=
| ExpectedListOrTuple (callback_id output_value : PyVal)
| InvalidNumberOfValues (callback_id : PyVal) (expected got : nat)
| WildcardExpectedListOrTuple (callback_id : PyVal) (i : nat) (vi : PyVal)
| WildcardInvalidNumberOfValues (callback_id : PyVal) (len_vi len_outi : nat)
| BadValue (output_repr : string) (toplevel : bool) (bad_val outer_val : PyVal)
           (outer_id path : string) (index : option nat)
| NotJsonSerializable (component_property component_id : string).

(** The exceptions of [dash.exceptions] the validators raise, and the
    built-in exceptions of the Python operations they perform. *)
Inductive exn :=
| LayoutIsNotDefined
| MissingInputsException
| IncorrectTypeException (m : IncorrectTypeMsg)
| NonExistentEventException
| InvalidComponentIdError (arg_id : string) (invalid_found : list ascii)
| NonExistentIdException (arg_id : string) (ids_in_layout : list PyVal)
| NonExistentPropException (arg_prop arg_id : PyVal)
| DuplicateCallbackOutput (m : DuplicateOutputMsg)
| SameInputOutputException (m : SameInputOutputMsg)
| InconsistentCallbackWildcards (m : InconsistentWildcardsMsg)
| InvalidCallbackReturnValue (m : ReturnValueMsg)
| DuplicateIdError (component_id : PyVal)
| NoLayoutException
| IndexError
| KeyError (key : PyVal)
| AttributeError (attr : string)
| TypeError
| ValueError.

Inductive result (A : Type) :=
| Ok (a : A)
| Raise (e : exn).
Arguments Ok {A} a.
Arguments Raise {A} e.

#[global] Instance result_ret : MRet result := fun A a => Ok a.

#[global] Instance result_bind : MBind result := fun A B k r =>
  match r with
  | Ok a => k a
  | Raise e => Raise e
  end.

(** [for x in l: body(x)], left as soon as a body raises. *)
Fixpoint for_each {A : Type} (l : list A) (body : A -> result unit)
  : result unit :=
  match l with
  | [] => Ok tt
  | x :: rest => body x ;; for_each rest body
  end.

(** [for i, x in enumerate(l): body(i, x)], counting from [i]. *)
Fixpoint for_each_from {A : Type} (i : nat) (l : list A)
         (body : nat -> A -> result unit) : result unit :=
  match l with
  | [] => Ok tt
  | x :: rest => body i x ;; for_each_from (S i) rest body
  end.

(** [l[i]] *)
Definition index {A : Type} (l : list A) (i : nat) : result A :=
  match l !! i with
  | Some x => Ok x
  | None => Raise IndexError
  end.


(** ** The imported modules, as interfaces *)

(** [dash.dependencies]: what [DashDependency] and its three subclasses
    provide to the validators. *)
Class Dependencies := {
  (** [a == b] for two dependencies, that is [DashDependency.__eq__(a, b)] *)
  dep_eq : PyVal -> PyVal -> bool;
  (** [str(a)] *)
  dep_str : PyVal -> string;
  (** [repr(a)] *)
  dep_repr : PyVal -> string;
  (** [cls.allowed_wildcards] *)
  allowed_wildcards : DepClass -> list Wildcard
}.

(** [dash.development.base_component]: what a [Component] provides. *)
Class BaseComponent := {
  (** [c._traverse_with_paths()], the items of the tree of children with
      their paths *)
  _traverse_with_paths : PyVal -> list (string * PyVal);
  (** [c._traverse()], the items of the tree of children *)
  _traverse : PyVal -> list PyVal;
  (** [k in c] *)
  component_contains : PyVal -> PyVal -> bool;
  (** [c[k]], [None] standing for [KeyError] *)
  component_getitem : PyVal -> PyVal -> option PyVal;
  (** [[k for k in c]] *)
  component_iter : PyVal -> list PyVal;
  (** [bool(c)], which [Component.__len__] decides *)
  component_bool : PyVal -> bool
}.

(** [dash._utils] *)
Class Utils := {
  (** [stringify_id(id_)] *)
  stringify_id : PyVal -> PyVal
}.

Section Validate.

Context `{Dependencies} `{BaseComponent} `{Utils}.

(** ** Truth value and equality of Python values *)

(** [bool(v)] *)
Definition truthy (v : PyVal) : bool :=
  match v with
  | PyNone => false
  | PyBool b => b
  | PyInt n => negb (Z.eqb n 0)
  | PyFloat q => negb (Qeq_bool q (inject_Z 0))
  | PyStr s => negb (String.eqb s "")
  | PyWildcard _ => true
  | PyList l | PyTuple l => match l with [] => false | _ => true end
  | PyDict d => match d with [] => false | _ => true end
  | PyDep _ _ _ _ => true
  | PyComponent _ _ _ _ _ => component_bool v
  | PyObject _ t => t
  end.

(** [a == b]: numbers by value, strings, lists, tuples and dicts by
    content, two dependencies by their [__eq__] (a dependency is not equal
    to a value that is not one), wildcards by identity.  A component or
    other object has no [__eq__] and is equal to itself only; the embedding
    has no object identity and takes two such values to be different
    objects. *)
Fixpoint py_eq (a b : PyVal) {struct a} : bool :=
  match a with
  | PyNone => match b with PyNone => true | _ => false end
  | PyBool _ | PyInt _ | PyFloat _ =>
      match as_number a, as_number b with
      | Some x, Some y => Qeq_bool x y
      | _, _ => false
      end
  | PyStr s => match b with PyStr t => String.eqb s t | _ => false end
  | PyWildcard w =>
      match b with PyWildcard w' => Wildcard_eqb w w' | _ => false end
  | PyList l =>
      match b with
      | PyList l' =>
          (fix go (l l' : list PyVal) {struct l} : bool :=
             match l, l' with
             | [], [] => true
             | x :: r, y :: r' => py_eq x y && go r r'
             | _, _ => false
             end) l l'
      | _ => false
      end
  | PyTuple l =>
      match b with
      | PyTuple l' =>
          (fix go (l l' : list PyVal) {struct l} : bool :=
             match l, l' with
             | [], [] => true
             | x :: r, y :: r' => py_eq x y && go r r'
             | _, _ => false
             end) l l'
      | _ => false
      end
  | PyDict d =>
      match b with
      | PyDict d' =>
          Nat.eqb (length d) (length d')
          && (fix go (d : list (PyVal * PyVal)) {struct d} : bool :=
                match d with
                | [] => true
                | (k, v) :: r =>
                    existsb (fun kv' => py_eq k (fst kv') && py_eq v (snd kv')) d'
                    && go r
                end) d
      | _ => false
      end
  | PyDep _ _ _ _ => match b with PyDep _ _ _ _ => dep_eq a b | _ => false end
  | PyComponent _ _ _ _ _ => false
  | PyObject _ _ => false
  end.

(** [v in wildcards], for a tuple of wildcard objects. *)
Definition in_wildcards (v : PyVal) (wildcards : list Wildcard) : bool :=
  match v with
  | PyWildcard w => existsb (Wildcard_eqb w) wildcards
  | _ => false
  end.

(** [k in s], for a set [s] of dict keys held as a list. *)
Definition key_in (k : PyVal) (s : list PyVal) : bool :=
  existsb (py_eq k) s.

(** [a != b], for two sets of dict keys. *)
Definition key_set_ne (a b : list PyVal) : bool :=
  negb (forallb (fun k => key_in k b) a && forallb (fun k => key_in k a) b).

(** [a - b], for two sets of dict keys. *)
Definition key_set_diff (a b : list PyVal) : list PyVal :=
  List.filter (fun k => negb (key_in k b)) a.

(** [d.get(k)] *)
Definition dict_get (d : list (PyVal * PyVal)) (k : PyVal) : PyVal :=
  match List.find (fun kv => py_eq (fst kv) k) d with
  | Some kv => snd kv
  | None => PyNone
  end.

(** [x in s], for a character [x] and a string [s]. *)
Fixpoint char_in (x : ascii) (s : string) : bool :=
  match s with
  | EmptyString => false
  | String c rest => Ascii.eqb x c || char_in x rest
  end.

(** ["\n"] *)
Definition newline : string := String (ascii_of_nat 10) EmptyString.

(** ** The validators of [_validate.py] *)

(** [dep.component_property] *)
Definition getattr_component_property (output : PyVal) : result PyVal :=
  match output with
  | PyDep _ _ p _ => Ok p
  | _ => Raise (AttributeError "component_property")
  end.

(** [dep.component_id] *)
Definition getattr_component_id (output : PyVal) : result PyVal :=
  match output with
  | PyDep _ i _ _ => Ok i
  | _ => Raise (AttributeError "component_id")
  end.

(** The attributes of the application object the validators read:
    [app.config.suppress_callback_exceptions] and [app.used_outputs]. *)
Record App := {
  suppress_callback_exceptions : bool;
  used_outputs : list PyVal
}.

(** [validate_prop_for_component(arg, component)].  A property that is
    not a string is none of the [available_properties], which are strings;
    [any] then calls its [startswith] for the first wildcard property, if
    there is one. *)
Definition validate_prop_for_component (arg component : PyVal) : result unit :=
  match arg with
  | PyDep _ arg_id arg_prop _ =>
      match component with
      | PyComponent _ _ available_properties available_wildcard_properties _ =>
          match arg_prop with
          | PyStr p =>
              if negb (existsb (String.eqb p) available_properties)
                 && negb (existsb (fun w => String.prefix w p)
                                  available_wildcard_properties)
              then Raise (NonExistentPropException arg_prop arg_id)
              else Ok tt
          | _ =>
              match available_wildcard_properties with
              | [] => Raise (NonExistentPropException arg_prop arg_id)
              | _ :: _ => Raise (AttributeError "startswith")
              end
          end
      | _ => Raise (AttributeError "available_properties")
      end
  | _ => Raise (AttributeError "component_property")
  end.

(** [validate_id_string(arg, layout, validate_ids)] *)
Definition validate_id_string (arg layout : PyVal) (validate_ids : bool)
  : result unit :=
  match arg with
  | PyDep _ (PyStr arg_id) _ _ =>
      let invalid_chars := ["."%char; "{"%char] in
      let invalid_found := List.filter (fun x => char_in x arg_id) invalid_chars in
      match invalid_found with
      | _ :: _ => Raise (InvalidComponentIdError arg_id invalid_found)
      | [] =>
          if validate_ids then
            let top_id := getattr_id layout in
            if negb (component_contains layout (PyStr arg_id))
               && negb (py_eq (PyStr arg_id) top_id)
            then Raise (NonExistentIdException arg_id
                          (component_iter layout
                           ++ (if truthy top_id then [top_id] else [])))
            else
              component ← (if py_eq top_id (PyStr arg_id) then Ok layout
                           else match component_getitem layout (PyStr arg_id) with
                                | Some c => Ok c
                                | None => Raise (KeyError (PyStr arg_id))
                                end);
              validate_prop_for_component arg component
          else Ok tt
      end
  | _ => Raise TypeError
  end.

(** The local function [id_match(c)] of [validate_id_dict]. *)
Definition id_match (arg_id : list (PyVal * PyVal)) (wildcards : list Wildcard)
           (c : PyVal) : bool :=
  let c_id := getattr_id c in
  match c_id with
  | PyDict c_items =>
      forallb (fun kv =>
                 let k := fst kv in
                 let v := snd kv in
                 component_contains c k && in_wildcards v wildcards
                 || py_eq v (dict_get c_items k))
              arg_id
  | _ => false
  end.

(** [isinstance(v, _strings + (int, float, bool))] *)
Definition is_scalar (v : PyVal) : bool :=
  match v with
  | PyStr _ | PyInt _ | PyFloat _ | PyBool _ => true
  | _ => false
  end.

(** [validate_id_dict(arg, layout, validate_ids, wildcards)] *)
Definition validate_id_dict (arg layout : PyVal) (validate_ids : bool)
           (wildcards : list Wildcard) : result unit :=
  match arg with
  | PyDep cls (PyDict arg_id) _ _ =>
      (if validate_ids then
         let component :=
           if id_match arg_id wildcards layout then layout
           else match List.find (id_match arg_id wildcards) (_traverse layout) with
                | Some c => c
                | None => PyNone
                end in
         if truthy component then validate_prop_for_component arg component
         else Ok tt
       else Ok tt) ;;
      for_each arg_id (fun kv =>
        let k := fst kv in
        let v := snd kv in
        if negb (truthy k && is_string k)
        then Raise (IncorrectTypeException
                      (KeyMustBeNonEmptyString k (PyDict arg_id)))
        else if negb (in_wildcards v wildcards || is_scalar v)
        then Raise (IncorrectTypeException
                      (ValueMustBeScalarOrWildcard cls k (PyDict arg_id)))
        else Ok tt)
  | _ => Raise TypeError
  end.

(** The body of the loop of [validate_callback_args]. *)
Definition validate_callback_arg (cls : DepClass) (layout : PyVal)
           (validate_ids : bool) (arg : PyVal) : result unit :=
  match arg with
  | PyDep c component_id component_property component_event =>
      if negb (DepClass_eqb c cls)
      then Raise (IncorrectTypeException (MustBeOfType cls arg))
      else if negb (is_string component_property)
      then Raise (IncorrectTypeException (PropertyMustBeString component_property))
      else if component_event
      then Raise NonExistentEventException
      else if is_dict component_id
      then validate_id_dict arg layout validate_ids (allowed_wildcards cls)
      else if is_string component_id
      then validate_id_string arg layout validate_ids
      else Raise (IncorrectTypeException (IdMustBeStringOrDict component_id))
  | _ => Raise (IncorrectTypeException (MustBeOfType cls arg))
  end.

(** [validate_callback_args(args, cls, layout, validate_ids)] *)
Definition validate_callback_args (args : PyVal) (cls : DepClass)
           (layout : PyVal) (validate_ids : bool) : result unit :=
  if negb (is_list_or_tuple args)
  then Raise (IncorrectTypeException (MustBeListOrTuple cls args))
  else for_each (seq_items args) (validate_callback_arg cls layout validate_ids).

(** The test of one pair of outputs in the first loop of
    [prevent_duplicate_outputs]. *)
Definition check_output_pair (out out2 : PyVal) : result unit :=
  if py_eq out out2 then
    if String.eqb (dep_str out) (dep_str out2)
    then Raise (DuplicateCallbackOutput (SameOutputUsedTwice (dep_str out)))
    else Raise (DuplicateCallbackOutput
                  (TwoOutputsMatchSameId (dep_str out) (dep_str out2)))
  else Ok tt.

(** The first loop of [prevent_duplicate_outputs]:
    [for i, out in enumerate(outputs): for out2 in outputs[i + 1:]: ...] *)
Fixpoint prevent_duplicate_pairs (outputs : list PyVal) : result unit :=
  match outputs with
  | [] => Ok tt
  | out :: rest =>
      for_each rest (check_output_pair out) ;;
      prevent_duplicate_pairs rest
  end.

(** The second loop of [prevent_duplicate_outputs], which fills the set
    [dups]. *)
Definition collect_dups (used : list PyVal) (outputs : list PyVal)
  : gset string :=
  foldl (fun dups out =>
           foldl (fun dups used_out =>
                    if py_eq out used_out then dups ∪ {[ dep_str used_out ]}
                    else dups)
                 dups used)
        ∅ outputs.

(** The end of [prevent_duplicate_outputs], from [if dups:].  The order
    of [list(dups)] is that of the iteration of a Python set, which depends
    on the order of the insertions and on the hashes of the strings;
    [elements] lists the strings in one order, so that the [already_used]
    strings of the first message are determined up to their order.  The
    choice between the two messages does not depend on it: [dups[0]] is
    looked at when [dups] has one element only. *)
Definition report_dups (outputs : list PyVal) (dups : gset string)
  : result unit :=
  if bool_decide (dups = ∅) then Ok tt
  else
    let dups := elements dups in
    generic ← (if Nat.ltb 1 (length outputs) then Ok true
               else if Nat.ltb 1 (length dups) then Ok true
               else out ← index outputs 0;
                    d ← index dups 0;
                    Ok (negb (String.eqb (dep_str out) d)));
    if (generic : bool)
    then Raise (DuplicateCallbackOutput
                  (OutputAlreadySet (map dep_str outputs) dups))
    else out ← index outputs 0;
         Raise (DuplicateCallbackOutput (AlreadyAssigned (dep_repr out))).

(** [prevent_duplicate_outputs(app, outputs)] *)
Definition prevent_duplicate_outputs (app : App) (outputs : list PyVal)
  : result unit :=
  prevent_duplicate_pairs outputs ;;
  report_dups outputs (collect_dups (used_outputs app) outputs).

(** The test of one input against one output in
    [prevent_input_output_overlap]. *)
Definition check_input_output (in_ out : PyVal) : result unit :=
  if py_eq out in_ then
    if String.eqb (dep_str out) (dep_str in_)
    then Raise (SameInputOutputException (SameOutputAndInput (dep_str out)))
    else Raise (SameInputOutputException
                  (InputAndOutputMatchSameId (dep_str in_) (dep_str out)))
  else Ok tt.

(** [prevent_input_output_overlap(inputs, outputs)] *)
Definition prevent_input_output_overlap (inputs outputs : list PyVal)
  : result unit :=
  for_each inputs (fun in_ => for_each outputs (check_input_output in_)).

(** [get_wildcard_keys(dep, wildcards)] *)
Definition get_wildcard_keys (dep : PyVal) (wildcards : list Wildcard)
  : result (list PyVal) :=
  _id ← getattr_component_id dep;
  match _id with
  | PyDict items =>
      Ok (map fst (List.filter (fun kv => in_wildcards (snd kv) wildcards) items))
  | _ => Ok []
  end.

(** [prevent_inconsistent_wildcards(outputs, inputs, state)] *)
Definition prevent_inconsistent_wildcards (outputs inputs state : list PyVal)
  : result unit :=
  first ← index outputs 0;
  any_keys ← get_wildcard_keys first [ANY];
  for_each (drop 1 outputs) (fun out =>
    keys ← get_wildcard_keys out [ANY];
    if key_set_ne keys any_keys
    then Raise (InconsistentCallbackWildcards (OutputDoesNotMatchFirst out first))
    else Ok tt) ;;
  for_each (inputs ++ state) (fun dep =>
    wildcard_keys ← get_wildcard_keys dep [ANY; ALLSMALLER];
    match key_set_diff wildcard_keys any_keys with
    | _ :: _ => Raise (InconsistentCallbackWildcards
                         (NotCoveredByOutputs any_keys dep wildcard_keys))
    | [] => Ok tt
    end).

(** [validate_callback(app, layout, output, inputs, state)] *)
Definition validate_callback (app : App) (layout output inputs state : PyVal)
  : result unit :=
  let is_multi := is_list_or_tuple output in
  let validate_ids := negb (suppress_callback_exceptions app) in
  if is_none layout && validate_ids
  then Raise LayoutIsNotDefined
  else if negb (truthy inputs)
  then Raise MissingInputsException
  else
    let outputs := (if is_multi then output else PyList [output]) in
    for_each [(outputs, Output); (inputs, Input); (state, State)]
             (fun ac => validate_callback_args (fst ac) (snd ac) layout validate_ids) ;;
    prevent_duplicate_outputs app (seq_items outputs) ;;
    prevent_input_output_overlap (seq_items inputs) (seq_items outputs) ;;
    prevent_inconsistent_wildcards (seq_items outputs) (seq_items inputs)
                                   (seq_items state).

(** [validate_multi_return(outputs_list, output_value, callback_id)] *)
Definition validate_multi_return (outputs_list : list PyVal)
           (output_value callback_id : PyVal) : result unit :=
  if negb (is_list_or_tuple output_value)
  then Raise (InvalidCallbackReturnValue
                (ExpectedListOrTuple callback_id output_value))
  else if negb (Nat.eqb (length (seq_items output_value)) (length outputs_list))
  then Raise (InvalidCallbackReturnValue
                (InvalidNumberOfValues callback_id (length outputs_list)
                                       (length (seq_items output_value))))
  else
    for_each_from 0 outputs_list (fun i outi =>
      if is_list outi then
        vi ← index (seq_items output_value) i;
        if negb (is_list_or_tuple vi)
        then Raise (InvalidCallbackReturnValue
                      (WildcardExpectedListOrTuple callback_id i vi))
        else if negb (Nat.eqb (length (seq_items vi)) (length (seq_items outi)))
        then Raise (InvalidCallbackReturnValue
                      (WildcardInvalidNumberOfValues callback_id
                         (length (seq_items vi)) (length (seq_items outi))))
        else Ok tt
      else Ok tt).

(** ["{:s}".format(v)] (Python 3): the presentation type [s] is that of
    strings; a number raises [ValueError] and any other object, whose
    [__format__] is that of [object], raises [TypeError]. *)
Definition format_s (v : PyVal) : result string :=
  match v with
  | PyStr s => Ok s
  | PyBool _ | PyInt _ | PyFloat _ => Raise ValueError
  | _ => Raise TypeError
  end.

(** The local function [_raise_invalid] of [fail_callback_output]:
    [outer_id] is ["(id={:s})".format(outer_val.id)] when
    [getattr(outer_val, "id", False)] is true, and empty otherwise. *)
Definition raise_invalid (output bad_val outer_val : PyVal) (path : string)
           (index : option nat) (toplevel : bool) : result unit :=
  outer_id ← (if truthy (getattr_id outer_val)
              then s ← format_s (getattr_id outer_val);
                   Ok ("(id=" +:+ s +:+ ")")
              else Ok "");
  Raise (InvalidCallbackReturnValue
           (BadValue (dep_repr output) toplevel bad_val outer_val outer_id
                     path index)).

(** The local function [_value_is_valid]:
    [isinstance(val, _strings + (dict, int, float, type(None), Component))] *)
Definition value_is_valid (val : PyVal) : bool :=
  match val with
  | PyStr _ | PyDict _ | PyInt _ | PyBool _ | PyFloat _ | PyNone
  | PyComponent _ _ _ _ _ => true
  | _ => false
  end.

(** The test of a [children] value, made at two places of
    [_validate_value]. *)
Definition check_child (output val child : PyVal) (path : string)
           (index : option nat) : result unit :=
  if negb (is_sequence child) then
    if truthy child && negb (value_is_valid child)
    then raise_invalid output child val path index false
    else Ok tt
  else Ok tt.

(** The local function [_validate_value(val, index)]. *)
Definition validate_value (output val : PyVal) (index : option nat)
  : result unit :=
  if is_component val then
    for_each (_traverse_with_paths val) (fun pj =>
      let p := fst pj in
      let j := snd pj in
      (if negb (value_is_valid j)
       then raise_invalid output j val p index false
       else Ok tt) ;;
      let child := getattr_children j in
      check_child output val child
                  (p +:+ newline +:+ "[*] " +:+ type_name_of child) index) ;;
    let child := getattr_children val in
    check_child output val child (type_name_of child) index
  else if negb (value_is_valid val)
  then raise_invalid output val (PyStr (type_name_of val)) "" index true
  else Ok tt.

(** [fail_callback_output(output_value, output)] *)
Definition fail_callback_output (output_value output : PyVal) : result unit :=
  (if is_list output_value
   then for_each_from 0 (seq_items output_value)
                      (fun i val => validate_value output val (Some i))
   else validate_value output output_value None) ;;
  component_property ← getattr_component_property output;
  component_id ← getattr_component_id output;
  property ← format_s component_property;
  id ← format_s component_id;
  Raise (InvalidCallbackReturnValue (NotJsonSerializable property id)).

(** The loop of [validate_layout], with the set [component_ids] it
    updates. *)
Fixpoint check_component_ids (components : list PyVal)
         (component_ids : list PyVal) : result unit :=
  match components with
  | [] => Ok tt
  | component :: rest =>
      let component_id := stringify_id (getattr_id component) in
      if truthy component_id && key_in component_id component_ids
      then Raise (DuplicateIdError component_id)
      else check_component_ids rest (component_id :: component_ids)
  end.

(** [validate_layout(layout, layout_value)] *)
Definition validate_layout (layout layout_value : PyVal) : result unit :=
  if is_none layout then Raise NoLayoutException
  else
    let layout_id := stringify_id (getattr_id layout_value) in
    let component_ids := if truthy layout_id then [layout_id] else [] in
    check_component_ids (_traverse layout_value) component_ids.

End Validate.


(** ** The validators of the application's set-up *)

(** [check_obsolete], [validate_js_path] and [validate_index] raise
    exceptions of their own, and have a result type of their own. *)

(** The two messages of [DependencyException] ([validate_js_path]): the
    first is formatted with [list(registered_paths.keys())], the second
    with [registered_paths]. *)
Inductive DependencyMsg :=
| NotARegisteredLibrary (package_name : string) (registered : gset string)
| PathNotValid (package_name path_in_package_dist : string)
               (registered_paths : gmap string (gset string)).

(** The exceptions of the set-up validators.  [KeywordTypeError] is the
    [TypeError] that [check_obsolete] raises with the text of the built-in
    exception; [ReError] is the [re.error] of a pattern that does not
    compile. *)
Inductive setup_exn :=
| ObsoleteKwargException (key : string)
| KeywordTypeError (message : string)
| DependencyException (m : DependencyMsg)
| InvalidIndexException (message : string)
| ReError (pattern : string).

Inductive setup_result (A : Type) :=
| Passed (a : A)
| Failed (e : setup_exn).
Arguments Passed {A} a.
Arguments Failed {A} e.

#[global] Instance setup_result_ret : MRet setup_result := fun A a => Passed a.

#[global] Instance setup_result_bind : MBind setup_result := fun A B k r =>
  match r with
  | Passed a => k a
  | Failed e => Failed e
  end.

(** [for x in l: body(x)], left as soon as a body raises. *)
Fixpoint setup_for_each {A : Type} (l : list A) (body : A -> setup_result unit)
  : setup_result unit :=
  match l with
  | [] => Passed tt
  | x :: rest => body x ;; setup_for_each rest body
  end.

(** [key in ["components_cache_max_age", "static_folder"]] *)
Definition obsolete_key (key : string) : bool :=
  existsb (String.eqb key) ["components_cache_max_age"; "static_folder"].

(** [check_obsolete(kwargs)]; [kwargs] holds the keyword arguments of a
    call, a dict with string keys, in the order of the call. *)
Definition check_obsolete (kwargs : list (string * PyVal)) : setup_result unit :=
  setup_for_each (map fst kwargs) (fun key =>
    (if obsolete_key key
     then Failed (ObsoleteKwargException key)
     else Passed tt) ;;
    Failed (KeywordTypeError
              ("Dash() got an unexpected keyword argument '" +:+ key +:+ "'"))).

(** [validate_js_path(registered_paths, package_name, path_in_package_dist)];
    [registered_paths] maps the name of a package to its set of paths. *)
Definition validate_js_path (registered_paths : gmap string (gset string))
           (package_name path_in_package_dist : string) : setup_result unit :=
  match registered_paths !! package_name with
  | None =>
      Failed (DependencyException
                (NotARegisteredLibrary package_name (dom registered_paths)))
  | Some paths =>
      if negb (bool_decide (path_in_package_dist ∈ paths))
      then Failed (DependencyException
                     (PathNotValid package_name path_in_package_dist
                                   registered_paths))
      else Passed tt
  end.

(** [re]: what [validate_index] uses of Python's regular expressions. *)
Class Re := {
  (** [re.compile(pattern).search(string) is not None]; [None] stands for
      the [re.error] of a pattern that does not compile *)
  re_search : string -> string -> option bool
}.

Section Setup.

Context `{Re}.

(** [[i for check, i in checks if not re.compile(check).search(index)]] *)
Fixpoint missing_items (checks : list (string * string)) (index : string)
  : setup_result (list string) :=
  match checks with
  | [] => Passed []
  | (check, i) :: rest =>
      found ← match re_search check index with
              | Some found => Passed found
              | None => Failed (ReError check)
              end;
      missing ← missing_items rest index;
      Passed (if (found : bool) then missing else i :: missing)
  end.

(** [validate_index(name, checks, index)] *)
Definition validate_index (name : string) (checks : list (string * string))
           (index : string) : setup_result unit :=
  missing ← missing_items checks index;
  match missing with
  | _ :: _ =>
      let plural := if Nat.ltb 1 (length missing) then "s" else "" in
      Failed (InvalidIndexException
                ("Missing item" +:+ plural +:+ " " +:+ String.concat ", " missing
                 +:+ " in " +:+ name +:+ "."))
  | [] => Passed tt
  end.

End Setup.

(** ** An instance of the interfaces, for the examples *)

Module SpecModel.

(** The double quote character. *)
Definition quote : string := String (ascii_of_nat 34) EmptyString.

(** The JSON text of a scalar or wildcard of a dict id. *)
Definition dump_scalar (v : PyVal) : string :=
  match v with
  | PyStr s => quote +:+ s +:+ quote
  | PyInt n => pretty n
  | PyBool b => if b then "true" else "false"
  | PyWildcard ANY => "[" +:+ quote +:+ "ANY" +:+ quote +:+ "]"
  | PyWildcard ALL => "[" +:+ quote +:+ "ALL" +:+ quote +:+ "]"
  | PyWildcard ALLSMALLER => "[" +:+ quote +:+ "ALLSMALLER" +:+ quote +:+ "]"
  | _ => "null"
  end.

(** The JSON text of a dict id, its entries in the order of the dict. *)
Definition dump_id (d : list (PyVal * PyVal)) : string :=
  "{" +:+ String.concat ","
           (map (fun kv => dump_scalar (fst kv) +:+ ":" +:+ dump_scalar (snd kv)) d)
      +:+ "}".

(** Modelled from the spec: [dash._utils.stringify_id] is not part of the
    verified file.  A component "resolves to a string identity": a dict
    id to its JSON text, any other id to itself. *)
Definition spec_stringify_id (id_ : PyVal) : PyVal :=
  match id_ with
  | PyDict d => PyStr (dump_id d)
  | _ => id_
  end.

#[export] Instance spec_utils : Utils := {| stringify_id := spec_stringify_id |}.

(** [isinstance(v, _Wildcard)] *)
Definition is_wildcard (v : PyVal) : bool :=
  match v with PyWildcard _ => true | _ => false end.

(** Equality of the scalars and wildcards of an id. *)
Definition scalar_eq (a b : PyVal) : bool :=
  match a, b with
  | PyNone, PyNone => true
  | PyStr s, PyStr t => String.eqb s t
  | PyWildcard w, PyWildcard w' => Wildcard_eqb w w'
  | _, _ =>
      match as_number a, as_number b with
      | Some x, Some y => Qeq_bool x y
      | _, _ => false
      end
  end.

(** The value of an id at a key, [None] when the key is absent. *)
Definition id_get (d : list (PyVal * PyVal)) (k : PyVal) : PyVal :=
  match List.find (fun kv => scalar_eq (fst kv) k) d with
  | Some kv => snd kv
  | None => PyNone
  end.

(** Modelled from the spec: [DashDependency.__eq__] of
    [dash.dependencies] is not part of the verified file.  Two
    dependencies are equal when their properties are equal and their ids
    are equal strings, or dicts such that "for every key present in
    either, the values are equal or at least one side is a wildcard
    token". *)
Definition spec_dep_eq (a b : PyVal) : bool :=
  match a, b with
  | PyDep _ i p _, PyDep _ i' p' _ =>
      scalar_eq p p'
      && match i, i' with
         | PyStr s, PyStr t => String.eqb s t
         | PyDict d, PyDict d' =>
             forallb (fun k =>
                        let v := id_get d k in
                        let v' := id_get d' k in
                        scalar_eq v v' || is_wildcard v || is_wildcard v')
                     (map fst d ++ map fst d')
         | _, _ => false
         end
  | _, _ => false
  end.

(** Modelled from the spec: [DashDependency.__str__] is not part of the
    verified file.  The "string representation" of a dependency: its id (a
    dict id as JSON text), a dot, its property. *)
Definition spec_dep_str (a : PyVal) : string :=
  match a with
  | PyDep _ i p _ =>
      match i with
      | PyStr s => s
      | PyDict d => dump_id d
      | _ => "?"
      end +:+ "." +:+ match p with PyStr s => s | _ => "?" end
  | _ => "?"
  end.

(** Modelled from the spec: [DashDependency.__repr__] is not part of the
    verified file.  The name of the class and the string
    representation. *)
Definition spec_dep_repr (a : PyVal) : string :=
  "<" +:+ type_name_of a +:+ " `" +:+ spec_dep_str a +:+ "`>".

(** Modelled from the spec: the [allowed_wildcards] of the three classes
    are not part of the verified file.  "Output permits a subset different
    from Input/State": [ALLSMALLER] is for the latter two only. *)
Definition spec_allowed_wildcards (cls : DepClass) : list Wildcard :=
  match cls with
  | Output => [ANY; ALL]
  | Input | State => [ANY; ALL; ALLSMALLER]
  end.

#[export] Instance spec_dependencies : Dependencies := {|
  dep_eq := spec_dep_eq;
  dep_str := spec_dep_str;
  dep_repr := spec_dep_repr;
  allowed_wildcards := spec_allowed_wildcards
|}.

(** The id of an item, as a path shows it. *)
Definition id_suffix (v : PyVal) : string :=
  match spec_stringify_id (getattr_id v) with
  | PyStr s => if String.eqb s "" then "" else " (id=" +:+ s +:+ ")"
  | _ => ""
  end.

(** Modelled from the spec: [Component._traverse_with_paths] is not part
    of the verified file.  "A depth-first traversal that yields every
    descendant exactly once, each paired with a path descriptor": the
    children of a component, each followed by its own descendants. *)
Fixpoint spec_traverse_with_paths (c : PyVal) : list (string * PyVal) :=
  match c with
  | PyComponent _ _ _ _ children =>
      match children with
      | PyComponent n _ _ _ _ =>
          let here := "[*] " +:+ n +:+ id_suffix children in
          (here, children)
          :: map (fun pt => (here +:+ newline +:+ fst pt, snd pt))
                 (spec_traverse_with_paths children)
      | PyList l | PyTuple l =>
          (fix go (idx : nat) (l : list PyVal) {struct l}
             : list (string * PyVal) :=
             match l with
             | [] => []
             | i :: rest =>
                 let here := "[" +:+ pretty idx +:+ "] " +:+ type_name_of i
                                 +:+ id_suffix i in
                 ((here, i)
                  :: map (fun pt => (here +:+ newline +:+ fst pt, snd pt))
                         (spec_traverse_with_paths i))
                 ++ go (S idx) rest
             end) O l
      | _ => []
      end
  | _ => []
  end.

(** Modelled from the spec: [Component._traverse], the items of
    [_traverse_with_paths] without their paths. *)
Definition spec_traverse (c : PyVal) : list PyVal :=
  map snd (spec_traverse_with_paths c).

(** Modelled from the spec: iterating a component yields the ids of the
    descendants that have one. *)
Definition spec_component_iter (c : PyVal) : list PyVal :=
  List.filter (fun i => match i with PyNone => false | _ => true end)
              (map getattr_id (List.filter is_component (spec_traverse c))).

(** Modelled from the spec: the "membership test [id in tree]". *)
Definition spec_component_contains (c k : PyVal) : bool :=
  existsb (fun i => scalar_eq k i) (spec_component_iter c).

(** Modelled from the spec: the "indexed lookup [tree[id]]", the first
    descendant with that id. *)
Definition spec_component_getitem (c k : PyVal) : option PyVal :=
  List.find (fun t => is_component t && scalar_eq (getattr_id t) k)
            (spec_traverse c).

(** Modelled from the spec, which gives a component no truth value of its
    own: an object is true. *)
Definition spec_component_bool (c : PyVal) : bool := true.

#[export] Instance spec_base_component : BaseComponent := {|
  _traverse_with_paths := spec_traverse_with_paths;
  _traverse := spec_traverse;
  component_contains := spec_component_contains;
  component_getitem := spec_component_getitem;
  component_iter := spec_component_iter;
  component_bool := spec_component_bool
|}.

End SpecModel.

(** ** Sample values *)

(** Dependencies, with ids and properties as an application writes
    them. *)
Definition out_children (component_id : PyVal) : PyVal :=
  PyDep Output component_id (PyStr "children") false.

Definition in_value (component_id : PyVal) : PyVal :=
  PyDep Input component_id (PyStr "value") false.

Definition id_type_index (index : PyVal) : PyVal :=
  PyDict [(PyStr "type", PyStr "x"); (PyStr "index", index)].

Definition app_suppressed (used : list PyVal) : App :=
  {| suppress_callback_exceptions := true; used_outputs := used |}.

(** A layout in which the id [a] occurs twice. *)
Definition layout_twice : PyVal :=
  PyComponent "Div" (PyStr "root") ["children"] []
    (PyList [PyComponent "Div" (PyStr "a") ["children"] [] PyNone;
             PyStr "text";
             PyComponent "P" (PyStr "a") ["children"] [] PyNone]).

(** An application that validates ids. *)
Definition app_validated (used : list PyVal) : App :=
  {| suppress_callback_exceptions := false; used_outputs := used |}.

(** A layout with an input [a], which has the property [value] and the
    properties that start with [data-], and a component with a dict
    id. *)
Definition layout_form : PyVal :=
  PyComponent "Div" (PyStr "root") ["children"] []
    (PyList [PyComponent "Input" (PyStr "a") ["value"] ["data-"] PyNone;
             PyComponent "Div" (id_type_index (PyInt 1)) ["children"] []
                         PyNone]).

(** A layout whose descendants have no id. *)
Definition layout_plain : PyVal :=
  PyComponent "Div" (PyStr "root") ["children"] []
    (PyList [PyComponent "P" PyNone ["children"] [] (PyStr "text");
             PyComponent "P" PyNone ["children"] [] (PyStr "text")]).

(** A registry of paths with one package. *)
Definition registry_core : gmap string (gset string) :=
  {[ "dash_core_components" := {[ "dash_core_components.min.js" ]} ]}.

(** [re] for the patterns that have no special character: the pattern
    is searched as a text. *)
Definition literal_re : Re :=
  {| re_search pattern text :=
       Some (match String.index 0 pattern text with
             | Some _ => true
             | None => false
             end) |}.

(** The checks of an index for two placeholders. *)
Definition placeholder_checks : list (string * string) :=
  [("%config%", "config"); ("%scripts%", "scripts");
   ("%renderer%", "renderer")].

(** * Specification *)

(** The predicates in which the properties of the validators are stated. *)

Section Specification.

Context `{Dependencies} `{BaseComponent} `{Utils}.

(** ** Return values of a multi-output callback *)

(** Position [i] of the declared outputs is a group and the returned
    element at [i] does not fit it. *)
Definition group_mismatch (outputs_list vals : list PyVal) : Prop :=
  exists i outi vi,
    outputs_list !! i = Some outi /\ is_list outi = true /\
    vals !! i = Some vi /\
    (is_list_or_tuple vi = false \/
     length (seq_items vi) <> length (seq_items outi)).

(** The returned value does not have the shape of the declared outputs. *)
Definition bad_multi_return (outputs_list : list PyVal) (output_value : PyVal)
  : Prop :=
  is_list_or_tuple output_value = false \/
  length (seq_items output_value) <> length outputs_list \/
  group_mismatch outputs_list (seq_items output_value).

(** The body of the loop of [validate_multi_return]. *)
Definition group_check (callback_id : PyVal) (vals : list PyVal)
           (i : nat) (outi : PyVal) : result unit :=
  if is_list outi then
    vi ← index vals i;
    if negb (is_list_or_tuple vi)
    then Raise (InvalidCallbackReturnValue
                  (WildcardExpectedListOrTuple callback_id i vi))
    else if negb (Nat.eqb (length (seq_items vi)) (length (seq_items outi)))
    then Raise (InvalidCallbackReturnValue
                  (WildcardInvalidNumberOfValues callback_id
                     (length (seq_items vi)) (length (seq_items outi))))
    else Ok tt
  else Ok tt.

(** ** Duplicate ids of a layout *)

(** The root's stringified id followed by the stringified ids of the
    items [_traverse] yields. *)
Definition layout_ids (layout_value : PyVal) : list PyVal :=
  stringify_id (getattr_id layout_value)
  :: map (fun c => stringify_id (getattr_id c)) (_traverse layout_value).

(** A non-empty string occurs at two positions of [ids]. *)
Definition duplicate_id (ids : list PyVal) : Prop :=
  exists i j s,
    (i < j)%nat /\ ids !! i = Some (PyStr s) /\ ids !! j = Some (PyStr s) /\
    s <> "".

(** A stringified id is [None] or a string. *)
Definition none_or_string (v : PyVal) : Prop :=
  v = PyNone \/ is_string v = true.

(** ** The steps of [validate_callback] *)

(** [outputs = output if is_multi else [output]] *)
Definition outputs_of (output : PyVal) : PyVal :=
  if is_list_or_tuple output then output else PyList [output].

(** The registration passes the precondition checks and the checks of
    [validate_callback_args] on its outputs, inputs and state, so that
    [validate_callback] goes on to the three checks across
    dependencies. *)
Definition passes_argument_checks (app : App)
           (layout output inputs state : PyVal) : Prop :=
  let validate_ids := negb (suppress_callback_exceptions app) in
  is_none layout && validate_ids = false /\
  truthy inputs = true /\
  validate_callback_args (outputs_of output) Output layout validate_ids = Ok tt /\
  validate_callback_args inputs Input layout validate_ids = Ok tt /\
  validate_callback_args state State layout validate_ids = Ok tt.

(** ** Duplicate outputs within one callback *)

(** Two positions [i < j] of the declared outputs hold outputs that
    compare equal. *)
Definition equal_outputs_at (outputs : list PyVal) (i j : nat) (a b : PyVal)
  : Prop :=
  (i < j)%nat /\ outputs !! i = Some a /\ outputs !! j = Some b /\
  py_eq a b = true.

(** Some two declared outputs compare equal. *)
Definition has_equal_outputs (outputs : list PyVal) : Prop :=
  exists i j a b, equal_outputs_at outputs i j a b.

(** The message for a pair of equal outputs. *)
Definition pair_message (a b : PyVal) : DuplicateOutputMsg :=
  if String.eqb (dep_str a) (dep_str b)
  then SameOutputUsedTwice (dep_str a)
  else TwoOutputsMatchSameId (dep_str a) (dep_str b).

(** ** Outputs already set by another callback *)

(** A declared output compares equal to a registered output. *)
Definition overlaps_registered (used outputs : list PyVal) : Prop :=
  exists out used_out,
    out ∈ outputs /\ used_out ∈ used /\ py_eq out used_out = true.

(** The new callback declares one output, and the registered outputs it
    overlaps all have the string representation of that output. *)
Definition single_exact_match (outputs : list PyVal) (dups : gset string)
  : Prop :=
  exists out, outputs = [out] /\ dups = {[ dep_str out ]}.

(** ** An input that is also an output *)

(** An input compares equal to a declared output. *)
Definition input_equals_output (inputs outputs : list PyVal) : Prop :=
  exists in_ out, in_ ∈ inputs /\ out ∈ outputs /\ py_eq out in_ = true.

(** The message for an input and an output that compare equal. *)
Definition overlap_message (in_ out : PyVal) : SameInputOutputMsg :=
  if String.eqb (dep_str out) (dep_str in_)
  then SameOutputAndInput (dep_str out)
  else InputAndOutputMatchSameId (dep_str in_) (dep_str out).

(** ** What the checks of [validate_callback_args] establish *)

(** An entry of a dict id that passed [validate_id_dict]. *)
Definition well_formed_entry (cls : DepClass) (kv : PyVal * PyVal) : Prop :=
  (exists k, kv.1 = PyStr k /\ k <> "") /\
  (in_wildcards kv.2 (allowed_wildcards cls) = true \/ is_scalar kv.2 = true).

(** A dependency that passed the checks of its class. *)
Definition well_formed_dep (cls : DepClass) (arg : PyVal) : Prop :=
  exists i p,
    arg = PyDep cls i (PyStr p) false /\
    ((exists s, i = PyStr s /\ char_in "." s = false /\ char_in "{" s = false) \/
     (exists d, i = PyDict d /\ Forall (well_formed_entry cls) d)).

(** ** Consistency of the wildcards *)

(** An instance of [Output], [Input] or [State]. *)
Definition is_dependency (v : PyVal) : Prop :=
  exists cls i p e, v = PyDep cls i p e.

(** A dependency whose dict id, if it has one, has string keys. *)
Definition string_keyed_dep (dep : PyVal) : Prop :=
  exists cls i p e,
    dep = PyDep cls i p e /\
    forall d, i = PyDict d -> Forall (fun kv => is_string kv.1 = true) d.

(** [k] is a key of the dict id of [dep] whose value is one of the
    wildcards [ws]. *)
Definition wildcard_key (dep : PyVal) (ws : list Wildcard) (k : PyVal) : Prop :=
  exists cls d p e w,
    dep = PyDep cls (PyDict d) p e /\ (k, PyWildcard w) ∈ d /\ w ∈ ws.

(** The wildcards of a registration are inconsistent: an output other
    than the first does not have the [ANY] keys of the first, or an input
    or state has [ANY] or [ALLSMALLER] on a key that is not an [ANY] key
    of the first output. *)
Definition inconsistent_wildcards (first : PyVal) (rest inputs state : list PyVal)
  : Prop :=
  (exists out, out ∈ rest /\
     ~ (forall k, wildcard_key out [ANY] k <-> wildcard_key first [ANY] k)) \/
  (exists dep k, dep ∈ inputs ++ state /\
     wildcard_key dep [ANY; ALLSMALLER] k /\ ~ wildcard_key first [ANY] k).

(** ** The first dependency that fails its checks *)

(** The argument of [validate_callback] that holds the dependencies of
    class [cls]. *)
Definition arguments_of (cls : DepClass) (output inputs state : PyVal) : PyVal :=
  match cls with
  | Output => outputs_of output
  | Input => inputs
  | State => state
  end.

(** The arguments checked before those of class [cls] pass their
    checks. *)
Definition earlier_arguments_pass (app : App)
           (layout output inputs state : PyVal) (cls : DepClass) : Prop :=
  let validate_ids := negb (suppress_callback_exceptions app) in
  match cls with
  | Output => True
  | Input =>
      validate_callback_args (outputs_of output) Output layout validate_ids
      = Ok tt
  | State =>
      validate_callback_args (outputs_of output) Output layout validate_ids
      = Ok tt /\
      validate_callback_args inputs Input layout validate_ids = Ok tt
  end.

(** [validate_callback] reaches the checks of the dependency [arg] of
    class [cls]: the precondition checks pass, the arguments checked
    before those of [cls] pass, and so do the dependencies that come
    before [arg] in its argument. *)
Definition reaches_dependency (app : App) (layout output inputs state : PyVal)
           (cls : DepClass) (arg : PyVal) : Prop :=
  let validate_ids := negb (suppress_callback_exceptions app) in
  is_none layout && validate_ids = false /\
  truthy inputs = true /\
  earlier_arguments_pass app layout output inputs state cls /\
  is_list_or_tuple (arguments_of cls output inputs state) = true /\
  exists pre post,
    seq_items (arguments_of cls output inputs state) = pre ++ arg :: post /\
    Forall (fun a => validate_callback_arg cls layout validate_ids a = Ok tt)
           pre.

(** ** Ids that are not in the layout *)

(** [e] is not [NonExistentIdException]. *)
Definition not_nonexistent_id (e : exn) : Prop :=
  forall arg_id ids, e <> NonExistentIdException arg_id ids.

(** ** Failure of a callback's return value *)

(** A value that [_validate_value] tests: the value, the value it is
    reported under, its path, the index of the returned element it belongs
    to, and whether it is at the top level. *)
Record Examined := {
  ex_val : PyVal;
  ex_outer : PyVal;
  ex_path : string;
  ex_index : option nat;
  ex_toplevel : bool
}.

(** A [children] value is tested when it is not a sequence and is
    true. *)
Definition examined_child (val child : PyVal) (path : string)
           (index : option nat) : list Examined :=
  if is_sequence child then []
  else if truthy child then [Build_Examined child val path index false]
  else [].

(** The values tested for one returned value, in the order of the tests:
    for a component, each item of its traversal followed by the [children]
    of that item, then the [children] of the component itself; for any
    other value, the value. *)
Definition examined_values (val : PyVal) (index : option nat) : list Examined :=
  if is_component val then
    flat_map (fun pj =>
                Build_Examined pj.2 val pj.1 index false
                :: examined_child val (getattr_children pj.2)
                     (pj.1 +:+ newline +:+ "[*] "
                      +:+ type_name_of (getattr_children pj.2)) index)
             (_traverse_with_paths val)
    ++ examined_child val (getattr_children val)
                      (type_name_of (getattr_children val)) index
  else [Build_Examined val (PyStr (type_name_of val)) "" index true].

(** The values tested for the elements of a returned list, the first of
    which has index [i]. *)
Fixpoint examined_from (i : nat) (vals : list PyVal) : list Examined :=
  match vals with
  | [] => []
  | val :: rest => examined_values val (Some i) ++ examined_from (S i) rest
  end.

(** The values tested for the whole return value: those of each element
    when it is a list, those of the value otherwise. *)
Definition examined (output_value : PyVal) : list Examined :=
  if is_list output_value then examined_from 0 (seq_items output_value)
  else examined_values output_value None.

(** The first tested value that is not a string, number, boolean, [None],
    dict or component. *)
Definition first_invalid (l : list Examined) : option Examined :=
  List.find (fun x => negb (value_is_valid (ex_val x))) l.

(** What [_validate_value] does with the first invalid value it
    finds. *)
Definition report (output : PyVal) (found : option Examined) : result unit :=
  match found with
  | Some x => raise_invalid output (ex_val x) (ex_outer x) (ex_path x)
                            (ex_index x) (ex_toplevel x)
  | None => Ok tt
  end.

(** The value has no id, or a string id. *)
Definition id_is_string (v : PyVal) : Prop :=
  getattr_id v = PyNone \/ is_string (getattr_id v) = true.

(** The value [x] is reported under has no id, or a string id. *)
Definition outer_id_is_string (x : Examined) : Prop :=
  id_is_string (ex_outer x).

(** The values [_validate_value] is called on: the elements of a returned
    list, or the returned value. *)
Definition returned_values (output_value : PyVal) : list PyVal :=
  if is_list output_value then seq_items output_value else [output_value].

End Specification.


(** * Further specification *)

(** The predicates for further properties of the validators: the
    preconditions of [validate_callback] and the exceptions it raises, the
    check of a property against a component, the registrations that are
    accepted, and the validators of the application's set-up. *)

Section FurtherSpecification.

Context `{Dependencies} `{BaseComponent} `{Utils}.

(** ** The exceptions of [validate_callback] *)

(** The exceptions of the checks of one dependency that do not look at
    the layout. *)
Definition shape_exception (e : exn) : Prop :=
  match e with
  | IncorrectTypeException _ | NonExistentEventException
  | InvalidComponentIdError _ _ => True
  | _ => False
  end.

(** The exceptions of the checks of one dependency against the layout. *)
Definition layout_exception (e : exn) : Prop :=
  match e with
  | NonExistentIdException _ _ | NonExistentPropException _ _ => True
  | _ => False
  end.

(** The built-in exceptions of [layout[arg_id]] and of the attributes of
    what it returns. *)
Definition lookup_exception (e : exn) : Prop :=
  match e with
  | KeyError _ | AttributeError _ => True
  | _ => False
  end.

(** The exceptions of the three checks across dependencies. *)
Definition cross_exception (e : exn) : Prop :=
  match e with
  | DuplicateCallbackOutput _ | SameInputOutputException _
  | InconsistentCallbackWildcards _ => True
  | _ => False
  end.

(** The ten exceptions of [dash.exceptions] that [validate_callback]
    raises. *)
Definition callback_exception (e : exn) : Prop :=
  e = LayoutIsNotDefined \/ e = MissingInputsException \/
  shape_exception e \/ layout_exception e \/ cross_exception e.

(** Whenever [k in layout] holds, [layout[k]] is a component. *)
Definition consistent_layout (layout : PyVal) : Prop :=
  forall k, component_contains layout k = true ->
            exists c, component_getitem layout k = Some c /\
                      is_component c = true.

(** ** The property of a dependency *)

(** The component a string id stands for: the layout when it has this
    id, else [layout[arg_id]] when [arg_id in layout] holds. *)
Definition component_with_id (layout : PyVal) (arg_id : string) : option PyVal :=
  if py_eq (getattr_id layout) (PyStr arg_id) then Some layout
  else if component_contains layout (PyStr arg_id)
       then component_getitem layout (PyStr arg_id)
       else None.

(** The component a dict id is checked against: the layout when
    [id_match] holds of it, else the first item of its traversal of which
    it holds. *)
Definition matching_component (arg_id : list (PyVal * PyVal))
           (wildcards : list Wildcard) (layout : PyVal) : option PyVal :=
  if id_match arg_id wildcards layout then Some layout
  else List.find (id_match arg_id wildcards) (_traverse layout).

(** [component] is a component that has the property [prop], by name or
    by the prefix of a wildcard property. *)
Definition has_property (component : PyVal) (prop : string) : Prop :=
  exists n i available_properties available_wildcard_properties c,
    component = PyComponent n i available_properties
                            available_wildcard_properties c /\
    (prop ∈ available_properties \/
     exists w, w ∈ available_wildcard_properties /\ String.prefix w prop = true).

(** ** Registrations that are accepted *)

(** The application with the validation of ids suppressed. *)
Definition suppressed (app : App) : App :=
  {| suppress_callback_exceptions := true; used_outputs := used_outputs app |}.

(** What the checks that do not look at the layout ask of a
    registration: inputs that are not empty, arguments that are lists or
    tuples of well-formed dependencies of their class, outputs that differ
    from each other, from the registered outputs and from the inputs, and
    consistent wildcards. *)
Definition valid_registration (app : App) (output inputs state : PyVal) : Prop :=
  let outputs := seq_items (outputs_of output) in
  truthy inputs = true /\
  (is_list_or_tuple inputs = true /\ is_list_or_tuple state = true) /\
  (Forall (well_formed_dep Output) outputs /\
   Forall (well_formed_dep Input) (seq_items inputs) /\
   Forall (well_formed_dep State) (seq_items state)) /\
  (~ has_equal_outputs outputs /\
   ~ overlaps_registered (used_outputs app) outputs) /\
  ~ input_equals_output (seq_items inputs) outputs /\
  exists first rest,
    outputs = first :: rest /\
    ~ inconsistent_wildcards first rest (seq_items inputs) (seq_items state).

(** ** Results up to the order of a set *)

(** Two results that differ at most in the order of the [already_used]
    strings of the message of [DuplicateCallbackOutput], which is the
    order of the list made of the set [dups]. *)
Definition same_up_to_order (r r' : result unit) : Prop :=
  match r, r' with
  | Ok _, Ok _ => True
  | Raise (DuplicateCallbackOutput (OutputAlreadySet new_outputs already_used)),
    Raise (DuplicateCallbackOutput
             (OutputAlreadySet new_outputs' already_used')) =>
      new_outputs = new_outputs' /\ already_used ≡ₚ already_used'
  | Raise e, Raise e' => e = e'
  | _, _ => False
  end.

(** ** The first id of a layout that occurs twice *)

(** Position [j] of [ids] holds the non-empty string [s], which also
    occurs before [j]. *)
Definition repeats_at (ids : list PyVal) (j : nat) (s : string) : Prop :=
  ids !! j = Some (PyStr s) /\ s <> "" /\ PyStr s ∈ take j ids.

(** [j] is the first position of [ids] that repeats an earlier id. *)
Definition first_repeat (ids : list PyVal) (j : nat) (s : string) : Prop :=
  repeats_at ids j s /\
  forall j' s', (j' < j)%nat -> ~ repeats_at ids j' s'.

(** ** The registry of paths *)

(** Every path registered in [m] is registered in [m']. *)
Definition registry_included (m m' : gmap string (gset string)) : Prop :=
  forall package_name paths,
    m !! package_name = Some paths ->
    exists paths', m' !! package_name = Some paths' /\ paths ⊆ paths'.

End FurtherSpecification.

(** ** The items missing from an index *)

Section IndexSpecification.

Context `{Re}.

(** Every pattern of [checks] compiles. *)
Definition patterns_compile (checks : list (string * string)) (index : string)
  : Prop :=
  Forall (fun c => is_Some (re_search c.1 index)) checks.

(** The names of the checks whose pattern is not found in [index], in the
    order of [checks]. *)
Definition unmatched (checks : list (string * string)) (index : string)
  : list string :=
  map snd (List.filter (fun c => match re_search c.1 index with
                                 | Some false => true
                                 | _ => false
                                 end) checks).

End IndexSpecification.

(** * Properties *)

(** ** Early exit of the loops *)

Lemma bind_Ok_eq {A B : Type} (r : result A) (k : A -> result B) (b : B) :
  r ≫= k = Ok b <-> exists a, r = Ok a /\ k a = Ok b.
Proof.
  destruct r as [a|e]; simpl; split.
  - intros Hk. exists a. split; [reflexivity | exact Hk].
  - intros (a' & Ha & Hk). injection Ha as ->. exact Hk.
  - intros Hk. discriminate Hk.
  - intros (a' & Ha & _). discriminate Ha.
Qed.

Lemma bind_Raise_eq {A B : Type} (r : result A) (k : A -> result B) (e : exn) :
  r ≫= k = Raise e <-> r = Raise e \/ exists a, r = Ok a /\ k a = Raise e.
Proof.
  destruct r as [a|e']; simpl; split.
  - intros Hk. right. exists a. split; [reflexivity | exact Hk].
  - intros [Hr | (a' & Ha & Hk)]; [discriminate Hr |].
    injection Ha as ->. exact Hk.
  - intros Hk. left. injection Hk as ->. reflexivity.
  - intros [Hr | (a' & Ha & _)]; [| discriminate Ha].
    injection Hr as ->. reflexivity.
Qed.

Lemma result_unit_cases (r : result unit) : r = Ok tt \/ exists e, r = Raise e.
Proof. destruct r as [[]|e]; [left | right; exists e]; reflexivity. Qed.

Section Loops.

Context {A : Type}.
Implicit Types (l : list A) (body : A -> result unit).

Lemma for_each_Ok l body :
  for_each l body = Ok tt <-> Forall (fun x => body x = Ok tt) l.
Proof.
  induction l as [|x l IH]; simpl.
  - split; [constructor | reflexivity].
  - rewrite bind_Ok_eq, Forall_cons. split.
    + intros ([] & Hx & Hl). split; [exact Hx | apply IH, Hl].
    + intros [Hx Hl]. exists tt. split; [exact Hx | apply IH, Hl].
Qed.

Lemma for_each_Raise l body e :
  for_each l body = Raise e <->
  exists pre x post,
    l = pre ++ x :: post /\ Forall (fun y => body y = Ok tt) pre /\
    body x = Raise e.
Proof.
  induction l as [|x l IH]; simpl.
  - split; [discriminate |].
    intros (pre & y & post & Hl & _). destruct pre; discriminate Hl.
  - rewrite bind_Raise_eq. split.
    + intros [Hx | ([] & Hx & Hl)].
      * exists [], x, l. repeat split; [constructor | exact Hx].
      * apply IH in Hl as (pre & y & post & -> & Hpre & Hy).
        exists (x :: pre), y, post.
        repeat split; [constructor; assumption | exact Hy].
    + intros (pre & y & post & Hl & Hpre & Hy).
      destruct pre as [|x' pre]; simpl in Hl; injection Hl as -> ->.
      * left. exact Hy.
      * right. exists tt. apply Forall_cons in Hpre as [Hx Hpre].
        split; [exact Hx |]. apply IH. exists pre, y, post. auto.
Qed.

Lemma for_each_raises_only l body (P : exn -> Prop) :
  (forall x e, x ∈ l -> body x = Raise e -> P e) ->
  forall e, for_each l body = Raise e -> P e.
Proof.
  intros Hbody e (pre & x & post & -> & _ & Hx)%for_each_Raise.
  apply (Hbody x); [| exact Hx].
  apply elem_of_app. right. apply list_elem_of_here.
Qed.

Lemma for_each_from_Ok i l (body : nat -> A -> result unit) :
  for_each_from i l body = Ok tt <->
  forall k x, l !! k = Some x -> body (i + k)%nat x = Ok tt.
Proof.
  revert i. induction l as [|x l IH]; intros i; simpl.
  - split; [intros _ k x Hk; discriminate Hk | reflexivity].
  - rewrite bind_Ok_eq. split.
    + intros ([] & Hx & Hl) [|k] y Hk; simpl in Hk.
      * injection Hk as <-. rewrite Nat.add_0_r. exact Hx.
      * rewrite <- Nat.add_succ_comm. apply (proj1 (IH (S i)) Hl k y Hk).
    + intros Hall. exists tt. split.
      * specialize (Hall O x eq_refl). rewrite Nat.add_0_r in Hall. exact Hall.
      * apply IH. intros k y Hk. rewrite Nat.add_succ_comm.
        apply (Hall (S k) y Hk).
Qed.

Lemma for_each_from_Raise i l (body : nat -> A -> result unit) e :
  for_each_from i l body = Raise e <->
  exists k x,
    l !! k = Some x /\ body (i + k)%nat x = Raise e /\
    forall k' x', (k' < k)%nat -> l !! k' = Some x' ->
                  body (i + k')%nat x' = Ok tt.
Proof.
  revert i. induction l as [|x l IH]; intros i; simpl.
  - split; [discriminate | intros (k & x & Hk & _); discriminate Hk].
  - rewrite bind_Raise_eq. split.
    + intros [Hx | ([] & Hx & Hl)].
      * exists O, x. rewrite Nat.add_0_r. repeat split; [exact Hx |].
        intros k' x' Hlt. lia.
      * apply IH in Hl as (k & y & Hk & Hy & Hbefore).
        exists (S k), y. rewrite <- Nat.add_succ_comm.
        repeat split; [exact Hk | exact Hy |].
        intros [|k'] x' Hlt Hk'; simpl in Hk'.
        -- injection Hk' as <-. rewrite Nat.add_0_r. exact Hx.
        -- rewrite <- Nat.add_succ_comm. apply Hbefore; [lia | exact Hk'].
    + intros ([|k] & y & Hk & Hy & Hbefore); simpl in Hk.
      * injection Hk as <-. rewrite Nat.add_0_r in Hy. left. exact Hy.
      * right. exists tt. split.
        -- specialize (Hbefore O x). rewrite Nat.add_0_r in Hbefore.
           apply Hbefore; [lia | reflexivity].
        -- apply IH. exists k, y. rewrite Nat.add_succ_comm.
           repeat split; [exact Hk | exact Hy |].
           intros k' x' Hlt Hk'. rewrite Nat.add_succ_comm.
           apply (Hbefore (S k') x'); [lia | exact Hk'].
Qed.

End Loops.

Section Properties.

Context `{Dependencies} `{BaseComponent} `{Utils}.

Ltac raise_inv :=
  repeat match goal with
    | H : Ok _ = Raise _ |- _ => discriminate H
    | H : Raise _ = Raise _ |- _ => injection H as <-
    | H : ?l = Raise _ |- _ =>
        match l with
        | context [match ?x with _ => _ end] => destruct x eqn:?
        end
    end.

Ltac not_nonexistent := intros ? ? ?; discriminate.

(** ** Values *)

Lemma py_eq_str_l (s : string) (x : PyVal) :
  py_eq (PyStr s) x = true <-> x = PyStr s.
Proof.
  destruct x; simpl; split; try discriminate.
  - intros ->%String.eqb_eq. reflexivity.
  - intros [= ->]. apply String.eqb_refl.
Qed.

Lemma py_eq_str_r (s : string) (x : PyVal) :
  py_eq x (PyStr s) = true <-> x = PyStr s.
Proof.
  destruct x; simpl; split; try discriminate.
  - intros ->%String.eqb_eq. reflexivity.
  - intros [= ->]. apply String.eqb_refl.
Qed.

Lemma Wildcard_eqb_eq (a b : Wildcard) : Wildcard_eqb a b = true <-> a = b.
Proof. destruct a, b; simpl; split; congruence. Qed.

Lemma DepClass_eqb_eq (a b : DepClass) : DepClass_eqb a b = true <-> a = b.
Proof. destruct a, b; simpl; split; congruence. Qed.

Lemma in_wildcards_true (v : PyVal) (ws : list Wildcard) :
  in_wildcards v ws = true <-> exists w, v = PyWildcard w /\ w ∈ ws.
Proof.
  destruct v as [| | | | |w| | | | | |]; simpl; split; try discriminate;
    try (intros (w' & Hv & _); discriminate Hv).
  - intros (w' & Hw & Heq%Wildcard_eqb_eq)%existsb_exists. subst w'.
    exists w. split; [reflexivity | apply list_elem_of_In, Hw].
  - intros (w' & [= <-] & Hw). apply existsb_exists.
    exists w. split; [apply list_elem_of_In, Hw | apply Wildcard_eqb_eq; reflexivity].
Qed.

Lemma key_in_str (s : string) (ks : list PyVal) :
  key_in (PyStr s) ks = true <-> PyStr s ∈ ks.
Proof.
  unfold key_in. rewrite existsb_exists. split.
  - intros (x & Hx & ->%py_eq_str_l). apply list_elem_of_In, Hx.
  - intros Hin. exists (PyStr s).
    split; [apply list_elem_of_In, Hin | apply py_eq_str_l; reflexivity].
Qed.

(** ** Return values of a multi-output callback *)

Lemma group_check_Ok callback_id vals i outi vi :
  vals !! i = Some vi ->
  group_check callback_id vals i outi = Ok tt ->
  is_list outi = true ->
  is_list_or_tuple vi = true /\ length (seq_items vi) = length (seq_items outi).
Proof.
  intros Hvi Hok Hl. unfold group_check, index in Hok.
  rewrite Hl, Hvi in Hok. simpl in Hok.
  destruct (is_list_or_tuple vi); [| discriminate Hok]. simpl in Hok.
  destruct (Nat.eqb_spec (length (seq_items vi)) (length (seq_items outi)));
    [| discriminate Hok].
  split; [reflexivity | assumption].
Qed.

Lemma group_check_Raise callback_id vals i outi vi e :
  vals !! i = Some vi ->
  group_check callback_id vals i outi = Raise e ->
  (exists m, e = InvalidCallbackReturnValue m) /\ is_list outi = true /\
  (is_list_or_tuple vi = false \/
   length (seq_items vi) <> length (seq_items outi)).
Proof.
  intros Hvi Hr. unfold group_check, index in Hr.
  destruct (is_list outi); [| discriminate Hr].
  rewrite Hvi in Hr. simpl in Hr.
  destruct (is_list_or_tuple vi); simpl in Hr.
  - destruct (Nat.eqb_spec (length (seq_items vi)) (length (seq_items outi)));
      [discriminate Hr |].
    injection Hr as <-. eauto.
  - injection Hr as <-. eauto.
Qed.

Lemma validate_multi_return_Ok outputs_list output_value callback_id :
  validate_multi_return outputs_list output_value callback_id = Ok tt ->
  ~ bad_multi_return outputs_list output_value.
Proof.
  unfold validate_multi_return. intros Hok.
  destruct (is_list_or_tuple output_value) eqn:Hseq; [| discriminate Hok].
  simpl in Hok.
  destruct (Nat.eqb_spec (length (seq_items output_value)) (length outputs_list))
    as [Hlen|]; [| discriminate Hok].
  simpl in Hok.
  change (for_each_from 0 outputs_list
            (group_check callback_id (seq_items output_value)) = Ok tt) in Hok.
  intros [Hbad | [Hbad | (i & outi & vi & Hi & Hl & Hvi & Hbad)]];
    [congruence | contradiction |].
  pose proof (proj1 (for_each_from_Ok _ _ _) Hok i outi Hi) as Hc.
  destruct (group_check_Ok _ _ _ _ _ Hvi Hc Hl) as [Hs Hn].
  destruct Hbad as [Hbad | Hbad]; [congruence | contradiction].
Qed.

Lemma validate_multi_return_Raise outputs_list output_value callback_id e :
  validate_multi_return outputs_list output_value callback_id = Raise e ->
  (exists m, e = InvalidCallbackReturnValue m) /\
  bad_multi_return outputs_list output_value.
Proof.
  unfold validate_multi_return, bad_multi_return. intros Hr.
  destruct (is_list_or_tuple output_value) eqn:Hseq; simpl in Hr;
    [| injection Hr as <-; eauto].
  destruct (Nat.eqb_spec (length (seq_items output_value)) (length outputs_list))
    as [Hlen|Hlen]; simpl in Hr; [| injection Hr as <-; eauto].
  change (for_each_from 0 outputs_list
            (group_check callback_id (seq_items output_value)) = Raise e) in Hr.
  apply for_each_from_Raise in Hr as (i & outi & Hi & Hc & _).
  destruct (lookup_lt_is_Some_2 (seq_items output_value) i) as [vi Hvi].
  { rewrite Hlen. apply lookup_lt_Some in Hi. exact Hi. }
  destruct (group_check_Raise _ _ _ _ _ _ Hvi Hc) as (Hm & Hl & Hbad).
  split; [exact Hm |]. right. right. exists i, outi, vi. auto.
Qed.

(** C7: [validate_multi_return] fails with [InvalidCallbackReturnValue]
    when the returned value is not a list or tuple, when its length is
    not that of the declared outputs, or when at a position whose declared
    output is a list the returned element is not a list or tuple of the
    same length; in every other case it returns normally. *)
Theorem validate_multi_return_spec outputs_list output_value callback_id :
  (bad_multi_return outputs_list output_value ->
   exists m, validate_multi_return outputs_list output_value callback_id
             = Raise (InvalidCallbackReturnValue m)) /\
  (~ bad_multi_return outputs_list output_value ->
   validate_multi_return outputs_list output_value callback_id = Ok tt).
Proof.
  destruct (result_unit_cases
              (validate_multi_return outputs_list output_value callback_id))
    as [Hok | [e Hr]].
  - split; [| intros _; exact Hok].
    intros Hbad. destruct (validate_multi_return_Ok _ _ _ Hok Hbad).
  - destruct (validate_multi_return_Raise _ _ _ _ Hr) as [[m ->] Hbad].
    split; [intros _; exists m; exact Hr |].
    intros Hgood. destruct (Hgood Hbad).
Qed.

(** ** Duplicate ids of a layout *)

Lemma truthy_str (s : string) : truthy (PyStr s) = true <-> s <> "".
Proof.
  simpl. destruct (String.eqb_spec s ""); simpl; split; congruence.
Qed.

Lemma truthy_none_or_string (v : PyVal) :
  none_or_string v -> truthy v = true -> exists s, v = PyStr s /\ s <> "".
Proof.
  intros [-> | Hs] Ht; [discriminate Ht |].
  destruct v; try discriminate Hs.
  eexists. split; [reflexivity | apply truthy_str, Ht].
Qed.

Lemma duplicate_id_cons (x : PyVal) (ids : list PyVal) :
  duplicate_id (x :: ids) <->
  (exists s, x = PyStr s /\ s <> "" /\ PyStr s ∈ ids) \/ duplicate_id ids.
Proof.
  split.
  - intros (i & j & s & Hlt & Hi & Hj & Hs).
    destruct j as [|j]; [lia |]. simpl in Hj.
    destruct i as [|i]; simpl in Hi.
    + injection Hi as ->. left. exists s. repeat split; [exact Hs |].
      apply list_elem_of_lookup. exists j. exact Hj.
    + right. exists i, j, s. repeat split; [lia | assumption..].
  - intros [(s & -> & Hs & Hin) | (i & j & s & Hlt & Hi & Hj & Hs)].
    + apply list_elem_of_lookup in Hin as [j Hj].
      exists O, (S j), s. repeat split; [lia | exact Hj | exact Hs].
    + exists (S i), (S j), s. repeat split; [lia | assumption..].
Qed.

(** What the loop of [validate_layout] computes, given the set it starts
    from. *)
Lemma check_component_ids_spec (components seen : list PyVal) :
  let ids := map (fun c => stringify_id (getattr_id c)) components in
  Forall none_or_string ids ->
  let clash :=
    (exists s, s <> "" /\ PyStr s ∈ seen /\ PyStr s ∈ ids) \/ duplicate_id ids in
  (check_component_ids components seen = Ok tt /\ ~ clash) \/
  (exists d, check_component_ids components seen = Raise (DuplicateIdError d)
             /\ clash).
Proof.
  revert seen. induction components as [|c rest IH]; intros seen ids Hwf clash.
  - left. split; [reflexivity |].
    intros [(s & _ & _ & Hin) | (i & j & s & _ & Hi & _)].
    + apply elem_of_nil in Hin. destruct Hin.
    + discriminate Hi.
  - subst ids. simpl in Hwf. apply Forall_cons in Hwf as [Hc Hrest].
    simpl.
    set (cid := stringify_id (getattr_id c)) in *.
    set (ids := map (fun c => stringify_id (getattr_id c)) rest) in *.
    destruct (truthy cid && key_in cid seen) eqn:Htest.
    + right. eexists. split; [reflexivity |].
      apply andb_true_iff in Htest as [Ht Hin].
      destruct (truthy_none_or_string _ Hc Ht) as (s & Hcid & Hs).
      rewrite Hcid in Hin. apply key_in_str in Hin.
      left. exists s. repeat split; [exact Hs | exact Hin |].
      simpl. fold cid. rewrite Hcid. apply list_elem_of_here.
    + assert (Hiff : clash <->
                ((exists s, s <> "" /\ PyStr s ∈ cid :: seen /\ PyStr s ∈ ids)
                 \/ duplicate_id ids)).
      { subst clash. simpl. fold cid ids. rewrite duplicate_id_cons. split.
        - intros [(s & Hs & Hseen & Hin) | [(s & Hcid & Hs & Hin) | Hdup]].
          + apply elem_of_cons in Hin as [Heq | Hin].
            * exfalso. rewrite <- Heq in Htest.
              rewrite (proj2 (truthy_str s) Hs) in Htest.
              rewrite (proj2 (key_in_str s seen) Hseen) in Htest.
              discriminate Htest.
            * left. exists s. repeat split; [exact Hs | | exact Hin].
              apply list_elem_of_further, Hseen.
          + left. exists s. repeat split; [exact Hs | | exact Hin].
            rewrite Hcid. apply list_elem_of_here.
          + right. exact Hdup.
        - intros [(s & Hs & Hseen & Hin) | Hdup].
          + apply elem_of_cons in Hseen as [Heq | Hseen].
            * right. left. exists s. auto.
            * left. exists s. repeat split; [exact Hs | exact Hseen |].
              apply list_elem_of_further, Hin.
          + right. right. exact Hdup. }
      destruct (IH (cid :: seen) Hrest) as [[Hok Hgood] | (d & Hr & Hbad)].
      * left. split; [exact Hok |]. intros Hclash. apply Hgood, Hiff, Hclash.
      * right. exists d. split; [exact Hr | apply Hiff, Hbad].
Qed.

(** C9: for a layout that is not [None], [validate_layout] fails with
    [DuplicateIdError] if and only if some non-empty string occurs at two
    positions of the sequence made of the root's stringified id and the
    stringified ids of the traversal; when every non-empty stringified id
    is unique it passes. *)
Theorem validate_layout_duplicate_ids (layout layout_value : PyVal) :
  is_none layout = false ->
  Forall none_or_string (layout_ids layout_value) ->
  ((exists d, validate_layout layout layout_value = Raise (DuplicateIdError d))
   <-> duplicate_id (layout_ids layout_value)) /\
  (~ duplicate_id (layout_ids layout_value) ->
   validate_layout layout layout_value = Ok tt).
Proof.
  intros Hlayout Hwf. unfold validate_layout. rewrite Hlayout.
  unfold layout_ids in *. apply Forall_cons in Hwf as [Hroot Hwf].
  set (lid := stringify_id (getattr_id layout_value)) in *.
  pose proof (check_component_ids_spec
                (_traverse layout_value) (if truthy lid then [lid] else []) Hwf)
    as Hloop.
  set (ids := map (fun c => stringify_id (getattr_id c))
                  (_traverse layout_value)) in *.
  assert (Hiff : duplicate_id (lid :: ids) <->
            ((exists s, s <> "" /\ PyStr s ∈ (if truthy lid then [lid] else [])
                        /\ PyStr s ∈ ids) \/ duplicate_id ids)).
  { rewrite duplicate_id_cons. split.
    - intros [(s & Hlid & Hs & Hin) | Hdup]; [left | right; exact Hdup].
      exists s. repeat split; [exact Hs | | exact Hin].
      rewrite Hlid, (proj2 (truthy_str s) Hs). apply list_elem_of_here.
    - intros [(s & Hs & Hseen & Hin) | Hdup]; [left | right; exact Hdup].
      exists s. repeat split; [| exact Hs | exact Hin].
      destruct (truthy lid); [| apply elem_of_nil in Hseen; destruct Hseen].
      apply list_elem_of_singleton in Hseen. symmetry. exact Hseen. }
  simpl. destruct Hloop as [[Hok Hgood] | (d & Hr & Hbad)].
  - rewrite Hok. split; [split |].
    + intros [d Hd]. discriminate Hd.
    + intros Hdup. destruct (Hgood (proj1 Hiff Hdup)).
    + reflexivity.
  - rewrite Hr. split; [split |].
    + intros _. apply Hiff, Hbad.
    + intros _. exists d. reflexivity.
    + intros Hgood. destruct (Hgood (proj2 Hiff Hbad)).
Qed.

(** ** The steps of [validate_callback] *)

Lemma validate_callback_cross_checks app layout output inputs state :
  passes_argument_checks app layout output inputs state ->
  validate_callback app layout output inputs state =
    (prevent_duplicate_outputs app (seq_items (outputs_of output)) ;;
     prevent_input_output_overlap (seq_items inputs)
                                  (seq_items (outputs_of output)) ;;
     prevent_inconsistent_wildcards (seq_items (outputs_of output))
                                    (seq_items inputs) (seq_items state)).
Proof.
  intros (Hpre & Hin & Ho & Hi & Hs).
  unfold validate_callback. rewrite Hpre, Hin. simpl.
  fold (outputs_of output). rewrite Ho. simpl. rewrite Hi. simpl.
  rewrite Hs. reflexivity.
Qed.

(** ** Duplicate outputs within one callback *)

Lemma check_output_pair_Ok (a b : PyVal) :
  check_output_pair a b = Ok tt <-> py_eq a b = false.
Proof.
  unfold check_output_pair. destruct (py_eq a b).
  - destruct (String.eqb _ _); split; discriminate.
  - split; reflexivity.
Qed.

Lemma check_output_pair_Raise (a b : PyVal) (e : exn) :
  check_output_pair a b = Raise e <->
  py_eq a b = true /\ e = DuplicateCallbackOutput (pair_message a b).
Proof.
  unfold check_output_pair, pair_message. destruct (py_eq a b).
  - destruct (String.eqb _ _); split.
    + intros [= <-]. auto.
    + intros [_ ->]. reflexivity.
    + intros [= <-]. auto.
    + intros [_ ->]. reflexivity.
  - split; [discriminate | intros [Hf _]; discriminate Hf].
Qed.

Lemma prevent_duplicate_pairs_Ok (outputs : list PyVal) :
  prevent_duplicate_pairs outputs = Ok tt <-> ~ has_equal_outputs outputs.
Proof.
  induction outputs as [|out rest IH]; simpl.
  - split; [| reflexivity].
    intros _ (i & j & a & b & _ & Hi & _). discriminate Hi.
  - rewrite bind_Ok_eq. split.
    + intros ([] & Hrow & Hrest) (i & j & a & b & Hlt & Hi & Hj & Heq).
      destruct j as [|j]; [lia |]. simpl in Hj.
      destruct i as [|i]; simpl in Hi.
      * injection Hi as ->.
        apply for_each_Ok in Hrow.
        apply (proj1 (Forall_lookup _ _) Hrow j b) in Hj.
        apply check_output_pair_Ok in Hj. congruence.
      * apply IH in Hrest. apply Hrest.
        exists i, j, a, b. repeat split; [lia | assumption..].
    + intros Hnone. exists tt. split.
      * apply for_each_Ok, Forall_lookup. intros j b Hj.
        apply check_output_pair_Ok.
        destruct (py_eq out b) eqn:Heq; [| reflexivity].
        exfalso. apply Hnone. exists O, (S j), out, b.
        repeat split; [lia | exact Hj | exact Heq].
      * apply IH. intros (i & j & a & b & Hlt & Hi & Hj & Heq).
        apply Hnone. exists (S i), (S j), a, b.
        repeat split; [lia | assumption..].
Qed.

Lemma prevent_duplicate_pairs_Raise (outputs : list PyVal) (e : exn) :
  prevent_duplicate_pairs outputs = Raise e ->
  exists i j a b,
    equal_outputs_at outputs i j a b /\
    e = DuplicateCallbackOutput (pair_message a b).
Proof.
  induction outputs as [|out rest IH]; simpl; [discriminate |].
  rewrite bind_Raise_eq. intros [Hrow | ([] & _ & Hrest)].
  - apply for_each_Raise in Hrow as (pre & b & post & -> & _ & Hb).
    apply check_output_pair_Raise in Hb as [Heq ->].
    exists O, (S (length pre)), out, b. split; [| reflexivity].
    repeat split; [lia | | exact Heq].
    simpl. rewrite lookup_app_r, Nat.sub_diag; [reflexivity | lia].
  - destruct (IH Hrest) as (i & j & a & b & (Hlt & Hi & Hj & Heq) & ->).
    exists (S i), (S j), a, b. split; [| reflexivity].
    repeat split; [lia | assumption..].
Qed.

Lemma report_dups_raises (outputs : list PyVal) (dups : gset string) (e : exn) :
  report_dups outputs dups = Raise e ->
  e = IndexError \/ exists m, e = DuplicateCallbackOutput m.
Proof.
  unfold report_dups. case_bool_decide; [discriminate |].
  unfold index.
  destruct (Nat.ltb 1 (length outputs)); simpl.
  { intros [= <-]. eauto. }
  destruct (Nat.ltb 1 (length (elements dups))); simpl.
  { intros [= <-]. eauto. }
  destruct (outputs !! 0%nat); simpl; [| intros [= <-]; auto].
  destruct (elements dups !! 0%nat); simpl; [| intros [= <-]; auto].
  destruct (negb _); simpl; intros [= <-]; eauto.
Qed.

(** C2: when two positions of the declared outputs hold outputs that
    compare equal, [prevent_duplicate_outputs], and with it
    [validate_callback] once the argument checks have passed, fails with
    [DuplicateCallbackOutput]; the message is that of such a pair, one
    form when the two string representations are the same and another
    when they differ; when no two declared outputs compare equal the
    pairwise loop raises nothing. *)
Theorem duplicate_outputs_in_callback (app : App) (outputs : list PyVal) :
  (has_equal_outputs outputs ->
   exists i j a b,
     equal_outputs_at outputs i j a b /\
     prevent_duplicate_outputs app outputs
     = Raise (DuplicateCallbackOutput (pair_message a b)) /\
     (dep_str a = dep_str b ->
      pair_message a b = SameOutputUsedTwice (dep_str a)) /\
     (dep_str a <> dep_str b ->
      pair_message a b = TwoOutputsMatchSameId (dep_str a) (dep_str b))) /\
  (~ has_equal_outputs outputs -> prevent_duplicate_pairs outputs = Ok tt) /\
  (forall layout output inputs state,
     passes_argument_checks app layout output inputs state ->
     outputs = seq_items (outputs_of output) ->
     has_equal_outputs outputs ->
     exists m, validate_callback app layout output inputs state
               = Raise (DuplicateCallbackOutput m)).
Proof.
  assert (Hstep : has_equal_outputs outputs ->
            exists i j a b,
              equal_outputs_at outputs i j a b /\
              prevent_duplicate_outputs app outputs
              = Raise (DuplicateCallbackOutput (pair_message a b))).
  { intros Hdup. unfold prevent_duplicate_outputs.
    destruct (result_unit_cases (prevent_duplicate_pairs outputs))
      as [Hok | [e Hr]].
    - apply prevent_duplicate_pairs_Ok in Hok. destruct (Hok Hdup).
    - destruct (prevent_duplicate_pairs_Raise _ _ Hr)
        as (i & j & a & b & Hpair & ->).
      exists i, j, a, b. split; [exact Hpair |]. rewrite Hr. reflexivity. }
  split; [| split].
  - intros Hdup. destruct (Hstep Hdup) as (i & j & a & b & Hpair & Hr).
    exists i, j, a, b. repeat split; try assumption; try apply Hpair.
    + intros Hs. unfold pair_message.
      rewrite (proj2 (String.eqb_eq _ _) Hs). reflexivity.
    + intros Hs. unfold pair_message.
      rewrite (proj2 (String.eqb_neq _ _) Hs). reflexivity.
  - apply prevent_duplicate_pairs_Ok.
  - intros layout output inputs state Hpass -> Hdup.
    rewrite (validate_callback_cross_checks _ _ _ _ _ Hpass).
    destruct (Hstep Hdup) as (i & j & a & b & _ & ->). eauto.
Qed.

(** ** Outputs already set by another callback *)

Lemma collect_dups_row (out : PyVal) (used : list PyVal) (dups : gset string)
      (s : string) :
  s ∈ foldl (fun dups used_out =>
               if py_eq out used_out then dups ∪ {[ dep_str used_out ]}
               else dups) dups used
  <-> s ∈ dups \/
      exists used_out,
        used_out ∈ used /\ py_eq out used_out = true /\ s = dep_str used_out.
Proof.
  revert dups. induction used as [|u used IH]; intros dups; simpl.
  - split; [auto |]. intros [Hs | (u & Hu & _)]; [exact Hs |].
    apply elem_of_nil in Hu. destruct Hu.
  - rewrite IH. split.
    + intros [Hs | (u' & Hu' & Heq & ->)].
      * destruct (py_eq out u) eqn:Heq; [| auto].
        apply elem_of_union in Hs as [Hs | Hs]; [auto |].
        apply elem_of_singleton in Hs as ->.
        right. exists u. split; [apply list_elem_of_here | auto].
      * right. exists u'. split; [apply list_elem_of_further, Hu' | auto].
    + intros [Hs | (u' & Hu' & Heq & ->)].
      * left. destruct (py_eq out u); [apply elem_of_union; auto | exact Hs].
      * apply elem_of_cons in Hu' as [-> | Hu'].
        -- left. rewrite Heq. apply elem_of_union. right.
           apply elem_of_singleton. reflexivity.
        -- right. exists u'. auto.
Qed.

Lemma collect_dups_from (used outputs : list PyVal) (dups : gset string)
      (s : string) :
  s ∈ foldl (fun dups out =>
               foldl (fun dups used_out =>
                        if py_eq out used_out then dups ∪ {[ dep_str used_out ]}
                        else dups) dups used) dups outputs
  <-> s ∈ dups \/
      exists out used_out,
        out ∈ outputs /\ used_out ∈ used /\ py_eq out used_out = true /\
        s = dep_str used_out.
Proof.
  revert dups. induction outputs as [|o outputs IH]; intros dups; simpl.
  - split; [auto |]. intros [Hs | (o & u & Ho & _)]; [exact Hs |].
    apply elem_of_nil in Ho. destruct Ho.
  - rewrite IH, collect_dups_row. split.
    + intros [[Hs | (u & Hu & Heq & ->)] | (o' & u & Ho' & Hu & Heq & ->)].
      * auto.
      * right. exists o, u. split; [apply list_elem_of_here | auto].
      * right. exists o', u. split; [apply list_elem_of_further, Ho' | auto].
    + intros [Hs | (o' & u & Ho' & Hu & Heq & ->)]; [auto |].
      apply elem_of_cons in Ho' as [-> | Ho'].
      * left. right. exists u. auto.
      * right. exists o', u. auto.
Qed.

(** [dups] holds the string representations of the registered outputs
    some declared output compares equal to. *)
Lemma elem_of_collect_dups (used outputs : list PyVal) (s : string) :
  s ∈ collect_dups used outputs <->
  exists out used_out,
    out ∈ outputs /\ used_out ∈ used /\ py_eq out used_out = true /\
    s = dep_str used_out.
Proof.
  unfold collect_dups. rewrite collect_dups_from. split.
  - intros [Hs | Hs]; [| exact Hs]. apply elem_of_empty in Hs. destruct Hs.
  - auto.
Qed.

Lemma collect_dups_empty (used outputs : list PyVal) :
  collect_dups used outputs = ∅ <-> ~ overlaps_registered used outputs.
Proof.
  split.
  - intros Hempty (out & u & Ho & Hu & Heq).
    assert (Hin : dep_str u ∈ collect_dups used outputs)
      by (apply elem_of_collect_dups; exists out, u; auto).
    rewrite Hempty in Hin. apply elem_of_empty in Hin. destruct Hin.
  - intros Hnone. apply leibniz_equiv, elem_of_equiv_empty. intros s Hs.
    apply elem_of_collect_dups in Hs as (out & u & Ho & Hu & Heq & _).
    apply Hnone. exists out, u. auto.
Qed.

Lemma elements_length_1 (X : gset string) :
  length (elements X) = 1%nat -> exists x, X = {[ x ]} /\ elements X = [x].
Proof.
  intros Hlen.
  destruct (elements X) as [|x [|y l]] eqn:Hel; try discriminate Hlen.
  exists x. split; [| reflexivity].
  apply leibniz_equiv. intros y. rewrite <- elem_of_elements, Hel.
  rewrite elem_of_singleton, list_elem_of_singleton. reflexivity.
Qed.

Lemma elements_length_0 (X : gset string) :
  length (elements X) = 0%nat -> X = ∅.
Proof.
  intros Hlen. apply leibniz_equiv, elements_empty_inv.
  destruct (elements X); [reflexivity | discriminate Hlen].
Qed.

(** The branch [report_dups] takes. *)
Lemma report_dups_spec (outputs : list PyVal) (dups : gset string) :
  dups <> ∅ -> outputs <> [] ->
  (single_exact_match outputs dups /\
   exists out, outputs !! 0%nat = Some out /\
     report_dups outputs dups
     = Raise (DuplicateCallbackOutput (AlreadyAssigned (dep_repr out)))) \/
  (~ single_exact_match outputs dups /\
   report_dups outputs dups
   = Raise (DuplicateCallbackOutput
              (OutputAlreadySet (map dep_str outputs) (elements dups)))).
Proof.
  intros Hdups Houts. unfold report_dups.
  rewrite bool_decide_eq_false_2 by exact Hdups.
  destruct outputs as [|out [|out2 rest]]; [congruence | |].
  - simpl. destruct (Nat.ltb_spec 1 (length (elements dups))) as [Hlen|Hlen].
    + right. split; [| reflexivity].
      intros (o & _ & Hd). rewrite Hd, elements_singleton in Hlen.
      simpl in Hlen. lia.
    + assert (Hone : length (elements dups) = 1%nat).
      { destruct (length (elements dups)) as [|[|n]] eqn:Hn; [| reflexivity | lia].
        destruct (Hdups (elements_length_0 _ Hn)). }
      destruct (elements_length_1 _ Hone) as (x & Hx & Hel).
      rewrite Hel. simpl.
      destruct (String.eqb_spec (dep_str out) x) as [Heq|Hne]; simpl.
      * left. split; [| eauto]. exists out. split; [reflexivity |].
        rewrite Hx, Heq. reflexivity.
      * right. rewrite <- Hel. split; [| reflexivity].
        intros (o & [= <-] & Hd). rewrite Hd in Hx.
        apply Hne.
        assert (Hin : dep_str out ∈ ({[ x ]} : gset string))
          by (rewrite <- Hx; apply elem_of_singleton; reflexivity).
        apply elem_of_singleton in Hin. exact Hin.
  - right. split; [| reflexivity]. intros (o & Ho & _). discriminate Ho.
Qed.

Lemma single_exact_match_iff (outputs : list PyVal) (dups : gset string) :
  single_exact_match outputs dups <->
  length outputs = 1%nat /\ size dups = 1%nat /\
  exists out, outputs !! 0%nat = Some out /\ dep_str out ∈ dups.
Proof.
  split.
  - intros (out & -> & ->). repeat split; [apply size_singleton |].
    exists out. split; [reflexivity | apply elem_of_singleton; reflexivity].
  - intros (Hlen & Hsize & out & Hout & Hin).
    destruct outputs as [|o [|o2 rest]]; try discriminate Hlen.
    injection Hout as ->. exists out. split; [reflexivity |].
    destruct (elements_length_1 dups Hsize) as (x & -> & _).
    apply elem_of_singleton in Hin as ->. reflexivity.
Qed.

(** C3, as the code has it: when a declared output compares equal to a
    registered output, [prevent_duplicate_outputs], and with it
    [validate_callback] once the argument checks have passed, fails with
    [DuplicateCallbackOutput].  When the pairwise loop has passed, the
    "already assigned" message is chosen exactly when the callback
    declares one output, the set of string representations of the
    registered outputs it overlaps has one element, and that element is the
    string representation of the declared output; in every other
    overlapping case the message is the generic one with the two lists.
    When no declared output equals a registered output this step raises
    nothing. *)
Theorem outputs_already_registered (app : App) (outputs : list PyVal) :
  let dups := collect_dups (used_outputs app) outputs in
  (overlaps_registered (used_outputs app) outputs ->
   (exists m, prevent_duplicate_outputs app outputs
              = Raise (DuplicateCallbackOutput m)) /\
   (prevent_duplicate_pairs outputs = Ok tt ->
    (single_exact_match outputs dups ->
     exists out, outputs = [out] /\
       prevent_duplicate_outputs app outputs
       = Raise (DuplicateCallbackOutput (AlreadyAssigned (dep_repr out)))) /\
    (~ single_exact_match outputs dups ->
     prevent_duplicate_outputs app outputs
     = Raise (DuplicateCallbackOutput
                (OutputAlreadySet (map dep_str outputs) (elements dups)))))) /\
  (single_exact_match outputs dups <->
   length outputs = 1%nat /\ size dups = 1%nat /\
   exists out, outputs !! 0%nat = Some out /\ dep_str out ∈ dups) /\
  (~ overlaps_registered (used_outputs app) outputs ->
   report_dups outputs dups = Ok tt) /\
  (forall layout output inputs state,
     passes_argument_checks app layout output inputs state ->
     outputs = seq_items (outputs_of output) ->
     overlaps_registered (used_outputs app) outputs ->
     exists m, validate_callback app layout output inputs state
               = Raise (DuplicateCallbackOutput m)).
Proof.
  intros dups.
  assert (Hreport : overlaps_registered (used_outputs app) outputs ->
            dups <> ∅ /\ outputs <> []).
  { intros Hov. split.
    - intros Hempty. apply collect_dups_empty in Hempty. exact (Hempty Hov).
    - destruct Hov as (out & _ & Ho & _). intros ->.
      apply elem_of_nil in Ho. exact Ho. }
  assert (Hfails : overlaps_registered (used_outputs app) outputs ->
            exists m, prevent_duplicate_outputs app outputs
                      = Raise (DuplicateCallbackOutput m)).
  { intros Hov. destruct (Hreport Hov) as [Hd Ho].
    unfold prevent_duplicate_outputs.
    destruct (result_unit_cases (prevent_duplicate_pairs outputs))
      as [Hok | [e Hr]].
    - rewrite Hok. simpl. fold dups.
      destruct (report_dups_spec outputs dups Hd Ho)
        as [(_ & out & _ & ->) | (_ & ->)]; eauto.
    - rewrite Hr. simpl.
      destruct (prevent_duplicate_pairs_Raise _ _ Hr) as (i & j & a & b & _ & ->).
      eauto. }
  split; [| split; [| split]].
  - intros Hov. split; [exact (Hfails Hov) |].
    intros Hpairs. destruct (Hreport Hov) as [Hd Ho].
    unfold prevent_duplicate_outputs. rewrite Hpairs. simpl. fold dups.
    destruct (report_dups_spec outputs dups Hd Ho)
      as [(Hone & out & Hout & Hr) | (Hmany & Hr)]; rewrite Hr; split.
    + intros (o & -> & _). injection Hout as ->. eauto.
    + intros Hmany. destruct (Hmany Hone).
    + intros Hone. destruct (Hmany Hone).
    + reflexivity.
  - apply single_exact_match_iff.
  - intros Hnone. apply collect_dups_empty in Hnone. fold dups in Hnone.
    unfold report_dups. rewrite bool_decide_eq_true_2 by exact Hnone.
    reflexivity.
  - intros layout output inputs state Hpass -> Hov.
    rewrite (validate_callback_cross_checks _ _ _ _ _ Hpass).
    destruct (Hfails Hov) as [m ->]. eauto.
Qed.

(** ** An input that is also an output *)

Lemma check_input_output_Ok (in_ out : PyVal) :
  check_input_output in_ out = Ok tt <-> py_eq out in_ = false.
Proof.
  unfold check_input_output. destruct (py_eq out in_).
  - destruct (String.eqb _ _); split; discriminate.
  - split; reflexivity.
Qed.

Lemma check_input_output_Raise (in_ out : PyVal) (e : exn) :
  check_input_output in_ out = Raise e <->
  py_eq out in_ = true /\ e = SameInputOutputException (overlap_message in_ out).
Proof.
  unfold check_input_output, overlap_message. destruct (py_eq out in_).
  - destruct (String.eqb _ _); split.
    + intros [= <-]. auto.
    + intros [_ ->]. reflexivity.
    + intros [= <-]. auto.
    + intros [_ ->]. reflexivity.
  - split; [discriminate | intros [Hf _]; discriminate Hf].
Qed.

Lemma prevent_input_output_overlap_Ok (inputs outputs : list PyVal) :
  prevent_input_output_overlap inputs outputs = Ok tt <->
  ~ input_equals_output inputs outputs.
Proof.
  unfold prevent_input_output_overlap. rewrite for_each_Ok, Forall_forall.
  split.
  - intros Hall (in_ & out & Hin & Hout & Heq).
    specialize (Hall in_ Hin). rewrite for_each_Ok, Forall_forall in Hall.
    specialize (Hall out Hout). apply check_input_output_Ok in Hall. congruence.
  - intros Hnone in_ Hin. rewrite for_each_Ok, Forall_forall. intros out Hout.
    apply check_input_output_Ok.
    destruct (py_eq out in_) eqn:Heq; [| reflexivity].
    destruct Hnone. exists in_, out. auto.
Qed.

Lemma prevent_input_output_overlap_Raise (inputs outputs : list PyVal) (e : exn) :
  prevent_input_output_overlap inputs outputs = Raise e ->
  exists in_ out,
    in_ ∈ inputs /\ out ∈ outputs /\ py_eq out in_ = true /\
    e = SameInputOutputException (overlap_message in_ out).
Proof.
  unfold prevent_input_output_overlap.
  intros (pre & in_ & post & -> & _ & Hrow)%for_each_Raise.
  apply for_each_Raise in Hrow as (pre' & out & post' & -> & _ & Hc).
  apply check_input_output_Raise in Hc as [Heq ->].
  exists in_, out. repeat split; [| | exact Heq].
  - apply elem_of_app. right. apply list_elem_of_here.
  - apply elem_of_app. right. apply list_elem_of_here.
Qed.

(** C6: when an input compares equal to a declared output,
    [prevent_input_output_overlap], and with it [validate_callback] once
    the earlier steps have passed, fails with [SameInputOutputException];
    the message is that of such an input and output, one form when their
    string representations are the same and another when they differ; when
    no input equals an output the step raises nothing. *)
Theorem same_input_output_failure (inputs outputs : list PyVal) :
  (input_equals_output inputs outputs ->
   exists in_ out,
     in_ ∈ inputs /\ out ∈ outputs /\ py_eq out in_ = true /\
     prevent_input_output_overlap inputs outputs
     = Raise (SameInputOutputException (overlap_message in_ out)) /\
     (dep_str out = dep_str in_ ->
      overlap_message in_ out = SameOutputAndInput (dep_str out)) /\
     (dep_str out <> dep_str in_ ->
      overlap_message in_ out
      = InputAndOutputMatchSameId (dep_str in_) (dep_str out))) /\
  (~ input_equals_output inputs outputs ->
   prevent_input_output_overlap inputs outputs = Ok tt) /\
  (forall app layout output inputs_ state,
     passes_argument_checks app layout output inputs_ state ->
     outputs = seq_items (outputs_of output) ->
     inputs = seq_items inputs_ ->
     prevent_duplicate_outputs app outputs = Ok tt ->
     input_equals_output inputs outputs ->
     exists m, validate_callback app layout output inputs_ state
               = Raise (SameInputOutputException m)).
Proof.
  assert (Hstep : input_equals_output inputs outputs ->
            exists in_ out,
              in_ ∈ inputs /\ out ∈ outputs /\ py_eq out in_ = true /\
              prevent_input_output_overlap inputs outputs
              = Raise (SameInputOutputException (overlap_message in_ out))).
  { intros Hov.
    destruct (result_unit_cases (prevent_input_output_overlap inputs outputs))
      as [Hok | [e Hr]].
    - apply prevent_input_output_overlap_Ok in Hok. destruct (Hok Hov).
    - destruct (prevent_input_output_overlap_Raise _ _ _ Hr)
        as (in_ & out & Hin & Hout & Heq & ->).
      exists in_, out. auto. }
  split; [| split].
  - intros Hov. destruct (Hstep Hov) as (in_ & out & Hin & Hout & Heq & Hr).
    exists in_, out. repeat split; try assumption.
    + intros Hs. unfold overlap_message.
      rewrite (proj2 (String.eqb_eq _ _) Hs). reflexivity.
    + intros Hs. unfold overlap_message.
      rewrite (proj2 (String.eqb_neq _ _) Hs). reflexivity.
  - apply prevent_input_output_overlap_Ok.
  - intros app layout output inputs_ state Hpass -> -> Hdup Hov.
    rewrite (validate_callback_cross_checks _ _ _ _ _ Hpass), Hdup. simpl.
    destruct (Hstep Hov) as (in_ & out & _ & _ & _ & ->). eauto.
Qed.

(** ** What the checks of [validate_callback_args] establish *)

Lemma validate_id_string_Ok cls s p e layout validate_ids :
  validate_id_string (PyDep cls (PyStr s) p e) layout validate_ids = Ok tt ->
  char_in "." s = false /\ char_in "{" s = false.
Proof.
  unfold validate_id_string. simpl.
  destruct (char_in "." s), (char_in "{" s); simpl; try discriminate. auto.
Qed.

Lemma validate_id_dict_Ok cls d p e layout validate_ids :
  validate_id_dict (PyDep cls (PyDict d) p e) layout validate_ids
                   (allowed_wildcards cls) = Ok tt ->
  Forall (well_formed_entry cls) d.
Proof.
  unfold validate_id_dict. intros ([] & _ & Hloop)%bind_Ok_eq.
  apply for_each_Ok in Hloop. eapply Forall_impl; [exact Hloop |].
  intros [k v] Hkv. simpl in Hkv. unfold well_formed_entry. simpl.
  destruct (truthy k && is_string k) eqn:Hk; simpl in Hkv; [| discriminate Hkv].
  destruct (in_wildcards v (allowed_wildcards cls) || is_scalar v) eqn:Hv;
    simpl in Hkv; [| discriminate Hkv].
  apply andb_true_iff in Hk as [Ht Hs]. split.
  - destruct k; try discriminate Hs. eexists. split; [reflexivity |].
    apply truthy_str, Ht.
  - apply orb_true_iff, Hv.
Qed.

Lemma validate_callback_arg_Ok cls layout validate_ids arg :
  validate_callback_arg cls layout validate_ids arg = Ok tt ->
  well_formed_dep cls arg.
Proof.
  unfold validate_callback_arg.
  destruct arg as [| | | | | | | | |c i p e| |]; try discriminate.
  destruct (DepClass_eqb c cls) eqn:Hc; cbn [negb]; [| discriminate].
  apply DepClass_eqb_eq in Hc as ->.
  destruct p; cbn [is_string negb]; try discriminate.
  destruct e; [discriminate |].
  destruct i; cbn [is_dict is_string]; try discriminate.
  - intros Hok%validate_id_string_Ok. eexists _, _. split; [reflexivity |].
    left. eauto.
  - intros Hok%validate_id_dict_Ok. eexists _, _. split; [reflexivity |].
    right. eauto.
Qed.

Lemma validate_callback_args_Ok args cls layout validate_ids :
  validate_callback_args args cls layout validate_ids = Ok tt ->
  is_list_or_tuple args = true /\ Forall (well_formed_dep cls) (seq_items args).
Proof.
  unfold validate_callback_args.
  destruct (is_list_or_tuple args); simpl; [| discriminate].
  intros Hloop%for_each_Ok. split; [reflexivity |].
  eapply Forall_impl; [exact Hloop |]. intros arg. apply validate_callback_arg_Ok.
Qed.

(** ** Consistency of the wildcards *)

Lemma well_formed_string_keyed cls dep :
  well_formed_dep cls dep -> string_keyed_dep dep.
Proof.
  intros (i & p & -> & Hid). exists cls, i, (PyStr p), false.
  split; [reflexivity |]. intros d ->.
  destruct Hid as [(s & Hs & _) | (d' & [= <-] & Hd)]; [discriminate Hs |].
  eapply Forall_impl; [exact Hd |].
  intros kv [(k & -> & _) _]. reflexivity.
Qed.

Lemma well_formed_is_dependency cls dep :
  well_formed_dep cls dep -> is_dependency dep.
Proof. intros (i & p & -> & _). eexists _, _, _, _. reflexivity. Qed.

Lemma get_wildcard_keys_spec (dep : PyVal) (ws : list Wildcard) :
  is_dependency dep ->
  exists keys,
    get_wildcard_keys dep ws = Ok keys /\
    forall k, k ∈ keys <-> wildcard_key dep ws k.
Proof.
  intros (cls & i & p & e & ->). unfold wildcard_key. simpl.
  destruct i as [| | | | | | | |d| | |];
    try (exists []; split; [reflexivity |];
         intros k; split;
         [intros Hk; apply elem_of_nil in Hk; destruct Hk
         |intros (c' & d' & p' & e' & w' & Hd & _); discriminate Hd]).
  eexists. split; [reflexivity |].
  intros k. rewrite list_elem_of_fmap. split.
  - intros ([k' v] & -> & Hkv). simpl.
    apply list_elem_of_In, filter_In in Hkv as [Hkv Hw]. simpl in Hw.
    apply in_wildcards_true in Hw as (w & -> & Hw).
    exists cls, d, p, e, w. split; [reflexivity |].
    split; [apply list_elem_of_In, Hkv | exact Hw].
  - intros (c' & d' & p' & e' & w & [= _ <- _ _] & Hkv & Hw).
    exists (k, PyWildcard w). split; [reflexivity |].
    apply list_elem_of_In, filter_In. split; [apply list_elem_of_In, Hkv |].
    apply in_wildcards_true. eauto.
Qed.

Lemma get_wildcard_keys_strings (dep : PyVal) (ws : list Wildcard) keys :
  string_keyed_dep dep ->
  get_wildcard_keys dep ws = Ok keys ->
  Forall (fun k => is_string k = true) keys.
Proof.
  intros (cls & i & p & e & -> & Hkeys). simpl.
  destruct i as [| | | | | | | |d| | |]; intros [= <-]; try constructor.
  specialize (Hkeys d eq_refl).
  apply Forall_fmap, Forall_forall. intros kv Hkv.
  apply list_elem_of_In, filter_In in Hkv as [Hkv _].
  apply (proj1 (Forall_forall _ _) Hkeys), list_elem_of_In, Hkv.
Qed.

Lemma key_in_strings (k : PyVal) (ks : list PyVal) :
  Forall (fun k => is_string k = true) ks -> key_in k ks = true <-> k ∈ ks.
Proof.
  intros Hks. rewrite Forall_forall in Hks.
  unfold key_in. rewrite existsb_exists. split.
  - intros (x & Hx%list_elem_of_In & Heq).
    specialize (Hks x Hx). destruct x; try discriminate Hks.
    apply py_eq_str_r in Heq as ->. exact Hx.
  - intros Hk. specialize (Hks k Hk). destruct k; try discriminate Hks.
    eexists. split; [apply list_elem_of_In, Hk |].
    apply py_eq_str_l. reflexivity.
Qed.

Lemma key_in_of_strings (k : PyVal) (ks keys : list PyVal) :
  Forall (fun k => is_string k = true) ks -> k ∈ ks ->
  key_in k keys = true <-> k ∈ keys.
Proof.
  intros Hks Hk. rewrite Forall_forall in Hks.
  specialize (Hks k Hk). destruct k; try discriminate Hks. apply key_in_str.
Qed.

Lemma key_set_ne_spec (a b : list PyVal) :
  Forall (fun k => is_string k = true) b ->
  (key_set_ne a b = false <-> forall k, k ∈ a <-> k ∈ b).
Proof.
  intros Hb. unfold key_set_ne.
  rewrite negb_false_iff, andb_true_iff, !forallb_forall. split.
  - intros [Hab Hba] k. split; intros Hk.
    + apply (key_in_strings k b Hb), Hab, list_elem_of_In, Hk.
    + apply (key_in_of_strings k b a Hb Hk), Hba, list_elem_of_In, Hk.
  - intros Hiff. split; intros k Hk%list_elem_of_In.
    + apply (key_in_strings k b Hb), Hiff, Hk.
    + apply (key_in_of_strings k b a Hb Hk), Hiff, Hk.
Qed.

Lemma key_set_diff_spec (a b : list PyVal) :
  Forall (fun k => is_string k = true) b ->
  (key_set_diff a b = [] <-> forall k, k ∈ a -> k ∈ b).
Proof.
  intros Hb. unfold key_set_diff. split.
  - intros Hnil k Hk.
    destruct (key_in k b) eqn:Hin.
    + apply (key_in_strings k b Hb), Hin.
    + assert (Hf : In k (List.filter (fun k => negb (key_in k b)) a)).
      { apply filter_In. split; [apply list_elem_of_In, Hk |].
        rewrite Hin. reflexivity. }
      rewrite Hnil in Hf. destruct Hf.
  - intros Hsub.
    destruct (List.filter (fun k => negb (key_in k b)) a) as [|k l] eqn:Hf;
      [reflexivity |].
    assert (Hk : In k (List.filter (fun k => negb (key_in k b)) a))
      by (rewrite Hf; left; reflexivity).
    apply filter_In in Hk as [Hk%list_elem_of_In Hnot].
    apply negb_true_iff in Hnot.
    rewrite (proj2 (key_in_strings k b Hb) (Hsub k Hk)) in Hnot.
    discriminate Hnot.
Qed.

Lemma key_set_diff_cons (a b : list PyVal) (k : PyVal) (l : list PyVal) :
  Forall (fun k => is_string k = true) b ->
  key_set_diff a b = k :: l -> k ∈ a /\ k ∉ b.
Proof.
  intros Hb Hd.
  assert (Hk : In k (key_set_diff a b)) by (rewrite Hd; left; reflexivity).
  apply filter_In in Hk as [Hk%list_elem_of_In Hnot]. split; [exact Hk |].
  intros Hin. apply (key_in_strings k b Hb) in Hin.
  rewrite Hin in Hnot. discriminate Hnot.
Qed.

Lemma prevent_inconsistent_wildcards_spec first rest inputs state :
  string_keyed_dep first ->
  Forall is_dependency rest ->
  Forall is_dependency (inputs ++ state) ->
  (prevent_inconsistent_wildcards (first :: rest) inputs state = Ok tt /\
   ~ inconsistent_wildcards first rest inputs state) \/
  (exists m, prevent_inconsistent_wildcards (first :: rest) inputs state
             = Raise (InconsistentCallbackWildcards m) /\
             inconsistent_wildcards first rest inputs state).
Proof.
  intros Hfirst Hrest Hdeps.
  rewrite Forall_forall in Hrest, Hdeps.
  unfold prevent_inconsistent_wildcards. cbn [index lookup list_lookup].
  change ((first :: rest) !! 0%nat) with (Some first). cbn [mbind result_bind].
  assert (Hfirst_dep : is_dependency first).
  { destruct Hfirst as (cls & i & p & e & -> & _). eexists _, _, _, _. reflexivity. }
  destruct (get_wildcard_keys_spec first [ANY] Hfirst_dep)
    as (any_keys & Hget & Hany).
  pose proof (get_wildcard_keys_strings first [ANY] any_keys Hfirst Hget)
    as Hany_str.
  rewrite Hget. cbn [mbind result_bind drop]. rewrite drop_0.
  set (body2 := fun dep : PyVal => _).
  set (body1 := fun out : PyVal => _).
  assert (Hbody1 : forall out, out ∈ rest ->
            (body1 out = Ok tt /\
             forall k, wildcard_key out [ANY] k <-> wildcard_key first [ANY] k) \/
            (exists m, body1 out = Raise (InconsistentCallbackWildcards m) /\
             ~ forall k, wildcard_key out [ANY] k <-> wildcard_key first [ANY] k)).
  { intros out Hout. subst body1. cbv beta.
    destruct (get_wildcard_keys_spec out [ANY] (Hrest out Hout))
      as (keys & -> & Hkeys).
    cbn [mbind result_bind].
    pose proof (key_set_ne_spec keys any_keys Hany_str) as Hne.
    destruct (key_set_ne keys any_keys).
    - right. eexists. split; [reflexivity |]. intros Hall.
      assert (Hf : true = false); [| discriminate Hf].
      apply Hne. intros k. rewrite Hkeys, Hany. apply Hall.
    - left. split; [reflexivity |]. intros k. rewrite <- Hkeys, <- Hany.
      apply Hne. reflexivity. }
  assert (Hbody2 : forall dep, dep ∈ inputs ++ state ->
            (body2 dep = Ok tt /\
             forall k, wildcard_key dep [ANY; ALLSMALLER] k ->
                       wildcard_key first [ANY] k) \/
            (exists m, body2 dep = Raise (InconsistentCallbackWildcards m) /\
             exists k, wildcard_key dep [ANY; ALLSMALLER] k /\
                       ~ wildcard_key first [ANY] k)).
  { intros dep Hdep. subst body2. cbv beta.
    destruct (get_wildcard_keys_spec dep [ANY; ALLSMALLER] (Hdeps dep Hdep))
      as (keys & -> & Hkeys).
    cbn [mbind result_bind].
    destruct (key_set_diff keys any_keys) as [|k l] eqn:Hdiff.
    - left. split; [reflexivity |]. intros k Hk.
      apply Hany. apply (proj1 (key_set_diff_spec keys any_keys Hany_str) Hdiff).
      apply Hkeys, Hk.
    - right. eexists. split; [reflexivity |].
      destruct (key_set_diff_cons _ _ _ _ Hany_str Hdiff) as [Hin Hnot].
      exists k. split; [apply Hkeys, Hin |]. intros Hk. apply Hnot, Hany, Hk. }
  destruct (result_unit_cases (for_each rest body1)) as [Hok1 | [e Hr1]].
  - rewrite Hok1. cbn [mbind result_bind].
    apply for_each_Ok in Hok1. rewrite Forall_forall in Hok1.
    destruct (result_unit_cases (for_each (inputs ++ state) body2))
      as [Hok2 | [e Hr2]].
    + left. split; [exact Hok2 |].
      apply for_each_Ok in Hok2. rewrite Forall_forall in Hok2.
      intros [(out & Hout & Hne) | (dep & k & Hdep & Hk & Hnot)].
      * destruct (Hbody1 out Hout) as [[_ Hall] | (m & Hr & _)];
          [exact (Hne Hall) |].
        rewrite (Hok1 out Hout) in Hr. discriminate Hr.
      * destruct (Hbody2 dep Hdep) as [[_ Hall] | (m & Hr & _)];
          [exact (Hnot (Hall k Hk)) |].
        rewrite (Hok2 dep Hdep) in Hr. discriminate Hr.
    + right. apply for_each_Raise in Hr2 as Hx.
      destruct Hx as (pre & dep & post & Heq & _ & Hdep_r).
      assert (Hdep : dep ∈ inputs ++ state).
      { rewrite Heq. apply elem_of_app. right. apply list_elem_of_here. }
      destruct (Hbody2 dep Hdep) as [[Hok _] | (m & Hr & k & Hk & Hnot)].
      * rewrite Hok in Hdep_r. discriminate Hdep_r.
      * rewrite Hr in Hdep_r. injection Hdep_r as <-.
        exists m. split; [exact Hr2 |]. right. exists dep, k. auto.
  - right. rewrite Hr1. cbn [mbind result_bind].
    apply for_each_Raise in Hr1 as (pre & out & post & Heq & _ & Hout_r).
    assert (Hout : out ∈ rest).
    { rewrite Heq. apply elem_of_app. right. apply list_elem_of_here. }
    destruct (Hbody1 out Hout) as [[Hok _] | (m & Hr & Hne)].
    + rewrite Hok in Hout_r. discriminate Hout_r.
    + rewrite Hr in Hout_r. injection Hout_r as <-.
      exists m. split; [reflexivity |]. left. exists out. auto.
Qed.

Lemma passes_argument_checks_well_formed app layout output inputs state :
  passes_argument_checks app layout output inputs state ->
  Forall (well_formed_dep Output) (seq_items (outputs_of output)) /\
  Forall is_dependency (seq_items inputs ++ seq_items state).
Proof.
  intros (_ & _ & Ho & Hi & Hs).
  apply validate_callback_args_Ok in Ho as [_ Ho].
  apply validate_callback_args_Ok in Hi as [_ Hi].
  apply validate_callback_args_Ok in Hs as [_ Hs].
  split; [exact Ho |].
  apply Forall_app; split; (eapply Forall_impl; [eassumption |]);
    intros dep; apply well_formed_is_dependency.
Qed.


(** ** The first dependency that fails its checks *)

Lemma validate_callback_first_failure app layout output inputs state cls arg e :
  reaches_dependency app layout output inputs state cls arg ->
  validate_callback_arg cls layout (negb (suppress_callback_exceptions app)) arg
  = Raise e ->
  validate_callback app layout output inputs state = Raise e.
Proof.
  intros (Hpre & Hin & Hearlier & Hseq & pre & post & Hitems & Hpre_ok) Harg.
  assert (Hargs : validate_callback_args (arguments_of cls output inputs state)
                    cls layout (negb (suppress_callback_exceptions app))
                  = Raise e).
  { unfold validate_callback_args. rewrite Hseq. cbn [negb].
    apply for_each_Raise. exists pre, arg, post. auto. }
  unfold validate_callback. rewrite Hpre, Hin. cbn [negb].
  fold (outputs_of output). cbn [for_each fst snd].
  destruct cls; cbn [arguments_of earlier_arguments_pass] in *.
  - rewrite Hargs. reflexivity.
  - rewrite Hearlier. cbn [mbind result_bind]. rewrite Hargs. reflexivity.
  - destruct Hearlier as [-> ->]. cbn [mbind result_bind].
    rewrite Hargs. reflexivity.
Qed.

(** ** Characters that an id cannot hold *)

(** The checks of [validate_callback_arg] made before the id is looked
    at pass: the dependency is of the class, its property is a string and
    it has no event. *)
Lemma validate_callback_arg_string_id cls s p layout validate_ids :
  validate_callback_arg cls layout validate_ids
                        (PyDep cls (PyStr s) (PyStr p) false)
  = validate_id_string (PyDep cls (PyStr s) (PyStr p) false) layout validate_ids.
Proof.
  unfold validate_callback_arg.
  rewrite (proj2 (DepClass_eqb_eq cls cls) eq_refl). reflexivity.
Qed.

Lemma validate_id_string_invalid cls s p e layout validate_ids :
  char_in "." s = true \/ char_in "{" s = true ->
  exists found,
    validate_id_string (PyDep cls (PyStr s) p e) layout validate_ids
    = Raise (InvalidComponentIdError s found).
Proof.
  intros Hbad. unfold validate_id_string. cbn [List.filter].
  destruct (char_in "." s), (char_in "{" s); eauto.
  destruct Hbad as [Hbad | Hbad]; discriminate Hbad.
Qed.

(** C4, as the code has it: [validate_id_string] fails with
    [InvalidComponentIdError] for a string id that contains [.] or [{]
    before it looks at [validate_ids], so whether or not id-validation is
    enabled; [validate_callback] fails with [InvalidComponentIdError]
    when it reaches such a dependency, with id-validation suppressed as
    well as enabled. *)
Theorem invalid_id_characters cls s layout :
  char_in "." s = true \/ char_in "{" s = true ->
  (forall p e validate_ids,
     exists found,
       validate_id_string (PyDep cls (PyStr s) p e) layout validate_ids
       = Raise (InvalidComponentIdError s found)) /\
  (forall app output inputs state prop,
     reaches_dependency app layout output inputs state cls
                        (PyDep cls (PyStr s) (PyStr prop) false) ->
     exists found,
       validate_callback app layout output inputs state
       = Raise (InvalidComponentIdError s found)).
Proof.
  intros Hbad. split.
  - intros p e validate_ids. apply validate_id_string_invalid, Hbad.
  - intros app output inputs state prop Hreach.
    destruct (validate_id_string_invalid cls s (PyStr prop) false layout
                (negb (suppress_callback_exceptions app)) Hbad) as [found Hr].
    exists found.
    apply (validate_callback_first_failure _ _ _ _ _ _ _ _ Hreach).
    rewrite validate_callback_arg_string_id. exact Hr.
Qed.

(** ** Ids that are not in the layout *)

Lemma validate_prop_for_component_raises arg component e :
  validate_prop_for_component arg component = Raise e -> not_nonexistent_id e.
Proof.
  unfold validate_prop_for_component. intros Hr.
  raise_inv; not_nonexistent.
Qed.

Lemma validate_id_dict_raises arg layout validate_ids wildcards e :
  validate_id_dict arg layout validate_ids wildcards = Raise e ->
  not_nonexistent_id e.
Proof.
  unfold validate_id_dict. intros Hr.
  destruct arg as [| | | | | | | | |c i p ev| |]; try (raise_inv; not_nonexistent).
  destruct i as [| | | | | | | |d| | |]; try (raise_inv; not_nonexistent).
  apply bind_Raise_eq in Hr as [Hr | ([] & _ & Hr)].
  - destruct validate_ids; [| discriminate Hr].
    destruct (truthy _); [| discriminate Hr].
    eapply validate_prop_for_component_raises, Hr.
  - revert e Hr. apply for_each_raises_only. intros kv e _ Hr.
    raise_inv; not_nonexistent.
Qed.

Lemma validate_id_string_suppressed_raises arg layout e :
  validate_id_string arg layout false = Raise e -> not_nonexistent_id e.
Proof.
  unfold validate_id_string. intros Hr.
  raise_inv; not_nonexistent.
Qed.

Lemma validate_callback_args_suppressed_raises args cls layout e :
  validate_callback_args args cls layout false = Raise e ->
  not_nonexistent_id e.
Proof.
  unfold validate_callback_args.
  destruct (is_list_or_tuple args); cbn [negb];
    [| intros [= <-]; not_nonexistent].
  revert e. apply for_each_raises_only. intros arg e _.
  unfold validate_callback_arg.
  destruct arg as [| | | | | | | | |c i p ev| |];
    try (intros [= <-]; not_nonexistent).
  destruct (DepClass_eqb c cls); cbn [negb]; [| intros [= <-]; not_nonexistent].
  destruct (is_string p); cbn [negb]; [| intros [= <-]; not_nonexistent].
  destruct ev; [intros [= <-]; not_nonexistent |].
  destruct (is_dict i); [apply validate_id_dict_raises |].
  destruct (is_string i); [apply validate_id_string_suppressed_raises |].
  intros [= <-]; not_nonexistent.
Qed.

Lemma prevent_duplicate_outputs_raises app outputs e :
  prevent_duplicate_outputs app outputs = Raise e ->
  e = IndexError \/ exists m, e = DuplicateCallbackOutput m.
Proof.
  unfold prevent_duplicate_outputs.
  intros [Hr | ([] & _ & Hr)]%bind_Raise_eq.
  - apply prevent_duplicate_pairs_Raise in Hr as (i & j & a & b & _ & ->). eauto.
  - eapply report_dups_raises, Hr.
Qed.

Lemma get_wildcard_keys_raises dep wildcards e :
  get_wildcard_keys dep wildcards = Raise e -> e = AttributeError "component_id".
Proof.
  unfold get_wildcard_keys, getattr_component_id.
  destruct dep; cbn [mbind result_bind]; intros Hr; raise_inv; reflexivity.
Qed.

Lemma prevent_inconsistent_wildcards_raises outputs inputs state e :
  prevent_inconsistent_wildcards outputs inputs state = Raise e ->
  e = IndexError \/ e = AttributeError "component_id" \/
  exists m, e = InconsistentCallbackWildcards m.
Proof.
  unfold prevent_inconsistent_wildcards, index.
  intros [Hr | (first & _ & Hr)]%bind_Raise_eq.
  { destruct (outputs !! 0%nat); [discriminate Hr |]. injection Hr as <-. auto. }
  apply bind_Raise_eq in Hr as [Hr | (any_keys & _ & Hr)].
  { apply get_wildcard_keys_raises in Hr. auto. }
  apply bind_Raise_eq in Hr as [Hr | ([] & _ & Hr)]; revert e Hr;
    apply for_each_raises_only; intros dep e _ Hr;
    (apply bind_Raise_eq in Hr as [Hr | (keys & _ & Hr)];
     [apply get_wildcard_keys_raises in Hr; auto |]);
    raise_inv; eauto.
Qed.

Lemma validate_callback_suppressed_raises app layout output inputs state e :
  suppress_callback_exceptions app = true ->
  validate_callback app layout output inputs state = Raise e ->
  not_nonexistent_id e.
Proof.
  intros Hsup. unfold validate_callback. rewrite Hsup. cbn [negb].
  rewrite andb_false_r.
  destruct (truthy inputs); cbn [negb]; [| intros [= <-]; not_nonexistent].
  intros [Hr | ([] & _ & Hr)]%bind_Raise_eq.
  { revert e Hr. apply for_each_raises_only. intros [args cls] e _.
    apply validate_callback_args_suppressed_raises. }
  apply bind_Raise_eq in Hr as [Hr | ([] & _ & Hr)].
  { apply prevent_duplicate_outputs_raises in Hr as [-> | [m ->]];
      not_nonexistent. }
  apply bind_Raise_eq in Hr as [Hr | ([] & _ & Hr)].
  { apply prevent_input_output_overlap_Raise in Hr
      as (in_ & out & _ & _ & _ & ->). not_nonexistent. }
  apply prevent_inconsistent_wildcards_raises in Hr as [-> | [-> | [m ->]]];
    not_nonexistent.
Qed.

Lemma validate_id_string_missing cls s p e layout :
  char_in "." s = false -> char_in "{" s = false ->
  component_contains layout (PyStr s) = false ->
  getattr_id layout <> PyStr s ->
  exists ids,
    validate_id_string (PyDep cls (PyStr s) p e) layout true
    = Raise (NonExistentIdException s ids).
Proof.
  intros Hdot Hbrace Hnot Htop. unfold validate_id_string.
  cbn [List.filter]. rewrite Hdot, Hbrace, Hnot.
  destruct (py_eq (PyStr s) (getattr_id layout)) eqn:Heq.
  - apply py_eq_str_l in Heq. contradiction.
  - cbn [negb andb]. eauto.
Qed.

(** C5: for a dependency with a string id that holds neither [.] nor
    [{]: with id-validation enabled, when the id is not found in the
    layout and is not the id of its root, [validate_id_string], and with it
    [validate_callback] when it reaches the dependency, fails with
    [NonExistentIdException]; with id-validation suppressed,
    [validate_id_string] passes and [validate_callback] does not fail with
    [NonExistentIdException]. *)
Theorem nonexistent_id_failure cls s layout :
  char_in "." s = false -> char_in "{" s = false ->
  (component_contains layout (PyStr s) = false ->
   getattr_id layout <> PyStr s ->
   (forall p e,
      exists ids,
        validate_id_string (PyDep cls (PyStr s) p e) layout true
        = Raise (NonExistentIdException s ids)) /\
   (forall app output inputs state prop,
      suppress_callback_exceptions app = false ->
      reaches_dependency app layout output inputs state cls
                         (PyDep cls (PyStr s) (PyStr prop) false) ->
      exists ids,
        validate_callback app layout output inputs state
        = Raise (NonExistentIdException s ids))) /\
  (forall p e,
     validate_id_string (PyDep cls (PyStr s) p e) layout false = Ok tt) /\
  (forall app output inputs state arg_id ids,
     suppress_callback_exceptions app = true ->
     validate_callback app layout output inputs state
     <> Raise (NonExistentIdException arg_id ids)).
Proof.
  intros Hdot Hbrace. split; [| split].
  - intros Hnot Htop. split.
    + intros p e. apply validate_id_string_missing; assumption.
    + intros app output inputs state prop Hsup Hreach.
      destruct (validate_id_string_missing cls s (PyStr prop) false layout
                  Hdot Hbrace Hnot Htop) as [ids Hr].
      exists ids.
      apply (validate_callback_first_failure _ _ _ _ _ _ _ _ Hreach).
      rewrite validate_callback_arg_string_id, Hsup. exact Hr.
  - intros p e. unfold validate_id_string. cbn [List.filter].
    rewrite Hdot, Hbrace. reflexivity.
  - intros app output inputs state arg_id ids Hsup Hr.
    exact (validate_callback_suppressed_raises _ _ _ _ _ _ Hsup Hr arg_id ids
             eq_refl).
Qed.

(** ** A callback that declares no output *)

(** C10, as the code has it: when [output] is an empty list or tuple, the
    precondition checks pass and the inputs and the state pass the checks
    of [validate_callback_args], [validate_callback] fails with none of the
    exceptions of [dash.exceptions]: it reaches
    [prevent_inconsistent_wildcards], whose [outputs[0]] raises
    [IndexError]. *)
Theorem empty_outputs_index_error app layout output inputs state :
  output = PyList [] \/ output = PyTuple [] ->
  is_none layout && negb (suppress_callback_exceptions app) = false ->
  truthy inputs = true ->
  validate_callback_args inputs Input layout
                         (negb (suppress_callback_exceptions app)) = Ok tt ->
  validate_callback_args state State layout
                         (negb (suppress_callback_exceptions app)) = Ok tt ->
  prevent_duplicate_outputs app (seq_items output) = Ok tt /\
  prevent_input_output_overlap (seq_items inputs) (seq_items output) = Ok tt /\
  prevent_inconsistent_wildcards (seq_items output) (seq_items inputs)
                                 (seq_items state) = Raise IndexError /\
  validate_callback app layout output inputs state = Raise IndexError.
Proof.
  intros Hout Hpre Hin Hi Hs.
  assert (Hitems : seq_items output = [] /\ outputs_of output = output).
  { destruct Hout as [-> | ->]; split; reflexivity. }
  destruct Hitems as [Hitems Hof].
  assert (Hdup : prevent_duplicate_outputs app [] = Ok tt).
  { unfold prevent_duplicate_outputs. cbn [prevent_duplicate_pairs mbind result_bind].
    unfold report_dups. rewrite bool_decide_eq_true_2; [reflexivity |].
    apply collect_dups_empty. intros (out & _ & Ho & _).
    apply elem_of_nil in Ho. exact Ho. }
  assert (Hov : prevent_input_output_overlap (seq_items inputs) [] = Ok tt).
  { apply prevent_input_output_overlap_Ok.
    intros (in_ & out & _ & Ho & _). apply elem_of_nil in Ho. exact Ho. }
  rewrite Hitems.
  split; [exact Hdup | split; [exact Hov | split; [reflexivity |]]].
  rewrite (validate_callback_cross_checks app layout output inputs state).
  - rewrite Hof, Hitems, Hdup. cbn [mbind result_bind]. rewrite Hov. reflexivity.
  - unfold passes_argument_checks. rewrite Hof.
    repeat split; try assumption.
    destruct Hout as [-> | ->]; reflexivity.
Qed.

(** ** Failure of a callback's return value *)

Lemma raise_invalid_raised output bad_val outer_val path index toplevel :
  raise_invalid output bad_val outer_val path index toplevel <> Ok tt.
Proof.
  unfold raise_invalid. intros (outer_id & _ & Hr)%bind_Ok_eq. discriminate Hr.
Qed.

Lemma report_first_invalid_app output (l1 l2 : list Examined) :
  report output (first_invalid (l1 ++ l2))
  = (report output (first_invalid l1) ;; report output (first_invalid l2)).
Proof.
  unfold first_invalid. induction l1 as [|x l1 IH]; [reflexivity |].
  cbn [app List.find]. destruct (negb (value_is_valid (ex_val x)));
    [| exact IH].
  cbn [report].
  destruct (raise_invalid output (ex_val x) (ex_outer x) (ex_path x)
                          (ex_index x) (ex_toplevel x)) as [[]|e] eqn:Hr;
    [| reflexivity].
  destruct (raise_invalid_raised _ _ _ _ _ _ Hr).
Qed.

Lemma for_each_report {A : Type} output (l : list A) (body : A -> result unit)
      (tested : A -> list Examined) :
  (forall x, body x = report output (first_invalid (tested x))) ->
  for_each l body = report output (first_invalid (flat_map tested l)).
Proof.
  intros Hbody. induction l as [|x l IH]; [reflexivity |].
  cbn [for_each flat_map]. rewrite report_first_invalid_app, Hbody, IH.
  reflexivity.
Qed.

Lemma check_child_report output val child path index :
  check_child output val child path index
  = report output (first_invalid (examined_child val child path index)).
Proof.
  unfold check_child, examined_child.
  destruct (is_sequence child); [reflexivity |]. cbn [negb].
  destruct (truthy child); [| reflexivity].
  cbn [andb first_invalid List.find ex_val].
  destruct (value_is_valid child); reflexivity.
Qed.

Lemma validate_value_report output val index :
  validate_value output val index
  = report output (first_invalid (examined_values val index)).
Proof.
  unfold validate_value, examined_values.
  destruct (is_component val).
  - rewrite report_first_invalid_app, check_child_report.
    f_equal. apply for_each_report. intros [p j]. cbn [fst snd].
    rewrite check_child_report.
    change (Build_Examined j val p index false :: ?l)
      with ([Build_Examined j val p index false] ++ l).
    rewrite report_first_invalid_app. f_equal.
    cbn [first_invalid List.find ex_val].
    destruct (value_is_valid j); reflexivity.
  - cbn [first_invalid List.find ex_val].
    destruct (value_is_valid val); reflexivity.
Qed.

Lemma validate_values_report output (vals : list PyVal) (i : nat) :
  for_each_from i vals (fun i val => validate_value output val (Some i))
  = report output (first_invalid (examined_from i vals)).
Proof.
  revert i. induction vals as [|val vals IH]; intros i; [reflexivity |].
  cbn [for_each_from examined_from].
  rewrite report_first_invalid_app, validate_value_report, IH. reflexivity.
Qed.

(** [fail_callback_output] as one walk over the tested values. *)
Lemma fail_callback_output_walk (output_value output : PyVal) :
  fail_callback_output output_value output
  = (report output (first_invalid (examined output_value)) ;;
     component_property ← getattr_component_property output;
     component_id ← getattr_component_id output;
     property ← format_s component_property;
     id ← format_s component_id;
     Raise (InvalidCallbackReturnValue (NotJsonSerializable property id))).
Proof.
  unfold fail_callback_output. f_equal.
  unfold examined. destruct (is_list output_value).
  - apply validate_values_report.
  - apply validate_value_report.
Qed.

Lemma raise_invalid_string_id output x :
  outer_id_is_string x ->
  exists outer_id,
    raise_invalid output (ex_val x) (ex_outer x) (ex_path x) (ex_index x)
                  (ex_toplevel x)
    = Raise (InvalidCallbackReturnValue
               (BadValue (dep_repr output) (ex_toplevel x) (ex_val x)
                         (ex_outer x) outer_id (ex_path x) (ex_index x))).
Proof.
  unfold raise_invalid. intros [Hnone | Hstr].
  - rewrite Hnone. cbn [truthy mbind result_bind]. eauto.
  - destruct (getattr_id (ex_outer x)); try discriminate Hstr.
    destruct (truthy _); cbn [format_s mbind result_bind]; eauto.
Qed.

Lemma raise_invalid_dict_id output x d :
  getattr_id (ex_outer x) = PyDict d -> d <> [] ->
  raise_invalid output (ex_val x) (ex_outer x) (ex_path x) (ex_index x)
                (ex_toplevel x)
  = Raise TypeError.
Proof.
  unfold raise_invalid. intros -> Hd.
  destruct d; [congruence | reflexivity].
Qed.

Lemma examined_child_outer val child path index x :
  x ∈ examined_child val child path index -> ex_outer x = val.
Proof.
  unfold examined_child.
  destruct (is_sequence child); [intros Hx; apply elem_of_nil in Hx; destruct Hx |].
  destruct (truthy child); [| intros Hx; apply elem_of_nil in Hx; destruct Hx].
  intros ->%list_elem_of_singleton. reflexivity.
Qed.

Lemma examined_values_outer val index x :
  x ∈ examined_values val index ->
  ex_outer x = val \/ getattr_id (ex_outer x) = PyNone.
Proof.
  unfold examined_values. destruct (is_component val).
  - intros [Hx | Hx]%elem_of_app; left.
    + apply list_elem_of_In, in_flat_map in Hx as (pj & _ & Hx%list_elem_of_In).
      apply elem_of_cons in Hx as [-> | Hx]; [reflexivity |].
      eapply examined_child_outer, Hx.
    + eapply examined_child_outer, Hx.
  - intros ->%list_elem_of_singleton. right. reflexivity.
Qed.

Lemma examined_from_outer vals i x :
  x ∈ examined_from i vals ->
  ex_outer x ∈ vals \/ getattr_id (ex_outer x) = PyNone.
Proof.
  revert i. induction vals as [|val vals IH]; intros i; cbn [examined_from].
  - intros Hx. apply elem_of_nil in Hx. destruct Hx.
  - intros [Hx | Hx]%elem_of_app.
    + destruct (examined_values_outer _ _ _ Hx) as [-> | Hnone]; [| auto].
      left. apply list_elem_of_here.
    + destruct (IH _ Hx) as [Hin | Hnone]; [| auto].
      left. apply list_elem_of_further, Hin.
Qed.

Lemma first_invalid_outer output_value x :
  first_invalid (examined output_value) = Some x ->
  Forall id_is_string (returned_values output_value) ->
  outer_id_is_string x.
Proof.
  unfold first_invalid. intros [Hx%list_elem_of_In _]%find_some Hids.
  rewrite Forall_forall in Hids.
  unfold examined, returned_values in *.
  destruct (is_list output_value).
  - destruct (examined_from_outer _ _ _ Hx) as [Hin | Hnone];
      [apply Hids, Hin | left; exact Hnone].
  - destruct (examined_values_outer _ _ _ Hx) as [Heq | Hnone];
      [| left; exact Hnone].
    apply Hids. rewrite Heq. apply list_elem_of_here.
Qed.

(** C8: [fail_callback_output] never returns normally.  Where its
    message can be built it fails with [InvalidCallbackReturnValue]: with
    the message that points at the first value its traversal tests and
    finds not to be a string, number, boolean, [None], dict or component,
    and with the generic "not JSON serializable" message, which names the
    property and the id of the output, when the traversal finds no such
    value; this is so whenever the output has a string id and the returned
    components have string ids or none.  The message cannot be built, and
    the failure is [TypeError], when the generic message is for an output
    with a dict id and when the invalid value is reported under a component
    with a dict id. *)
Theorem fail_callback_output_raises (output_value output : PyVal) :
  fail_callback_output output_value output <> Ok tt /\
  (forall x,
     first_invalid (examined output_value) = Some x ->
     outer_id_is_string x ->
     exists outer_id,
       fail_callback_output output_value output
       = Raise (InvalidCallbackReturnValue
                  (BadValue (dep_repr output) (ex_toplevel x) (ex_val x)
                            (ex_outer x) outer_id (ex_path x) (ex_index x)))) /\
  (forall cls id_ prop ev,
     output = PyDep cls (PyStr id_) (PyStr prop) ev ->
     first_invalid (examined output_value) = None ->
     fail_callback_output output_value output
     = Raise (InvalidCallbackReturnValue (NotJsonSerializable prop id_))) /\
  (forall cls id_ prop ev,
     output = PyDep cls (PyStr id_) (PyStr prop) ev ->
     Forall id_is_string (returned_values output_value) ->
     exists m, fail_callback_output output_value output
               = Raise (InvalidCallbackReturnValue m)) /\
  (forall cls d prop ev,
     output = PyDep cls (PyDict d) (PyStr prop) ev ->
     first_invalid (examined output_value) = None ->
     fail_callback_output output_value output = Raise TypeError) /\
  (forall x d,
     first_invalid (examined output_value) = Some x ->
     getattr_id (ex_outer x) = PyDict d -> d <> [] ->
     fail_callback_output output_value output = Raise TypeError).
Proof.
  assert (Hdirected : forall x,
            first_invalid (examined output_value) = Some x ->
            outer_id_is_string x ->
            exists outer_id,
              fail_callback_output output_value output
              = Raise (InvalidCallbackReturnValue
                         (BadValue (dep_repr output) (ex_toplevel x) (ex_val x)
                                   (ex_outer x) outer_id (ex_path x)
                                   (ex_index x)))).
  { intros x Hx Hid. rewrite fail_callback_output_walk, Hx. cbn [report].
    destruct (raise_invalid_string_id output x Hid) as [outer_id ->]. eauto. }
  split; [| split; [| split; [| split; [| split]]]].
  - rewrite fail_callback_output_walk. intros ([] & _ & Hr)%bind_Ok_eq.
    apply bind_Ok_eq in Hr as (p & _ & Hr).
    apply bind_Ok_eq in Hr as (i & _ & Hr).
    apply bind_Ok_eq in Hr as (sp & _ & Hr).
    apply bind_Ok_eq in Hr as (si & _ & Hr). discriminate Hr.
  - exact Hdirected.
  - intros cls id_ prop ev -> Hnone.
    rewrite fail_callback_output_walk, Hnone. reflexivity.
  - intros cls id_ prop ev -> Hids.
    destruct (first_invalid (examined output_value)) as [x|] eqn:Hfirst.
    + destruct (Hdirected x eq_refl (first_invalid_outer _ _ Hfirst Hids))
        as [outer_id ->]. eauto.
    + rewrite fail_callback_output_walk, Hfirst. eexists. reflexivity.
  - intros cls d prop ev -> Hnone.
    rewrite fail_callback_output_walk, Hnone. reflexivity.
  - intros x d Hx Hd Hne. rewrite fail_callback_output_walk, Hx. cbn [report].
    rewrite (raise_invalid_dict_id output x d Hd Hne). reflexivity.
Qed.

(** ** Validation with the ids suppressed *)

Lemma for_each_ext {A : Type} (l : list A) (f g : A -> result unit) :
  (forall x, x ∈ l -> f x = g x) -> for_each l f = for_each l g.
Proof.
  induction l as [|x l IH]; intros Hfg; simpl; [reflexivity |].
  rewrite (Hfg x) by apply list_elem_of_here.
  rewrite IH; [reflexivity |].
  intros y Hy. apply Hfg, list_elem_of_further, Hy.
Qed.

Lemma validate_callback_arg_suppressed_layout cls layout layout' arg :
  validate_callback_arg cls layout false arg
  = validate_callback_arg cls layout' false arg.
Proof.
  destruct arg; reflexivity.
Qed.

Lemma validate_callback_args_suppressed_layout args cls layout layout' :
  validate_callback_args args cls layout false
  = validate_callback_args args cls layout' false.
Proof.
  unfold validate_callback_args.
  destruct (negb (is_list_or_tuple args)); [reflexivity |].
  apply for_each_ext. intros arg _.
  apply validate_callback_arg_suppressed_layout.
Qed.

(** X3: with [suppress_callback_exceptions] set, the result of
    [validate_callback] does not depend on the layout: any two layouts,
    [None] included, give the same result. *)
Theorem suppressed_ignores_layout app layout layout' output inputs state :
  suppress_callback_exceptions app = true ->
  validate_callback app layout output inputs state
  = validate_callback app layout' output inputs state.
Proof.
  intros Hs. unfold validate_callback. rewrite Hs. cbn [negb].
  rewrite !andb_false_r.
  destruct (negb (truthy inputs)); [reflexivity |].
  cbn [for_each fst snd].
  rewrite !(validate_callback_args_suppressed_layout _ _ layout layout').
  reflexivity.
Qed.

Lemma well_formed_dep_suppressed cls layout arg :
  well_formed_dep cls arg -> validate_callback_arg cls layout false arg = Ok tt.
Proof.
  intros (i & p & -> & [(s & -> & Hdot & Hbrace) | (d & -> & Hd)]);
    unfold validate_callback_arg;
    rewrite (proj2 (DepClass_eqb_eq cls cls) eq_refl);
    cbn [negb is_string is_dict].
  - unfold validate_id_string. simpl. rewrite Hdot, Hbrace. reflexivity.
  - unfold validate_id_dict. apply bind_Ok_eq. exists tt.
    split; [reflexivity |]. apply for_each_Ok.
    eapply Forall_impl; [exact Hd |].
    intros [k v] [(k' & Hk & Hne) Hv]. simpl in Hk, Hv. subst k. simpl.
    destruct (String.eqb_spec k' ""); [contradiction |]. simpl.
    apply orb_true_iff in Hv. rewrite Hv. reflexivity.
Qed.

Lemma well_formed_deps_suppressed args cls layout :
  is_list_or_tuple args = true ->
  Forall (well_formed_dep cls) (seq_items args) ->
  validate_callback_args args cls layout false = Ok tt.
Proof.
  intros Hl Hwf. unfold validate_callback_args. rewrite Hl. simpl.
  apply for_each_Ok. eapply Forall_impl; [exact Hwf |].
  intros arg. apply well_formed_dep_suppressed.
Qed.

(** X4: with the validation of ids suppressed, [validate_callback_args]
    accepts exactly the lists and tuples of well-formed dependencies of
    the class; what it accepts with the validation of ids it accepts
    without. *)
Theorem suppressed_argument_checks args cls layout :
  (validate_callback_args args cls layout false = Ok tt <->
   is_list_or_tuple args = true /\
   Forall (well_formed_dep cls) (seq_items args)) /\
  (validate_callback_args args cls layout true = Ok tt ->
   validate_callback_args args cls layout false = Ok tt).
Proof.
  split; [split |].
  - apply validate_callback_args_Ok.
  - intros [Hl Hwf]. apply well_formed_deps_suppressed; assumption.
  - intros [Hl Hwf]%validate_callback_args_Ok.
    apply well_formed_deps_suppressed; assumption.
Qed.

(** ** The property of a dependency *)

Lemma existsb_eqb_elem_of (p : string) (l : list string) :
  existsb (String.eqb p) l = true <-> p ∈ l.
Proof.
  rewrite existsb_exists. split.
  - intros (x & Hin & Heq). apply String.eqb_eq in Heq as <-.
    apply list_elem_of_In, Hin.
  - intros Hin. exists p. split; [apply list_elem_of_In, Hin |].
    apply String.eqb_refl.
Qed.

Lemma existsb_prefix (p : string) (l : list string) :
  existsb (fun w => String.prefix w p) l = true <->
  exists w, w ∈ l /\ String.prefix w p = true.
Proof.
  rewrite existsb_exists. split; intros (w & Hin & Hw); exists w;
    (split; [apply list_elem_of_In, Hin | exact Hw]).
Qed.

Lemma validate_prop_for_component_Ok cls i p ev c :
  validate_prop_for_component (PyDep cls i (PyStr p) ev) c = Ok tt <->
  has_property c p.
Proof.
  unfold has_property.
  destruct c as [| | | | | | | | | |n ci props wprops ch|]; simpl;
    try (split; [discriminate | intros (? & ? & ? & ? & ? & [=] & _)]).
  destruct (existsb (String.eqb p) props) eqn:Hp; simpl.
  - split; [| reflexivity]. intros _. eexists _, _, _, _, _.
    split; [reflexivity |]. left. apply existsb_eqb_elem_of, Hp.
  - destruct (existsb (fun w => String.prefix w p) wprops) eqn:Hw; simpl.
    + split; [| reflexivity]. intros _. eexists _, _, _, _, _.
      split; [reflexivity |]. right. apply existsb_prefix, Hw.
    + split; [discriminate |].
      intros (? & ? & ? & ? & ? & [= <- <- <- <- <-] & [Hin | Hin]).
      * apply existsb_eqb_elem_of in Hin. congruence.
      * apply existsb_prefix in Hin. congruence.
Qed.

Lemma validate_prop_for_component_Raise cls i p ev c e :
  validate_prop_for_component (PyDep cls i (PyStr p) ev) c = Raise e ->
  (is_component c = true /\ e = NonExistentPropException (PyStr p) i) \/
  (is_component c = false /\ e = AttributeError "available_properties").
Proof.
  destruct c as [| | | | | | | | | |n ci props wprops ch|]; simpl;
    try (intros [= <-]; right; split; reflexivity).
  destruct (_ && _); intros [= <-]. left. split; reflexivity.
Qed.

Lemma validate_prop_for_component_lacks cls i p ev c :
  is_component c = true -> ~ has_property c p ->
  validate_prop_for_component (PyDep cls i (PyStr p) ev) c
  = Raise (NonExistentPropException (PyStr p) i).
Proof.
  intros Hc Hno.
  destruct (result_unit_cases
              (validate_prop_for_component (PyDep cls i (PyStr p) ev) c))
    as [Hok | [e He]].
  - apply validate_prop_for_component_Ok in Hok. contradiction.
  - rewrite He.
    apply validate_prop_for_component_Raise in He as [[_ ->] | [Hc' _]];
      [reflexivity | congruence].
Qed.

Lemma py_eq_str_sym (s : string) (x : PyVal) :
  py_eq x (PyStr s) = py_eq (PyStr s) x.
Proof.
  destruct (py_eq x (PyStr s)) eqn:Hx, (py_eq (PyStr s) x) eqn:Hy;
    try reflexivity.
  - apply py_eq_str_r in Hx. apply py_eq_str_l in Hx. congruence.
  - apply py_eq_str_l in Hy. apply py_eq_str_r in Hy. congruence.
Qed.

Lemma validate_id_string_component cls s p ev layout c :
  char_in "." s = false -> char_in "{" s = false ->
  component_with_id layout s = Some c ->
  validate_id_string (PyDep cls (PyStr s) p ev) layout true
  = validate_prop_for_component (PyDep cls (PyStr s) p ev) c.
Proof.
  intros Hdot Hbrace Hc. unfold validate_id_string. simpl List.filter.
  rewrite Hdot, Hbrace. cbv iota beta zeta.
  unfold component_with_id in Hc. rewrite <- (py_eq_str_sym s).
  destruct (py_eq (getattr_id layout) (PyStr s)).
  - rewrite andb_false_r. injection Hc as ->. reflexivity.
  - destruct (component_contains layout (PyStr s)); [| discriminate Hc].
    simpl. rewrite Hc. reflexivity.
Qed.

(** X6: a dependency with a string id that is in the layout passes
    [validate_id_string] exactly when the component with this id has the
    property, by name or by the prefix of a wildcard property; otherwise
    [validate_id_string], and [validate_callback] when it reaches the
    dependency, raise [NonExistentPropException].  With the validation of
    ids suppressed the property is not looked at. *)
Theorem nonexistent_prop_failure cls s p layout c :
  char_in "." s = false -> char_in "{" s = false ->
  component_with_id layout s = Some c -> is_component c = true ->
  (has_property c p ->
   forall ev, validate_id_string (PyDep cls (PyStr s) (PyStr p) ev) layout true
              = Ok tt) /\
  (~ has_property c p ->
   (forall ev, validate_id_string (PyDep cls (PyStr s) (PyStr p) ev) layout true
               = Raise (NonExistentPropException (PyStr p) (PyStr s))) /\
   (forall app output inputs state,
      suppress_callback_exceptions app = false ->
      reaches_dependency app layout output inputs state cls
                         (PyDep cls (PyStr s) (PyStr p) false) ->
      validate_callback app layout output inputs state
      = Raise (NonExistentPropException (PyStr p) (PyStr s)))) /\
  (forall ev, validate_id_string (PyDep cls (PyStr s) (PyStr p) ev) layout false
              = Ok tt).
Proof.
  intros Hdot Hbrace Hc Hcomp. split; [| split].
  - intros Hhas ev.
    rewrite (validate_id_string_component _ _ _ _ _ _ Hdot Hbrace Hc).
    apply validate_prop_for_component_Ok, Hhas.
  - intros Hno.
    assert (Hstep : forall ev,
               validate_id_string (PyDep cls (PyStr s) (PyStr p) ev) layout true
               = Raise (NonExistentPropException (PyStr p) (PyStr s))).
    { intros ev.
      rewrite (validate_id_string_component _ _ _ _ _ _ Hdot Hbrace Hc).
      apply validate_prop_for_component_lacks; assumption. }
    split; [exact Hstep |].
    intros app output inputs state Hs Hreach.
    apply (validate_callback_first_failure _ _ _ _ _ _ _ _ Hreach).
    rewrite Hs. cbn [negb]. rewrite validate_callback_arg_string_id.
    apply Hstep.
  - intros ev. unfold validate_id_string. simpl.
    rewrite Hdot, Hbrace. reflexivity.
Qed.

Lemma id_match_component arg_id ws c :
  id_match arg_id ws c = true -> is_component c = true.
Proof. destruct c; simpl; try discriminate. reflexivity. Qed.

Lemma matching_component_match arg_id ws layout c :
  matching_component arg_id ws layout = Some c -> id_match arg_id ws c = true.
Proof.
  unfold matching_component.
  destruct (id_match arg_id ws layout) eqn:Hl.
  - intros [= <-]. exact Hl.
  - intros [_ Hc]%find_some. exact Hc.
Qed.

Lemma validate_id_dict_matching cls d p ev layout ws :
  validate_id_dict (PyDep cls (PyDict d) p ev) layout true ws
  = (match matching_component d ws layout with
     | Some c => if truthy c
                 then validate_prop_for_component (PyDep cls (PyDict d) p ev) c
                 else Ok tt
     | None => Ok tt
     end ;;
     validate_id_dict (PyDep cls (PyDict d) p ev) layout false ws).
Proof.
  unfold validate_id_dict, matching_component.
  destruct (id_match d ws layout); [reflexivity |].
  destruct (find (id_match d ws) (_traverse layout)); reflexivity.
Qed.

(** X7: a dependency with a dict id is checked against the first
    component of the layout that matches the id, if there is one and it
    is true: its property must be one of the component, else
    [NonExistentPropException] is raised, before the keys and values of
    the id are looked at.  When no component matches, or the one that
    matches is false, the validation of ids changes nothing. *)
Theorem dict_id_property_check cls d p ev layout ws :
  let arg := PyDep cls (PyDict d) (PyStr p) ev in
  (matching_component d ws layout = None ->
   validate_id_dict arg layout true ws = validate_id_dict arg layout false ws) /\
  (forall c,
     matching_component d ws layout = Some c -> truthy c = true ->
     (has_property c p ->
      validate_id_dict arg layout true ws
      = validate_id_dict arg layout false ws) /\
     (~ has_property c p ->
      validate_id_dict arg layout true ws
      = Raise (NonExistentPropException (PyStr p) (PyDict d)))) /\
  (forall c,
     matching_component d ws layout = Some c -> truthy c = false ->
     validate_id_dict arg layout true ws = validate_id_dict arg layout false ws).
Proof.
  intros arg. unfold arg. split; [| split].
  - intros Hm. rewrite validate_id_dict_matching, Hm. reflexivity.
  - intros c Hm Ht. rewrite validate_id_dict_matching, Hm, Ht. split.
    + intros Hhas%(validate_prop_for_component_Ok cls (PyDict d) p ev).
      rewrite Hhas. reflexivity.
    + intros Hno.
      rewrite validate_prop_for_component_lacks; [reflexivity | | exact Hno].
      eapply id_match_component, matching_component_match, Hm.
  - intros c Hm Ht. rewrite validate_id_dict_matching, Hm, Ht. reflexivity.
Qed.

(** ** The exceptions of [validate_callback] *)

Lemma validate_id_dict_suppressed_raises cls d p ev layout ws e :
  validate_id_dict (PyDep cls (PyDict d) p ev) layout false ws = Raise e ->
  shape_exception e.
Proof.
  unfold validate_id_dict. intros Hr. apply bind_Raise_eq in Hr
    as [Hr | ([] & _ & Hr)]; [discriminate Hr |].
  apply for_each_Raise in Hr as (pre & [k v] & post & _ & _ & Hr).
  simpl in Hr.
  destruct (negb (truthy k && is_string k)); [injection Hr as <-; exact I |].
  destruct (negb (in_wildcards v ws || is_scalar v));
    [injection Hr as <-; exact I | discriminate Hr].
Qed.

Lemma validate_callback_arg_raises cls layout validate_ids arg e :
  validate_callback_arg cls layout validate_ids arg = Raise e ->
  shape_exception e \/
  (validate_ids = true /\
   (layout_exception e \/ (lookup_exception e /\ ~ consistent_layout layout))).
Proof.
  unfold validate_callback_arg.
  destruct arg as [| | | | | | | | |c i p ev| |];
    try (intros [= <-]; left; exact I).
  destruct (negb (DepClass_eqb c cls)); [intros [= <-]; left; exact I |].
  destruct p as [| | | |p| | | | | | |]; cbn [is_string negb];
    try (intros [= <-]; left; exact I).
  destruct ev; [intros [= <-]; left; exact I |].
  destruct i as [| | | |s| | | |d| | |]; cbn [is_dict is_string];
    try (intros [= <-]; left; exact I).
  - (* a string id *)
    unfold validate_id_string.
    destruct (List.filter _ _); [| intros [= <-]; left; exact I].
    destruct validate_ids; [| discriminate].
    intros Hr. right. split; [reflexivity |].
    destruct (negb (component_contains layout (PyStr s))
              && negb (py_eq (PyStr s) (getattr_id layout))) eqn:Hin;
      [injection Hr as <-; left; exact I |].
    rewrite <- py_eq_str_sym in Hin.
    destruct (py_eq (getattr_id layout) (PyStr s)) eqn:Htop.
    + change (validate_prop_for_component
                (PyDep c (PyStr s) (PyStr p) false) layout = Raise e) in Hr.
      apply validate_prop_for_component_Raise in Hr as [[_ ->] | [Hc _]];
        [left; exact I |].
      apply py_eq_str_r in Htop. destruct layout; discriminate.
    + rewrite andb_true_r in Hin. apply negb_false_iff in Hin.
      destruct (component_getitem layout (PyStr s)) as [c'|] eqn:Hget.
      * change (validate_prop_for_component
                  (PyDep c (PyStr s) (PyStr p) false) c' = Raise e) in Hr.
        apply validate_prop_for_component_Raise in Hr as [[_ ->] | [Hc ->]];
          [left; exact I |].
        right. split; [exact I |]. intros Hcons.
        destruct (Hcons _ Hin) as (c'' & Hget' & Hc''). congruence.
      * injection Hr as <-. right. split; [exact I |]. intros Hcons.
        destruct (Hcons _ Hin) as (c'' & Hget' & _). congruence.
  - (* a dict id *)
    destruct validate_ids.
    + rewrite validate_id_dict_matching. intros Hr.
      apply bind_Raise_eq in Hr as [Hr | ([] & _ & Hr)].
      * right. split; [reflexivity |]. left.
        destruct (matching_component d (allowed_wildcards cls) layout)
          as [c'|] eqn:Hm; [| discriminate Hr].
        destruct (truthy c'); [| discriminate Hr].
        apply validate_prop_for_component_Raise in Hr as [[_ ->] | [Hc _]];
          [exact I |].
        apply matching_component_match, id_match_component in Hm. congruence.
      * left. eapply validate_id_dict_suppressed_raises, Hr.
    + intros Hr. left. eapply validate_id_dict_suppressed_raises, Hr.
Qed.

Lemma validate_callback_args_raises args cls layout validate_ids e :
  validate_callback_args args cls layout validate_ids = Raise e ->
  shape_exception e \/
  (validate_ids = true /\
   (layout_exception e \/ (lookup_exception e /\ ~ consistent_layout layout))).
Proof.
  unfold validate_callback_args.
  destruct (negb (is_list_or_tuple args)); [intros [= <-]; left; exact I |].
  intros (pre & arg & post & _ & _ & Hr)%for_each_Raise.
  eapply validate_callback_arg_raises, Hr.
Qed.

Lemma report_dups_Ok (outputs : list PyVal) (dups : gset string) :
  report_dups outputs dups = Ok tt <-> dups = ∅.
Proof.
  unfold report_dups. case_bool_decide as Hd; [split; auto |].
  split; [| contradiction]. intros Hr. exfalso.
  destruct (Nat.ltb 1 (length outputs)); simpl in Hr; [discriminate Hr |].
  destruct (Nat.ltb 1 (length (elements dups))); simpl in Hr;
    [discriminate Hr |].
  unfold index in Hr.
  destruct (outputs !! 0%nat); simpl in Hr; [| discriminate Hr].
  destruct (elements dups !! 0%nat); simpl in Hr; [| discriminate Hr].
  destruct (negb _); simpl in Hr; discriminate Hr.
Qed.

Lemma prevent_duplicate_outputs_Ok app outputs :
  prevent_duplicate_outputs app outputs = Ok tt <->
  ~ has_equal_outputs outputs /\
  ~ overlaps_registered (used_outputs app) outputs.
Proof.
  unfold prevent_duplicate_outputs. rewrite bind_Ok_eq. split.
  - intros ([] & Hp & Hr). split.
    + apply prevent_duplicate_pairs_Ok, Hp.
    + apply collect_dups_empty. exact (proj1 (report_dups_Ok outputs _) Hr).
  - intros [Hp Hr]. exists tt. split.
    + apply prevent_duplicate_pairs_Ok, Hp.
    + apply (proj2 (report_dups_Ok outputs _)). apply collect_dups_empty, Hr.
Qed.

Lemma prevent_duplicate_outputs_Raise app outputs e :
  prevent_duplicate_outputs app outputs = Raise e ->
  exists m, e = DuplicateCallbackOutput m.
Proof.
  unfold prevent_duplicate_outputs. intros Hr.
  apply bind_Raise_eq in Hr as [Hr | ([] & _ & Hr)].
  - apply prevent_duplicate_pairs_Raise in Hr as (i & j & a & b & _ & ->).
    eauto.
  - assert (Hne : collect_dups (used_outputs app) outputs <> ∅).
    { intros Hd. apply (report_dups_Ok outputs) in Hd. congruence. }
    assert (Hout : outputs <> []).
    { apply set_choose_L in Hne as [s Hs].
      apply elem_of_collect_dups in Hs as (out & _ & Hout & _).
      intros ->. apply elem_of_nil in Hout. exact Hout. }
    destruct (report_dups_spec outputs _ Hne Hout)
      as [(_ & out & _ & Hr') | (_ & Hr')];
      rewrite Hr' in Hr; injection Hr as <-; eauto.
Qed.

(** X8: [prevent_duplicate_outputs] returns normally exactly when no two
    declared outputs compare equal and no declared output compares equal
    to a registered one; it raises no exception other than
    [DuplicateCallbackOutput], and none for an empty list of outputs. *)
Theorem prevent_duplicate_outputs_passes app outputs :
  (prevent_duplicate_outputs app outputs = Ok tt <->
   ~ has_equal_outputs outputs /\
   ~ overlaps_registered (used_outputs app) outputs) /\
  (forall e, prevent_duplicate_outputs app outputs = Raise e ->
             exists m, e = DuplicateCallbackOutput m) /\
  (outputs = [] -> prevent_duplicate_outputs app outputs = Ok tt).
Proof.
  split; [apply prevent_duplicate_outputs_Ok |].
  split; [intros e; apply prevent_duplicate_outputs_Raise |].
  intros ->. reflexivity.
Qed.

Lemma collect_dups_same_elements (used used' outputs : list PyVal) :
  (forall out, out ∈ used <-> out ∈ used') ->
  collect_dups used outputs = collect_dups used' outputs.
Proof.
  intros Hsame. apply set_eq. intros s. rewrite !elem_of_collect_dups.
  split; intros (out & used_out & Hout & Hused & Heq);
    exists out, used_out; (split; [exact Hout |]);
    (split; [apply Hsame, Hused | exact Heq]).
Qed.

Lemma prevent_duplicate_outputs_same_elements app app' outputs :
  (forall out, out ∈ used_outputs app <-> out ∈ used_outputs app') ->
  prevent_duplicate_outputs app outputs = prevent_duplicate_outputs app' outputs.
Proof.
  intros Hsame. unfold prevent_duplicate_outputs.
  rewrite (collect_dups_same_elements _ _ _ Hsame). reflexivity.
Qed.

Lemma same_up_to_order_refl (r : result unit) : same_up_to_order r r.
Proof.
  destruct r as [[]|e]; simpl; [exact I |].
  destruct e as [| | | | | | |m| | | | | | | | | |]; try reflexivity.
  destruct m; try reflexivity. split; reflexivity.
Qed.

(** X9: the registered outputs count as a set: two applications whose
    registered outputs have the same elements, in any order and any
    number of times, give the same result of [prevent_duplicate_outputs],
    and of [validate_callback] when they agree on
    [suppress_callback_exceptions], up to the order in which the message
    of [DuplicateCallbackOutput] lists the outputs already used.  Outputs
    that pass against a list of registered outputs pass against every
    part of it. *)
Theorem registered_outputs_as_set app app' outputs :
  ((forall out, out ∈ used_outputs app <-> out ∈ used_outputs app') ->
   same_up_to_order (prevent_duplicate_outputs app outputs)
                    (prevent_duplicate_outputs app' outputs) /\
   (suppress_callback_exceptions app = suppress_callback_exceptions app' ->
    forall layout output inputs state,
      same_up_to_order (validate_callback app layout output inputs state)
                       (validate_callback app' layout output inputs state))) /\
  (used_outputs app ⊆ used_outputs app' ->
   prevent_duplicate_outputs app' outputs = Ok tt ->
   prevent_duplicate_outputs app outputs = Ok tt).
Proof.
  split.
  - intros Hsame. split.
    + rewrite (prevent_duplicate_outputs_same_elements app app' _ Hsame).
      apply same_up_to_order_refl.
    + intros Hs layout output inputs state. unfold validate_callback.
      rewrite Hs.
      rewrite (prevent_duplicate_outputs_same_elements app app' _ Hsame).
      apply same_up_to_order_refl.
  - intros Hsub [Hp Hr]%prevent_duplicate_outputs_Ok.
    apply prevent_duplicate_outputs_Ok. split; [exact Hp |].
    intros (out & used_out & Hout & Hused & Heq). apply Hr.
    exists out, used_out. split; [exact Hout |].
    split; [apply Hsub, Hused | exact Heq].
Qed.

(** ** The steps of [validate_callback] *)

Lemma is_none_true (v : PyVal) : is_none v = true <-> v = PyNone.
Proof. destruct v; simpl; split; congruence. Qed.

Lemma layout_defined (app : App) (layout : PyVal) :
  is_none layout && negb (suppress_callback_exceptions app) = false <->
  ~ (layout = PyNone /\ suppress_callback_exceptions app = false).
Proof.
  rewrite andb_false_iff, negb_false_iff. split.
  - intros [Hl | Hs] [Hn Hs']; [| congruence].
    apply is_none_true in Hn. congruence.
  - intros Hno. destruct (is_none layout) eqn:Hl; [| left; reflexivity].
    right. destruct (suppress_callback_exceptions app); [reflexivity |].
    exfalso. apply Hno. split; [apply is_none_true, Hl | reflexivity].
Qed.

Lemma validate_callback_steps app layout output inputs state :
  is_none layout && negb (suppress_callback_exceptions app) = false ->
  truthy inputs = true ->
  let validate_ids := negb (suppress_callback_exceptions app) in
  validate_callback app layout output inputs state
  = (validate_callback_args (outputs_of output) Output layout validate_ids ;;
     validate_callback_args inputs Input layout validate_ids ;;
     validate_callback_args state State layout validate_ids ;;
     prevent_duplicate_outputs app (seq_items (outputs_of output)) ;;
     prevent_input_output_overlap (seq_items inputs)
                                  (seq_items (outputs_of output)) ;;
     prevent_inconsistent_wildcards (seq_items (outputs_of output))
                                    (seq_items inputs) (seq_items state)).
Proof.
  intros Hpre Hin validate_ids. unfold validate_callback.
  rewrite Hpre, Hin. cbn [negb for_each fst snd].
  fold (outputs_of output). fold validate_ids.
  destruct (validate_callback_args (outputs_of output) Output layout
                                   validate_ids) as [[]|]; [| reflexivity].
  cbn [mbind result_bind].
  destruct (validate_callback_args inputs Input layout validate_ids)
    as [[]|]; [| reflexivity].
  cbn [mbind result_bind].
  destruct (validate_callback_args state State layout validate_ids)
    as [[]|]; reflexivity.
Qed.

Lemma validate_callback_Ok app layout output inputs state :
  validate_callback app layout output inputs state = Ok tt <->
  passes_argument_checks app layout output inputs state /\
  prevent_duplicate_outputs app (seq_items (outputs_of output)) = Ok tt /\
  prevent_input_output_overlap (seq_items inputs)
                               (seq_items (outputs_of output)) = Ok tt /\
  prevent_inconsistent_wildcards (seq_items (outputs_of output))
                                 (seq_items inputs) (seq_items state) = Ok tt.
Proof.
  split.
  - intros Hok.
    assert (Hpre : is_none layout && negb (suppress_callback_exceptions app)
                   = false).
    { unfold validate_callback in Hok.
      destruct (is_none layout && negb (suppress_callback_exceptions app));
        [discriminate Hok | reflexivity]. }
    assert (Hin : truthy inputs = true).
    { unfold validate_callback in Hok. rewrite Hpre in Hok.
      destruct (truthy inputs); [reflexivity | discriminate Hok]. }
    rewrite (validate_callback_steps _ _ _ _ _ Hpre Hin) in Hok.
    apply bind_Ok_eq in Hok as ([] & Ho & Hok).
    apply bind_Ok_eq in Hok as ([] & Hi & Hok).
    apply bind_Ok_eq in Hok as ([] & Hs & Hok).
    apply bind_Ok_eq in Hok as ([] & Hdup & Hok).
    apply bind_Ok_eq in Hok as ([] & Hov & Hok).
    repeat split; assumption.
  - intros (Hpass & Hdup & Hov & Hw).
    rewrite (validate_callback_cross_checks _ _ _ _ _ Hpass), Hdup.
    cbn [mbind result_bind]. rewrite Hov. exact Hw.
Qed.

Lemma prevent_inconsistent_wildcards_checked outputs inputs state :
  Forall (well_formed_dep Output) outputs ->
  Forall is_dependency (inputs ++ state) ->
  (outputs = [] /\
   prevent_inconsistent_wildcards outputs inputs state = Raise IndexError) \/
  (exists first rest,
     outputs = first :: rest /\
     ((prevent_inconsistent_wildcards outputs inputs state = Ok tt /\
       ~ inconsistent_wildcards first rest inputs state) \/
      (exists m, prevent_inconsistent_wildcards outputs inputs state
                 = Raise (InconsistentCallbackWildcards m) /\
                 inconsistent_wildcards first rest inputs state))).
Proof.
  intros Ho Hdeps. destruct outputs as [|first rest].
  - left. split; reflexivity.
  - right. exists first, rest. split; [reflexivity |].
    apply Forall_cons in Ho as [Hfirst Hrest].
    apply prevent_inconsistent_wildcards_spec.
    + eapply well_formed_string_keyed, Hfirst.
    + eapply Forall_impl; [exact Hrest |].
      intros dep. apply well_formed_is_dependency.
    + exact Hdeps.
Qed.

Lemma validate_callback_Raise app layout output inputs state e :
  validate_callback app layout output inputs state = Raise e ->
  (e = LayoutIsNotDefined /\
   layout = PyNone /\ suppress_callback_exceptions app = false) \/
  (e = MissingInputsException /\
   ~ (layout = PyNone /\ suppress_callback_exceptions app = false) /\
   truthy inputs = false) \/
  (exists args cls,
     validate_callback_args args cls layout
                            (negb (suppress_callback_exceptions app))
     = Raise e) \/
  cross_exception e \/
  (e = IndexError /\ seq_items (outputs_of output) = []).
Proof.
  intros Hr.
  destruct (is_none layout && negb (suppress_callback_exceptions app))
    eqn:Hpre.
  { left. unfold validate_callback in Hr. rewrite Hpre in Hr.
    injection Hr as <-. apply andb_true_iff in Hpre as [Hl Hs].
    apply is_none_true in Hl. apply negb_true_iff in Hs. auto. }
  right. destruct (truthy inputs) eqn:Hin.
  2: { left. unfold validate_callback in Hr. rewrite Hpre, Hin in Hr.
       injection Hr as <-. split; [reflexivity |].
       split; [apply layout_defined, Hpre | reflexivity]. }
  right.
  destruct (result_unit_cases
              (validate_callback_args (outputs_of output) Output layout
                 (negb (suppress_callback_exceptions app))))
    as [Ho | [e' Ho]].
  2: { left. exists (outputs_of output), Output. rewrite <- Hr.
       rewrite (validate_callback_steps _ _ _ _ _ Hpre Hin), Ho.
       reflexivity. }
  destruct (result_unit_cases
              (validate_callback_args inputs Input layout
                 (negb (suppress_callback_exceptions app))))
    as [Hi | [e' Hi]].
  2: { left. exists inputs, Input. rewrite <- Hr.
       rewrite (validate_callback_steps _ _ _ _ _ Hpre Hin), Ho, Hi.
       reflexivity. }
  destruct (result_unit_cases
              (validate_callback_args state State layout
                 (negb (suppress_callback_exceptions app))))
    as [Hs | [e' Hs]].
  2: { left. exists state, State. rewrite <- Hr.
       rewrite (validate_callback_steps _ _ _ _ _ Hpre Hin), Ho, Hi, Hs.
       reflexivity. }
  right.
  assert (Hpass : passes_argument_checks app layout output inputs state)
    by (repeat split; assumption).
  rewrite (validate_callback_cross_checks _ _ _ _ _ Hpass) in Hr.
  apply bind_Raise_eq in Hr as [Hr | ([] & _ & Hr)].
  { left. apply prevent_duplicate_outputs_Raise in Hr as [m ->]. exact I. }
  apply bind_Raise_eq in Hr as [Hr | ([] & _ & Hr)].
  { left. apply prevent_input_output_overlap_Raise in Hr
      as (in_ & out & _ & _ & _ & ->). exact I. }
  destruct (passes_argument_checks_well_formed _ _ _ _ _ Hpass)
    as [Hwf Hdeps].
  destruct (prevent_inconsistent_wildcards_checked _ _ _ Hwf Hdeps)
    as [[Hempty Hr'] | (first & rest & _ & [[Hr' _] | (m & Hr' & _)])];
    rewrite Hr' in Hr.
  - injection Hr as <-. right. split; [reflexivity | exact Hempty].
  - discriminate Hr.
  - injection Hr as <-. left. exact I.
Qed.

(** X1: [validate_callback] raises [LayoutIsNotDefined] exactly when the
    layout is [None] and the validation of ids is not suppressed, and
    [MissingInputsException] exactly when that is not so and the inputs
    are false (an empty list): the two are tested before any dependency
    is looked at, and no later step raises them. *)
Theorem validate_callback_preconditions app layout output inputs state :
  (validate_callback app layout output inputs state = Raise LayoutIsNotDefined
   <-> layout = PyNone /\ suppress_callback_exceptions app = false) /\
  (validate_callback app layout output inputs state
   = Raise MissingInputsException
   <-> ~ (layout = PyNone /\ suppress_callback_exceptions app = false) /\
       truthy inputs = false).
Proof.
  split; split.
  - intros Hr. apply validate_callback_Raise in Hr
      as [(_ & Hl) | [(He & _) | [(args & cls & Hr) | [Hc | [He _]]]]];
      [exact Hl | discriminate He | | destruct Hc | discriminate He].
    apply validate_callback_args_raises in Hr
      as [Hsh | (_ & [Hl | [Hl _]])]; destruct Hsh || destruct Hl.
  - intros [-> Hs]. unfold validate_callback. rewrite Hs. reflexivity.
  - intros Hr. apply validate_callback_Raise in Hr
      as [(He & _) | [(_ & Hl) | [(args & cls & Hr) | [Hc | [He _]]]]];
      [discriminate He | exact Hl | | destruct Hc | discriminate He].
    apply validate_callback_args_raises in Hr
      as [Hsh | (_ & [Hl | [Hl _]])]; destruct Hsh || destruct Hl.
  - intros [Hpre%layout_defined Hin]. unfold validate_callback.
    rewrite Hpre, Hin. reflexivity.
Qed.

(** X2: when the layout answers [layout[k]] with a component for every
    [k in layout], [validate_callback] raises nothing but the ten
    exceptions of [dash.exceptions] it names, and [IndexError] for an
    empty list of outputs.  With the validation of ids suppressed it
    raises neither [LayoutIsNotDefined] nor an exception of the checks
    against the layout, whatever the layout. *)
Theorem validate_callback_raises_only app layout output inputs state e :
  validate_callback app layout output inputs state = Raise e ->
  (consistent_layout layout ->
   callback_exception e \/
   (e = IndexError /\ seq_items (outputs_of output) = [])) /\
  (suppress_callback_exceptions app = true ->
   e = MissingInputsException \/ shape_exception e \/ cross_exception e \/
   (e = IndexError /\ seq_items (outputs_of output) = [])).
Proof.
  intros Hr. unfold callback_exception.
  apply validate_callback_Raise in Hr
    as [(He & _ & Hs) | [(He & _) | [(args & cls & Hr) | [Hc | He]]]].
  - split; [tauto |]. intros Hs'. congruence.
  - split; tauto.
  - apply validate_callback_args_raises in Hr
      as [Hsh | (Hv & [Hl | [Hl Hcons]])].
    + split; tauto.
    + split; [tauto |]. intros Hs. rewrite Hs in Hv. discriminate Hv.
    + split; [intros Hc; contradiction |].
      intros Hs. rewrite Hs in Hv. discriminate Hv.
  - split; tauto.
  - split; tauto.
Qed.

(** ** Registrations that are accepted *)

Lemma validate_callback_valid app layout output inputs state :
  validate_callback app layout output inputs state = Ok tt ->
  valid_registration app output inputs state.
Proof.
  intros (Hpass & Hdup & Hov & Hw)%validate_callback_Ok.
  destruct (passes_argument_checks_well_formed _ _ _ _ _ Hpass)
    as [Hwf Hdeps].
  destruct Hpass as (_ & Hin & Ho & Hi & Hs).
  apply validate_callback_args_Ok in Hi as [Hil Hi].
  apply validate_callback_args_Ok in Hs as [Hsl Hs].
  apply prevent_duplicate_outputs_Ok in Hdup.
  apply prevent_input_output_overlap_Ok in Hov.
  split; [exact Hin |]. split; [split; assumption |].
  split; [repeat split; assumption |].
  split; [exact Hdup |]. split; [exact Hov |].
  destruct (prevent_inconsistent_wildcards_checked _ _ _ Hwf Hdeps)
    as [[_ Hr] | (first & rest & Heq & [[_ Hgood] | (m & Hr & _)])];
    [congruence | | congruence].
  exists first, rest. split; assumption.
Qed.

Lemma valid_registration_suppressed app layout output inputs state :
  suppress_callback_exceptions app = true ->
  valid_registration app output inputs state ->
  validate_callback app layout output inputs state = Ok tt.
Proof.
  intros Hsup (Hin & [Hil Hsl] & (Ho & Hi & Hs) & Hdup & Hov
               & first & rest & Heq & Hw).
  assert (Hpass : passes_argument_checks app layout output inputs state).
  { unfold passes_argument_checks. rewrite Hsup. cbn [negb].
    split; [apply andb_false_r |]. split; [exact Hin |].
    split; [| split]; apply well_formed_deps_suppressed; try assumption.
    unfold outputs_of. destruct (is_list_or_tuple output) eqn:Hl;
      [exact Hl | reflexivity]. }
  apply validate_callback_Ok. split; [exact Hpass |].
  split; [apply prevent_duplicate_outputs_Ok, Hdup |].
  split; [apply prevent_input_output_overlap_Ok, Hov |].
  destruct (passes_argument_checks_well_formed _ _ _ _ _ Hpass)
    as [Hwf Hdeps].
  destruct (prevent_inconsistent_wildcards_checked _ _ _ Hwf Hdeps)
    as [[Hempty _] | (first' & rest' & Heq' & [[Hr _] | (m & _ & Hbad)])].
  - congruence.
  - exact Hr.
  - rewrite Heq in Heq'. injection Heq' as <- <-. contradiction.
Qed.

(** X5: a registration that [validate_callback] accepts has inputs that
    are not empty, lists or tuples of well-formed dependencies of their
    class, outputs that differ from each other, from the registered
    outputs and from the inputs, and consistent wildcards, and its layout
    is not [None] unless ids are not validated.  With the validation of
    ids suppressed, [validate_callback] accepts exactly these
    registrations. *)
Theorem accepted_registration app layout output inputs state :
  (validate_callback app layout output inputs state = Ok tt ->
   valid_registration app output inputs state /\
   (layout <> PyNone \/ suppress_callback_exceptions app = true)) /\
  (suppress_callback_exceptions app = true ->
   (validate_callback app layout output inputs state = Ok tt <->
    valid_registration app output inputs state)).
Proof.
  split.
  - intros Hok. split; [eapply validate_callback_valid, Hok |].
    apply validate_callback_Ok in Hok as ((Hpre & _) & _).
    apply andb_false_iff in Hpre as [Hl | Hs].
    + left. intros Hn%is_none_true. congruence.
    + right. apply negb_false_iff, Hs.
  - intros Hsup. split.
    + apply validate_callback_valid.
    + apply valid_registration_suppressed, Hsup.
Qed.

(** X13: suppressing the validation of ids only removes failures: a
    registration that [validate_callback] accepts is accepted, with any
    layout, by the application that has the same registered outputs and
    [suppress_callback_exceptions] set. *)
Theorem suppression_only_removes_failures app layout layout' output inputs state :
  validate_callback app layout output inputs state = Ok tt ->
  validate_callback (suppressed app) layout' output inputs state = Ok tt.
Proof.
  intros Hok%validate_callback_valid.
  apply valid_registration_suppressed; [reflexivity | exact Hok].
Qed.

(** ** Registrations without [ANY] and [ALLSMALLER] *)

Lemma get_wildcard_keys_none (dep : PyVal) (ws : list Wildcard) :
  is_dependency dep -> (forall k, ~ wildcard_key dep ws k) ->
  get_wildcard_keys dep ws = Ok [].
Proof.
  intros Hdep Hno.
  destruct (get_wildcard_keys_spec dep ws Hdep) as ([|k keys] & Hr & Hkeys);
    [exact Hr |].
  destruct (Hno k). apply Hkeys, list_elem_of_here.
Qed.

Lemma wildcard_key_any (dep k : PyVal) :
  wildcard_key dep [ANY] k -> wildcard_key dep [ANY; ALLSMALLER] k.
Proof.
  intros (cls & d & p & e & w & Hdep & Hk & Hw).
  exists cls, d, p, e, w. split; [exact Hdep |]. split; [exact Hk |].
  apply elem_of_cons in Hw as [-> | Hw]; [apply list_elem_of_here |].
  apply elem_of_nil in Hw. destruct Hw.
Qed.

(** X10: the check of the wildcards is about [ANY] and [ALLSMALLER]
    only: when no dependency of a registration has one of the two in its
    id (its ids are strings, or dicts with fixed values and [ALL]),
    [prevent_inconsistent_wildcards] returns normally. *)
Theorem wildcards_consistent_without_any first rest inputs state :
  Forall is_dependency (first :: rest ++ inputs ++ state) ->
  (forall dep k, dep ∈ first :: rest ++ inputs ++ state ->
                 ~ wildcard_key dep [ANY; ALLSMALLER] k) ->
  prevent_inconsistent_wildcards (first :: rest) inputs state = Ok tt.
Proof.
  intros Hdeps Hno.
  apply Forall_cons in Hdeps as [Hfirst Hdeps].
  apply Forall_app in Hdeps as [Hrest Hdeps].
  assert (Hany : forall dep, is_dependency dep ->
                  dep ∈ first :: rest ++ inputs ++ state ->
                  get_wildcard_keys dep [ANY] = Ok []).
  { intros dep Hdep Hin. apply get_wildcard_keys_none; [exact Hdep |].
    intros k Hk%wildcard_key_any. exact (Hno dep k Hin Hk). }
  unfold prevent_inconsistent_wildcards.
  change (index (first :: rest) 0) with (Ok first).
  change (drop 1 (first :: rest)) with rest.
  cbn [mbind result_bind].
  rewrite (Hany first Hfirst) by apply list_elem_of_here.
  cbn [mbind result_bind].
  apply bind_Ok_eq. exists tt. split; apply for_each_Ok.
  - apply Forall_forall. intros out Hout.
    rewrite (Hany out); [reflexivity | |].
    + eapply (proj1 (Forall_forall _ _)) in Hrest; [exact Hrest | exact Hout].
    + apply list_elem_of_further, elem_of_app. left. exact Hout.
  - apply Forall_forall. intros dep Hdep.
    rewrite get_wildcard_keys_none; [reflexivity | |].
    + eapply (proj1 (Forall_forall _ _)) in Hdeps; [exact Hdeps | exact Hdep].
    + intros k. apply Hno. apply list_elem_of_further, elem_of_app.
      right. exact Hdep.
Qed.

Lemma wildcard_key_mono (dep k : PyVal) (ws ws' : list Wildcard) :
  ws ⊆ ws' -> wildcard_key dep ws k -> wildcard_key dep ws' k.
Proof.
  intros Hsub (cls & d & p & e & w & Hdep & Hk & Hw).
  exists cls, d, p, e, w. split; [exact Hdep |]. split; [exact Hk |].
  apply Hsub, Hw.
Qed.

(** X18: for a dependency, [get_wildcard_keys] returns exactly the keys
    of its dict id whose value is one of the wildcards, and no key when
    its id is a string; more wildcards give at least the same keys.  For
    a value that is not a dependency it raises [AttributeError]. *)
Theorem get_wildcard_keys_keys (dep : PyVal) (ws : list Wildcard) :
  (is_dependency dep ->
   exists keys,
     get_wildcard_keys dep ws = Ok keys /\
     (forall k, k ∈ keys <-> wildcard_key dep ws k) /\
     (forall cls s p e, dep = PyDep cls (PyStr s) p e -> keys = []) /\
     (forall ws', ws ⊆ ws' ->
                  exists keys', get_wildcard_keys dep ws' = Ok keys' /\
                                keys ⊆ keys')) /\
  (~ is_dependency dep ->
   get_wildcard_keys dep ws = Raise (AttributeError "component_id")).
Proof.
  split.
  - intros Hdep.
    destruct (get_wildcard_keys_spec dep ws Hdep) as (keys & Hr & Hkeys).
    exists keys. split; [exact Hr |]. split; [exact Hkeys |]. split.
    + intros cls s p e ->. simpl in Hr. injection Hr as <-. reflexivity.
    + intros ws' Hsub.
      destruct (get_wildcard_keys_spec dep ws' Hdep) as (keys' & Hr' & Hkeys').
      exists keys'. split; [exact Hr' |].
      intros k Hk. apply Hkeys'. eapply wildcard_key_mono; [exact Hsub |].
      apply Hkeys, Hk.
  - intros Hno. destruct dep; try reflexivity.
    destruct Hno. eexists _, _, _, _. reflexivity.
Qed.

(** ** The id that [validate_layout] reports *)

Lemma check_component_ids_raises (components seen : list PyVal) (e : exn) :
  check_component_ids components seen = Raise e ->
  exists c,
    c ∈ components /\ e = DuplicateIdError (stringify_id (getattr_id c)) /\
    truthy (stringify_id (getattr_id c)) = true.
Proof.
  revert seen. induction components as [|c rest IH]; intros seen; simpl;
    [discriminate |].
  destruct (truthy (stringify_id (getattr_id c))
            && key_in (stringify_id (getattr_id c)) seen) eqn:Htest.
  - intros [= <-]. exists c. split; [apply list_elem_of_here |].
    split; [reflexivity |]. apply andb_true_iff in Htest as [Ht _]. exact Ht.
  - intros (c' & Hin & He)%IH. exists c'.
    split; [apply list_elem_of_further, Hin | exact He].
Qed.

Lemma check_component_ids_no_ids (components seen : list PyVal) :
  Forall (fun c => truthy (stringify_id (getattr_id c)) = false) components ->
  check_component_ids components seen = Ok tt.
Proof.
  revert seen. induction components as [|c rest IH]; intros seen Hno; simpl;
    [reflexivity |].
  apply Forall_cons in Hno as [Hc Hrest]. rewrite Hc. simpl.
  apply IH, Hrest.
Qed.

(** X12: [validate_layout] raises [NoLayoutException] exactly when the
    layout is [None], and otherwise nothing but [DuplicateIdError] with
    the true id of an item of the traversal; a layout none of whose
    descendants has an id passes, whatever the id of its root. *)
Theorem validate_layout_raises layout layout_value :
  (validate_layout layout layout_value = Raise NoLayoutException <->
   layout = PyNone) /\
  (forall e,
     validate_layout layout layout_value = Raise e ->
     e = NoLayoutException \/
     exists c,
       c ∈ _traverse layout_value /\
       e = DuplicateIdError (stringify_id (getattr_id c)) /\
       truthy (stringify_id (getattr_id c)) = true) /\
  (layout <> PyNone ->
   Forall (fun c => truthy (stringify_id (getattr_id c)) = false)
          (_traverse layout_value) ->
   validate_layout layout layout_value = Ok tt).
Proof.
  unfold validate_layout. split; [split | split].
  - destruct (is_none layout) eqn:Hl; [intros _; apply is_none_true, Hl |].
    intros (c & _ & He & _)%check_component_ids_raises. discriminate He.
  - intros ->. reflexivity.
  - intros e. destruct (is_none layout); [intros [= <-]; left; reflexivity |].
    intros Hr%check_component_ids_raises. right. exact Hr.
  - intros Hl Hno. destruct (is_none layout) eqn:Hn.
    + apply is_none_true in Hn. contradiction.
    + apply check_component_ids_no_ids, Hno.
Qed.

Lemma repeats_at_middle (pre ids : list PyVal) (x : PyVal) (s : string) :
  repeats_at (pre ++ x :: ids) (length pre) s <->
  x = PyStr s /\ s <> "" /\ PyStr s ∈ pre.
Proof.
  unfold repeats_at. rewrite list_lookup_middle by reflexivity.
  rewrite take_app_length. split.
  - intros ([= ->] & Hs & Hin). auto.
  - intros (-> & Hs & Hin). auto.
Qed.

Lemma repeats_at_bound (ids : list PyVal) (j : nat) (s : string) :
  repeats_at ids j s -> (j < length ids)%nat.
Proof. intros [Hj _]. eapply lookup_lt_Some, Hj. Qed.

Lemma check_component_ids_first_repeat (components seen pre : list PyVal)
      (d : PyVal) :
  let ids := map (fun c => stringify_id (getattr_id c)) components in
  Forall none_or_string ids ->
  (forall s, s <> "" -> PyStr s ∈ seen <-> PyStr s ∈ pre) ->
  check_component_ids components seen = Raise (DuplicateIdError d) <->
  exists j s,
    d = PyStr s /\ (length pre <= j)%nat /\ repeats_at (pre ++ ids) j s /\
    forall j' s', (length pre <= j')%nat -> (j' < j)%nat ->
                  ~ repeats_at (pre ++ ids) j' s'.
Proof.
  revert seen pre. induction components as [|c rest IH];
    intros seen pre ids Hwf Hseen.
  - simpl. split; [discriminate |].
    intros (j & s & _ & Hle & Hrep%repeats_at_bound & _).
    subst ids. simpl in Hrep. rewrite app_nil_r in Hrep. lia.
  - subst ids. simpl in Hwf. apply Forall_cons in Hwf as [Hc Hrest].
    simpl.
    set (x := stringify_id (getattr_id c)) in *.
    set (ids := map (fun c => stringify_id (getattr_id c)) rest) in *.
    destruct (truthy x && key_in x seen) eqn:Htest.
    + apply andb_true_iff in Htest as [Ht Hin].
      destruct (truthy_none_or_string _ Hc Ht) as (s0 & Hx & Hs0).
      rewrite Hx in Hin. apply key_in_str in Hin.
      apply (Hseen s0 Hs0) in Hin.
      assert (Hhere : repeats_at (pre ++ x :: ids) (length pre) s0)
        by (apply repeats_at_middle; auto).
      split.
      * intros [= <-]. exists (length pre), s0.
        split; [exact Hx |]. split; [lia |]. split; [exact Hhere |].
        intros j' s' Hle Hlt. lia.
      * intros (j & s & -> & Hle & Hrep & Hfirst).
        destruct (decide (j = length pre)) as [-> | Hne].
        -- apply repeats_at_middle in Hrep as (-> & _). reflexivity.
        -- destruct (Hfirst (length pre) s0); [lia | lia | exact Hhere].
    + assert (Hnot : forall s', ~ repeats_at (pre ++ x :: ids) (length pre) s').
      { intros s' (Hx & Hs' & Hin)%repeats_at_middle.
        apply (Hseen s' Hs') in Hin.
        rewrite Hx, (proj2 (truthy_str s') Hs') in Htest.
        rewrite (proj2 (key_in_str s' seen) Hin) in Htest.
        discriminate Htest. }
      assert (Hseen' : forall s, s <> "" ->
                 PyStr s ∈ x :: seen <-> PyStr s ∈ pre ++ [x]).
      { intros s Hs. rewrite elem_of_cons, elem_of_app, list_elem_of_singleton.
        rewrite (Hseen s Hs). tauto. }
      rewrite (IH (x :: seen) (pre ++ [x]) Hrest Hseen').
      fold ids. rewrite length_app. simpl. rewrite <- app_assoc. simpl.
      split; intros (j & s & Hd & Hle & Hrep & Hfirst); exists j, s;
        (split; [exact Hd |]).
      * split; [lia |]. split; [exact Hrep |].
        intros j' s' Hle' Hlt.
        destruct (decide (j' = length pre)) as [-> | Hne]; [apply Hnot |].
        apply Hfirst; lia.
      * split.
        { destruct (decide (j = length pre)) as [-> | Hne]; [| lia].
          destruct (Hnot s Hrep). }
        split; [exact Hrep |].
        intros j' s' Hle' Hlt. apply Hfirst; lia.
Qed.

(** X11: when the ids of a layout stringify to [None] or strings,
    [validate_layout] raises [DuplicateIdError] with the id [d] exactly
    when [d] is the id at the first position, in the order of the
    traversal, whose non-empty id occurs at an earlier position. *)
Theorem validate_layout_first_repeat layout layout_value d :
  is_none layout = false ->
  Forall none_or_string (layout_ids layout_value) ->
  validate_layout layout layout_value = Raise (DuplicateIdError d) <->
  exists j s, d = PyStr s /\ first_repeat (layout_ids layout_value) j s.
Proof.
  intros Hl Hwf. unfold validate_layout, layout_ids in *. rewrite Hl.
  apply Forall_cons in Hwf as [Hroot Hwf].
  set (root := stringify_id (getattr_id layout_value)) in *.
  set (ids := map (fun c => stringify_id (getattr_id c))
                  (_traverse layout_value)) in *.
  assert (Hseen : forall s, s <> "" ->
             PyStr s ∈ (if truthy root then [root] else []) <->
             PyStr s ∈ [root]).
  { intros s Hs. destruct (truthy root) eqn:Ht; [reflexivity |].
    split; [intros Hin; apply elem_of_nil in Hin; destruct Hin |].
    intros Hin%list_elem_of_singleton. rewrite <- Hin in Ht.
    rewrite (proj2 (truthy_str s) Hs) in Ht. discriminate Ht. }
  rewrite (check_component_ids_first_repeat _ _ [root] d Hwf Hseen).
  fold ids. simpl.
  assert (Hzero : forall s', ~ repeats_at (root :: ids) 0 s').
  { intros s' (_ & _ & Hin). simpl in Hin. apply elem_of_nil in Hin.
    exact Hin. }
  unfold first_repeat.
  split; intros (j & s & Hd & H'); exists j, s; (split; [exact Hd |]).
  - destruct H' as (Hle & Hrep & Hfirst). split; [exact Hrep |].
    intros j' s' Hlt. destruct j' as [|j']; [apply Hzero |].
    apply Hfirst; lia.
  - destruct H' as (Hrep & Hfirst). split.
    { destruct j as [|j]; [destruct (Hzero s Hrep) | lia]. }
    split; [exact Hrep |]. intros j' s' _ Hlt. apply Hfirst, Hlt.
Qed.

End Properties.


(** * Properties of the set-up validators *)

Section SetupProperties.

(** ** Obsolete keyword arguments *)

Lemma obsolete_key_true (key : string) :
  obsolete_key key = true <->
  key = "components_cache_max_age" \/ key = "static_folder".
Proof.
  unfold obsolete_key. simpl. rewrite !orb_true_iff, !String.eqb_eq.
  split; [intros [Hk | [Hk | Hk]]; auto; discriminate Hk | tauto].
Qed.

(** X14: [check_obsolete] returns normally for an empty dict of keyword
    arguments only.  Otherwise the first key decides, and no other key is
    looked at: [ObsoleteKwargException] when it is one of the two obsolete
    names, else the [TypeError] of an unexpected keyword argument, also
    when an obsolete name follows. *)
Theorem check_obsolete_first_key (kwargs : list (string * PyVal)) :
  (check_obsolete kwargs = Passed tt <-> kwargs = []) /\
  (forall key v rest,
     kwargs = (key, v) :: rest ->
     (key = "components_cache_max_age" \/ key = "static_folder" ->
      check_obsolete kwargs = Failed (ObsoleteKwargException key)) /\
     (key <> "components_cache_max_age" -> key <> "static_folder" ->
      check_obsolete kwargs
      = Failed (KeywordTypeError
                  ("Dash() got an unexpected keyword argument '" +:+ key
                   +:+ "'")))).
Proof.
  split.
  - destruct kwargs as [|[key v] rest]; [split; reflexivity |].
    split; [| discriminate]. unfold check_obsolete. simpl.
    destruct (obsolete_key key); discriminate.
  - intros key v rest ->. unfold check_obsolete. simpl. split.
    + intros Hk%obsolete_key_true. rewrite Hk. reflexivity.
    + intros Hk1 Hk2. destruct (obsolete_key key) eqn:Hk; [| reflexivity].
      apply obsolete_key_true in Hk as [Hk | Hk]; contradiction.
Qed.

(** ** The registry of paths *)

Lemma validate_js_path_Passed (registered_paths : gmap string (gset string))
      (package_name path_in_package_dist : string) :
  validate_js_path registered_paths package_name path_in_package_dist
  = Passed tt <->
  exists paths,
    registered_paths !! package_name = Some paths /\
    path_in_package_dist ∈ paths.
Proof.
  unfold validate_js_path.
  destruct (registered_paths !! package_name) as [paths|].
  - case_bool_decide as Hin; simpl.
    + split; [intros _; exists paths; auto | reflexivity].
    + split; [discriminate |]. intros (paths' & [= <-] & Hin').
      contradiction.
  - split; [discriminate |]. intros (paths & Hp & _). discriminate Hp.
Qed.

(** X15: [validate_js_path] returns normally exactly when the package
    is registered and the path is one of its paths.  A package that is
    not registered, as every package is in an empty registry, gives the
    [DependencyException] that lists the registered names; a registered
    package without the path gives the one that shows the registry. *)
Theorem validate_js_path_registered
        (registered_paths : gmap string (gset string))
        (package_name path_in_package_dist : string) :
  (validate_js_path registered_paths package_name path_in_package_dist
   = Passed tt <->
   exists paths,
     registered_paths !! package_name = Some paths /\
     path_in_package_dist ∈ paths) /\
  (registered_paths !! package_name = None ->
   validate_js_path registered_paths package_name path_in_package_dist
   = Failed (DependencyException
               (NotARegisteredLibrary package_name (dom registered_paths)))) /\
  (forall paths,
     registered_paths !! package_name = Some paths ->
     path_in_package_dist ∉ paths ->
     validate_js_path registered_paths package_name path_in_package_dist
     = Failed (DependencyException
                 (PathNotValid package_name path_in_package_dist
                               registered_paths))) /\
  validate_js_path ∅ package_name path_in_package_dist
  = Failed (DependencyException (NotARegisteredLibrary package_name ∅)).
Proof.
  split; [apply validate_js_path_Passed |]. split; [| split].
  - intros Hp. unfold validate_js_path. rewrite Hp. reflexivity.
  - intros paths Hp Hin. unfold validate_js_path. rewrite Hp.
    rewrite bool_decide_eq_false_2 by exact Hin. reflexivity.
  - unfold validate_js_path. rewrite lookup_empty, dom_empty_L. reflexivity.
Qed.

(** X16: a path that is valid stays valid when the registry grows, and
    a path is valid once it is added to the paths of its package, which
    keeps the paths that were valid. *)
Theorem validate_js_path_monotone (m m' : gmap string (gset string))
        (package_name path_in_package_dist : string) :
  (registry_included m m' ->
   validate_js_path m package_name path_in_package_dist = Passed tt ->
   validate_js_path m' package_name path_in_package_dist = Passed tt) /\
  (m' = <[package_name :=
            default ∅ (m !! package_name) ∪ {[ path_in_package_dist ]}]> m ->
   registry_included m m' /\
   validate_js_path m' package_name path_in_package_dist = Passed tt).
Proof.
  split.
  - intros Hincl (paths & Hp & Hin)%validate_js_path_Passed.
    apply validate_js_path_Passed.
    destruct (Hincl _ _ Hp) as (paths' & Hp' & Hsub).
    exists paths'. split; [exact Hp' | apply Hsub, Hin].
  - intros ->. split.
    + intros name paths Hp.
      destruct (decide (name = package_name)) as [-> | Hne].
      * rewrite lookup_insert_eq. eexists. split; [reflexivity |].
        rewrite Hp. simpl. apply union_subseteq_l.
      * rewrite lookup_insert_ne by congruence. exists paths.
        split; [exact Hp | reflexivity].
    + apply validate_js_path_Passed. eexists.
      split; [apply lookup_insert_eq |].
      apply elem_of_union_r, elem_of_singleton. reflexivity.
Qed.

(** ** The items missing from an index *)

Section Index.

Context `{Re}.

Lemma missing_items_compile (checks : list (string * string)) (index : string) :
  patterns_compile checks index ->
  missing_items checks index = Passed (unmatched checks index).
Proof.
  unfold patterns_compile, unmatched.
  induction checks as [|[check i] checks IH]; intros Hc; [reflexivity |].
  apply Forall_cons in Hc as [[found Hfound] Hc]. simpl in Hfound.
  simpl. rewrite Hfound. simpl. rewrite (IH Hc). simpl.
  destruct found; reflexivity.
Qed.

Lemma missing_items_error (pre post : list (string * string))
      (check i index : string) :
  patterns_compile pre index -> re_search check index = None ->
  missing_items (pre ++ (check, i) :: post) index = Failed (ReError check).
Proof.
  unfold patterns_compile. intros Hpre Hcheck.
  induction pre as [|[check' i'] pre IH]; simpl.
  - rewrite Hcheck. reflexivity.
  - apply Forall_cons in Hpre as [[found Hfound] Hpre]. simpl in Hfound.
    rewrite Hfound. simpl. rewrite (IH Hpre). reflexivity.
Qed.

(** X17: when its patterns compile, [validate_index] returns normally
    exactly when every pattern is found in the index; otherwise it raises
    [InvalidIndexException] with the names of the checks that are not
    found, in the order of the checks, as [Missing item] for one name and
    [Missing items] for more.  A pattern that does not compile raises its
    [re.error], whatever the other checks find. *)
Theorem validate_index_missing (name : string)
        (checks : list (string * string)) (index : string) :
  (patterns_compile checks index ->
   (validate_index name checks index = Passed tt <->
    unmatched checks index = []) /\
   (forall i,
      unmatched checks index = [i] ->
      validate_index name checks index
      = Failed (InvalidIndexException
                  ("Missing item " +:+ i +:+ " in " +:+ name +:+ "."))) /\
   (forall i j l,
      unmatched checks index = i :: j :: l ->
      validate_index name checks index
      = Failed (InvalidIndexException
                  ("Missing items " +:+ String.concat ", " (i :: j :: l)
                   +:+ " in " +:+ name +:+ ".")))) /\
  (forall pre check i post,
     checks = pre ++ (check, i) :: post ->
     patterns_compile pre index -> re_search check index = None ->
     validate_index name checks index = Failed (ReError check)).
Proof.
  split.
  - intros Hc. unfold validate_index.
    rewrite (missing_items_compile _ _ Hc). cbn [mbind setup_result_bind].
    split; [| split].
    + destruct (unmatched checks index); split; try reflexivity; discriminate.
    + intros i ->. reflexivity.
    + intros i j l ->. reflexivity.
  - intros pre check i post -> Hpre Hcheck. unfold validate_index.
    rewrite (missing_items_error _ _ _ _ _ Hpre Hcheck). reflexivity.
Qed.

End Index.

End SetupProperties.

(** * Examples *)

Section Examples.

Import SpecModel.

(** An output and an input with [ANY] on the same key. *)
Example validate_callback_passes :
  validate_callback (app_suppressed []) PyNone
                    (out_children (id_type_index (PyWildcard ANY)))
                    (PyList [in_value (id_type_index (PyWildcard ANY))])
                    (PyList []) = Ok tt.
Proof. reflexivity. Qed.

(** The layout in which [a] occurs twice fails on [a]. *)
Example validate_layout_twice :
  validate_layout layout_twice layout_twice = Raise (DuplicateIdError (PyStr "a")).
Proof. reflexivity. Qed.



(** The same output declared twice. *)
Lemma duplicate_outputs_in_callback_witness :
  exists m,
    prevent_duplicate_outputs (app_suppressed [])
      [out_children (PyStr "a"); out_children (PyStr "a")]
    = Raise (DuplicateCallbackOutput m).
Proof.
  destruct (proj1 (duplicate_outputs_in_callback (app_suppressed [])
                     [out_children (PyStr "a"); out_children (PyStr "a")]))
    as (i & j & a & b & _ & Hr & _).
  - exists 0%nat, 1%nat, (out_children (PyStr "a")), (out_children (PyStr "a")).
    repeat split. lia.
  - eexists. exact Hr.
Defined.

(** A registered output [{"type": "x", "index": 1}] and a new output
    [{"type": "x", "index": ALL}], which compare equal and have different
    string representations: one declared output, one overlapping
    registered output, and the message is the generic one. *)
Lemma already_assigned_needs_same_string :
  let registered := out_children (id_type_index (PyInt 1)) in
  let outputs := [out_children (id_type_index (PyWildcard ALL))] in
  length outputs = 1%nat /\
  size (collect_dups [registered] outputs) = 1%nat /\
  prevent_duplicate_pairs outputs = Ok tt /\
  (exists new_outputs already_used,
     prevent_duplicate_outputs (app_suppressed [registered]) outputs
     = Raise (DuplicateCallbackOutput
                (OutputAlreadySet new_outputs already_used))) /\
  ~ (exists out_repr,
       prevent_duplicate_outputs (app_suppressed [registered]) outputs
       = Raise (DuplicateCallbackOutput (AlreadyAssigned out_repr))).
Proof.
  repeat split.
  - eexists _, _. vm_compute. reflexivity.
  - intros [out_repr Hr]. vm_compute in Hr. discriminate Hr.
Qed.

(** The same output registered before: the "already assigned"
    message. *)
Lemma outputs_already_registered_witness :
  exists out,
    [out_children (PyStr "a")] = [out] /\
    prevent_duplicate_outputs (app_suppressed [out_children (PyStr "a")])
                              [out_children (PyStr "a")]
    = Raise (DuplicateCallbackOutput (AlreadyAssigned (dep_repr out))).
Proof.
  refine (proj1 (proj2 (proj1 (outputs_already_registered
                                 (app_suppressed [out_children (PyStr "a")])
                                 [out_children (PyStr "a")]) _) _) _).
  - exists (out_children (PyStr "a")), (out_children (PyStr "a")).
    repeat split; apply list_elem_of_here.
  - reflexivity.
  - exists (out_children (PyStr "a")). split; [reflexivity |].
    vm_compute. reflexivity.
Defined.

(** With id-validation suppressed, an id that holds a dot still makes
    [validate_callback] fail with [InvalidComponentIdError]. *)
Lemma invalid_id_with_validation_suppressed :
  suppress_callback_exceptions (app_suppressed []) = true /\
  validate_callback (app_suppressed []) PyNone
                    (out_children (PyStr "a.b"))
                    (PyList [in_value (PyStr "x")]) (PyList [])
  = Raise (InvalidComponentIdError "a.b" ["."%char]).
Proof. split; reflexivity. Qed.

(** The same registration, through the property of
    [validate_id_string]. *)
Lemma invalid_id_characters_witness :
  exists found,
    validate_callback (app_suppressed []) PyNone
                      (out_children (PyStr "a.b"))
                      (PyList [in_value (PyStr "x")]) (PyList [])
    = Raise (InvalidComponentIdError "a.b" found).
Proof.
  refine (proj2 (invalid_id_characters Output "a.b" PyNone _)
                (app_suppressed []) (out_children (PyStr "a.b"))
                (PyList [in_value (PyStr "x")]) (PyList []) "children" _).
  - left. reflexivity.
  - repeat split. exists [], []. split; [reflexivity | constructor].
Defined.

(** An input whose id is not in the layout. *)
Lemma nonexistent_id_failure_witness :
  exists ids,
    validate_callback
      {| suppress_callback_exceptions := false; used_outputs := [] |}
      layout_twice (out_children (PyStr "root"))
      (PyList [in_value (PyStr "missing")]) (PyList [])
    = Raise (NonExistentIdException "missing" ids).
Proof.
  refine (proj2 (proj1 (nonexistent_id_failure Input "missing" layout_twice _ _) _ _)
                {| suppress_callback_exceptions := false; used_outputs := [] |}
                (out_children (PyStr "root"))
                (PyList [in_value (PyStr "missing")]) (PyList []) "value" _ _).
  - reflexivity.
  - reflexivity.
  - reflexivity.
  - discriminate.
  - reflexivity.
  - repeat split. exists [], []. split; [reflexivity | constructor].
Defined.

(** An input that is the output. *)
Lemma same_input_output_failure_witness :
  exists m,
    prevent_input_output_overlap [PyDep Input (PyStr "a") (PyStr "children") false]
                                 [out_children (PyStr "a")]
    = Raise (SameInputOutputException m).
Proof.
  destruct (proj1 (same_input_output_failure
                     [PyDep Input (PyStr "a") (PyStr "children") false]
                     [out_children (PyStr "a")]))
    as (in_ & out & _ & _ & _ & Hr & _).
  - exists (PyDep Input (PyStr "a") (PyStr "children") false),
           (out_children (PyStr "a")).
    split; [apply list_elem_of_here |].
    split; [apply list_elem_of_here | reflexivity].
  - eexists. exact Hr.
Defined.

(** Three declared outputs and two returned values. *)
Lemma validate_multi_return_witness :
  exists m,
    validate_multi_return [PyDict []; PyDict []; PyDict []]
                          (PyList [PyInt 1; PyInt 2]) (PyStr "cb")
    = Raise (InvalidCallbackReturnValue m).
Proof.
  apply (proj1 (validate_multi_return_spec [PyDict []; PyDict []; PyDict []]
                  (PyList [PyInt 1; PyInt 2]) (PyStr "cb"))).
  right. left. simpl. lia.
Defined.

(** Three declared outputs, the second a group of two, and a returned
    list that fits them. *)
Example validate_multi_return_grouped :
  validate_multi_return [PyDict []; PyList [PyDict []; PyDict []]; PyDict []]
                        (PyList [PyInt 1; PyList [PyInt 2; PyInt 3]; PyInt 4])
                        (PyStr "cb")
  = Ok tt.
Proof. reflexivity. Qed.

(** An empty set among the children of a returned component that has no id:
    the message that points at the set. *)
Example fail_callback_output_directed :
  exists outer,
    fail_callback_output
      (PyComponent "Div" PyNone ["children"] []
                   (PyList [PyStr "text"; PyObject "set" false]))
      (out_children (PyStr "a"))
    = Raise (InvalidCallbackReturnValue
               (BadValue "<Output `a.children`>" false (PyObject "set" false)
                         outer "" "[1] set" None)).
Proof. eexists. reflexivity. Qed.

(** An output with a string id and a returned dict that holds an empty set:
    the generic message. *)
Example fail_callback_output_generic :
  fail_callback_output (PyDict [(PyStr "k", PyObject "set" false)])
                       (out_children (PyStr "a"))
  = Raise (InvalidCallbackReturnValue
             (NotJsonSerializable "children" "a")).
Proof. reflexivity. Qed.

(** An output with a dict id and a returned dict that holds an empty set: the
    traversal finds no invalid value, and the generic message cannot be
    built. *)
Lemma fail_callback_output_raises_witness :
  fail_callback_output (PyDict [(PyStr "k", PyObject "set" false)])
                       (out_children (id_type_index (PyWildcard ANY)))
  = Raise TypeError.
Proof.
  refine (proj1 (proj2 (proj2 (proj2 (proj2 (fail_callback_output_raises
            (PyDict [(PyStr "k", PyObject "set" false)])
            (out_children (id_type_index (PyWildcard ANY))))))))
            Output _ "children" false _ _); reflexivity.
Defined.

(** A returned component with a dict id and an empty set among its children:
    the message that points at the set cannot be built. *)
Example fail_callback_output_component_dict_id :
  fail_callback_output
    (PyComponent "Div" (id_type_index (PyInt 1)) ["children"] []
                 (PyList [PyStr "text"; PyObject "set" false]))
    (out_children (PyStr "a"))
  = Raise TypeError.
Proof. reflexivity. Qed.

(** The layout in which [a] occurs twice. *)
Lemma validate_layout_duplicate_ids_witness :
  exists d, validate_layout layout_twice layout_twice
            = Raise (DuplicateIdError d).
Proof.
  refine (proj2 (proj1 (validate_layout_duplicate_ids layout_twice layout_twice _ _))
                _).
  - reflexivity.
  - repeat constructor; (right; reflexivity) || (left; reflexivity).
  - exists 1%nat, 3%nat, "a". repeat split; [lia | discriminate].
Defined.

(** No declared output, and an input whose id holds a dot: the failure
    is one of the exceptions of [dash.exceptions]. *)
Lemma empty_outputs_invalid_input :
  is_none PyNone
  && negb (suppress_callback_exceptions (app_suppressed [])) = false /\
  truthy (PyList [in_value (PyStr "a.b")]) = true /\
  validate_callback (app_suppressed []) PyNone (PyList [])
                    (PyList [in_value (PyStr "a.b")]) (PyList [])
  = Raise (InvalidComponentIdError "a.b" ["."%char]).
Proof. repeat split. Qed.

(** No declared output and a valid input: [IndexError]. *)
Lemma empty_outputs_index_error_witness :
  validate_callback (app_suppressed []) PyNone (PyList [])
                    (PyList [in_value (PyStr "x")]) (PyList [])
  = Raise IndexError.
Proof.
  refine (proj2 (proj2 (proj2 (empty_outputs_index_error
                                 (app_suppressed []) PyNone (PyList [])
                                 (PyList [in_value (PyStr "x")]) (PyList [])
                                 _ _ _ _ _)))).
  - left. reflexivity.
  - reflexivity.
  - reflexivity.
  - reflexivity.
  - reflexivity.
Defined.

(** ** Further examples *)

(** The layout [layout_form] answers [layout[k]] with a component. *)
Lemma layout_form_consistent : consistent_layout layout_form.
Proof.
  intros k Hk.
  destruct k as [| | | |s| | | | | | |]; simpl in Hk; try discriminate Hk.
  destruct (String.eqb_spec s "a") as [-> | Hne].
  - eexists. split; reflexivity.
  - exfalso. revert Hk. unfold spec_component_contains. simpl.
    rewrite (proj2 (String.eqb_neq s "a") Hne). discriminate.
Qed.

(** No layout while ids are validated, and no inputs. *)
Lemma validate_callback_preconditions_witness :
  validate_callback (app_validated []) PyNone (out_children (PyStr "a"))
                    (PyList []) (PyList []) = Raise LayoutIsNotDefined /\
  validate_callback (app_suppressed []) PyNone (out_children (PyStr "a"))
                    (PyList []) (PyList []) = Raise MissingInputsException.
Proof.
  split.
  - apply (proj2 (proj1 (validate_callback_preconditions
                           (app_validated []) PyNone (out_children (PyStr "a"))
                           (PyList []) (PyList [])))).
    split; reflexivity.
  - apply (proj2 (proj2 (validate_callback_preconditions
                           (app_suppressed []) PyNone (out_children (PyStr "a"))
                           (PyList []) (PyList [])))).
    split; [| reflexivity]. intros [_ Hs]. discriminate Hs.
Defined.

(** An input with a property that its component does not have. *)
Lemma validate_callback_raises_only_witness :
  callback_exception (NonExistentPropException (PyStr "n_clicks") (PyStr "a")) \/
  (NonExistentPropException (PyStr "n_clicks") (PyStr "a") = IndexError /\
   seq_items (outputs_of (out_children (PyStr "root"))) = []).
Proof.
  refine (proj1 (validate_callback_raises_only
                   (app_validated []) layout_form (out_children (PyStr "root"))
                   (PyList [PyDep Input (PyStr "a") (PyStr "n_clicks") false])
                   (PyList []) _ _) _).
  - reflexivity.
  - exact layout_form_consistent.
Defined.

(** No layout and a layout, with the validation of ids suppressed. *)
Lemma suppressed_ignores_layout_witness :
  validate_callback (app_suppressed []) PyNone (out_children (PyStr "missing"))
                    (PyList [in_value (PyStr "a")]) (PyList [])
  = validate_callback (app_suppressed []) layout_form
                      (out_children (PyStr "missing"))
                      (PyList [in_value (PyStr "a")]) (PyList []).
Proof.
  apply (suppressed_ignores_layout (app_suppressed []) PyNone layout_form).
  reflexivity.
Defined.

(** An input that passes with the validation of ids passes without. *)
Lemma suppressed_argument_checks_witness :
  validate_callback_args (PyList [in_value (PyStr "a")]) Input layout_form false
  = Ok tt.
Proof.
  apply (proj2 (suppressed_argument_checks
                  (PyList [in_value (PyStr "a")]) Input layout_form)).
  reflexivity.
Defined.

(** A registration that is accepted; its state is its output. *)
Lemma accepted_registration_witness :
  valid_registration (app_validated []) (out_children (PyStr "root"))
                     (PyList [in_value (PyStr "a")])
                     (PyList [PyDep State (PyStr "root") (PyStr "children") false]).
Proof.
  apply (proj1 (accepted_registration
                  (app_validated []) layout_form (out_children (PyStr "root"))
                  (PyList [in_value (PyStr "a")])
                  (PyList [PyDep State (PyStr "root") (PyStr "children") false]))).
  reflexivity.
Defined.

(** The input [a] has no property [n_clicks]. *)
Lemma nonexistent_prop_failure_witness :
  validate_callback (app_validated []) layout_form (out_children (PyStr "root"))
                    (PyList [PyDep Input (PyStr "a") (PyStr "n_clicks") false])
                    (PyList [])
  = Raise (NonExistentPropException (PyStr "n_clicks") (PyStr "a")).
Proof.
  refine (proj2 (proj1 (proj2 (nonexistent_prop_failure
                                 Input "a" "n_clicks" layout_form
                                 (PyComponent "Input" (PyStr "a") ["value"]
                                              ["data-"] PyNone)
                                 _ _ _ _)) _)
                (app_validated []) (out_children (PyStr "root"))
                (PyList [PyDep Input (PyStr "a") (PyStr "n_clicks") false])
                (PyList []) _ _).
  - reflexivity.
  - reflexivity.
  - reflexivity.
  - reflexivity.
  - intros Hhas%(validate_prop_for_component_Ok Input (PyStr "a") "n_clicks"
                                               false).
    discriminate Hhas.
  - reflexivity.
  - repeat split. exists [], []. split; [reflexivity | constructor].
Defined.

(** The property [data-role] of the input [a] has the prefix of a
    wildcard property. *)
Example validate_callback_wildcard_property :
  validate_callback (app_validated []) layout_form (out_children (PyStr "root"))
                    (PyList [PyDep Input (PyStr "a") (PyStr "data-role") false])
                    (PyList []) = Ok tt.
Proof. reflexivity. Qed.

(** The component with the id [{"type": "x", "index": 1}] has no
    property [value]. *)
Lemma dict_id_property_check_witness :
  validate_id_dict (PyDep Input (id_type_index (PyInt 1)) (PyStr "value") false)
                   layout_form true [ANY; ALL; ALLSMALLER]
  = Raise (NonExistentPropException (PyStr "value") (id_type_index (PyInt 1))).
Proof.
  refine (proj2 (proj1 (proj2 (dict_id_property_check
                                 Input
                                 [(PyStr "type", PyStr "x");
                                  (PyStr "index", PyInt 1)]
                                 "value" false layout_form
                                 [ANY; ALL; ALLSMALLER]))
                       (PyComponent "Div" (id_type_index (PyInt 1))
                                    ["children"] [] PyNone) _ _) _).
  - reflexivity.
  - reflexivity.
  - intros Hhas%(validate_prop_for_component_Ok
                   Input (id_type_index (PyInt 1)) "value" false).
    discriminate Hhas.
Defined.

(** Two outputs that differ from each other and from the registered
    one. *)
Lemma prevent_duplicate_outputs_passes_witness :
  ~ has_equal_outputs [out_children (PyStr "a"); out_children (PyStr "b")] /\
  ~ overlaps_registered [out_children (PyStr "c")]
                        [out_children (PyStr "a"); out_children (PyStr "b")].
Proof.
  apply (proj1 (proj1 (prevent_duplicate_outputs_passes
                         (app_suppressed [out_children (PyStr "c")])
                         [out_children (PyStr "a"); out_children (PyStr "b")]))).
  reflexivity.
Defined.

(** The registered outputs in two orders, one of them twice. *)
Lemma registered_outputs_as_set_witness :
  same_up_to_order
    (prevent_duplicate_outputs
       (app_suppressed [out_children (PyStr "a"); out_children (PyStr "b")])
       [out_children (PyStr "a"); out_children (PyStr "b")])
    (prevent_duplicate_outputs
       (app_suppressed [out_children (PyStr "b"); out_children (PyStr "a");
                        out_children (PyStr "b")])
       [out_children (PyStr "a"); out_children (PyStr "b")]).
Proof.
  apply (proj1 (registered_outputs_as_set
                  (app_suppressed [out_children (PyStr "a");
                                   out_children (PyStr "b")])
                  (app_suppressed [out_children (PyStr "b");
                                   out_children (PyStr "a");
                                   out_children (PyStr "b")])
                  [out_children (PyStr "a"); out_children (PyStr "b")])).
  intros out. simpl. rewrite !elem_of_cons, !elem_of_nil. tauto.
Defined.

(** An output with [ALL] and an input with a string id. *)
Lemma wildcards_consistent_without_any_witness :
  prevent_inconsistent_wildcards
    [out_children (id_type_index (PyWildcard ALL))] [in_value (PyStr "a")] []
  = Ok tt.
Proof.
  apply (wildcards_consistent_without_any
           (out_children (id_type_index (PyWildcard ALL))) []
           [in_value (PyStr "a")] []).
  - repeat constructor; eexists _, _, _, _; reflexivity.
  - intros dep k Hdep (cls & d & p & e & w & Heq & Hk & Hw).
    simpl in Hdep. rewrite !elem_of_cons, elem_of_nil in Hdep.
    destruct Hdep as [-> | [-> | []]]; [| discriminate Heq].
    unfold out_children, id_type_index in Heq. injection Heq as _ Hd _ _.
    subst d.
    rewrite !elem_of_cons, elem_of_nil in Hk.
    destruct Hk as [[=] | [[= _ ->] | []]].
    rewrite !elem_of_cons, elem_of_nil in Hw.
    destruct Hw as [[=] | [[=] | []]].
Defined.

(** In the layout in which [a] occurs twice, the second [a] is the first
    id that repeats. *)
Lemma validate_layout_first_repeat_witness :
  exists j s, PyStr "a" = PyStr s /\ first_repeat (layout_ids layout_twice) j s.
Proof.
  refine (proj1 (validate_layout_first_repeat layout_twice layout_twice
                                              (PyStr "a") _ _) _).
  - reflexivity.
  - repeat constructor; (right; reflexivity) || (left; reflexivity).
  - reflexivity.
Defined.

(** A layout whose descendants have no id. *)
Lemma validate_layout_raises_witness :
  validate_layout layout_plain layout_plain = Ok tt.
Proof.
  apply (proj2 (proj2 (validate_layout_raises layout_plain layout_plain))).
  - discriminate.
  - repeat constructor.
Defined.

(** A registration that passes with the validation of ids passes
    without, and without a layout. *)
Lemma suppression_only_removes_failures_witness :
  validate_callback (suppressed (app_validated [])) PyNone
                    (out_children (PyStr "root"))
                    (PyList [in_value (PyStr "a")]) (PyList []) = Ok tt.
Proof.
  apply (suppression_only_removes_failures
           (app_validated []) layout_form PyNone).
  reflexivity.
Defined.

(** An unexpected keyword argument before an obsolete one. *)
Lemma check_obsolete_first_key_witness :
  check_obsolete [("debug", PyBool true); ("static_folder", PyStr "static")]
  = Failed (KeywordTypeError
              "Dash() got an unexpected keyword argument 'debug'").
Proof.
  refine (proj2 (proj2 (check_obsolete_first_key
                          [("debug", PyBool true);
                           ("static_folder", PyStr "static")])
                       "debug" (PyBool true)
                       [("static_folder", PyStr "static")] _) _ _).
  - reflexivity.
  - discriminate.
  - discriminate.
Defined.

(** An obsolete keyword argument. *)
Example check_obsolete_static_folder :
  check_obsolete [("static_folder", PyStr "static")]
  = Failed (ObsoleteKwargException "static_folder").
Proof. reflexivity. Qed.

(** The path of the registered package. *)
Lemma validate_js_path_registered_witness :
  validate_js_path registry_core "dash_core_components"
                   "dash_core_components.min.js" = Passed tt.
Proof.
  apply (proj2 (proj1 (validate_js_path_registered
                         registry_core "dash_core_components"
                         "dash_core_components.min.js"))).
  exists {[ "dash_core_components.min.js" ]}.
  split; [apply lookup_singleton_eq | apply elem_of_singleton; reflexivity].
Defined.

(** A path added to the registered package. *)
Lemma validate_js_path_monotone_witness :
  validate_js_path
    (<["dash_core_components" :=
         default ∅ (registry_core !! "dash_core_components")
         ∪ {[ "async-graph.js" ]}]> registry_core)
    "dash_core_components" "dash_core_components.min.js" = Passed tt.
Proof.
  refine (proj1 (validate_js_path_monotone
                   registry_core _ "dash_core_components"
                   "dash_core_components.min.js") _ _).
  - exact (proj1 (proj2 (validate_js_path_monotone
                           registry_core _ "dash_core_components"
                           "async-graph.js") eq_refl)).
  - apply validate_js_path_Passed.
    exists {[ "dash_core_components.min.js" ]}.
    split; [apply lookup_singleton_eq | apply elem_of_singleton; reflexivity].
Defined.

(** An index that has one of three placeholders. *)
Lemma validate_index_missing_witness :
  @validate_index literal_re "index" placeholder_checks
                  "<body>%config%</body>"
  = Failed (InvalidIndexException "Missing items scripts, renderer in index.").
Proof.
  refine (proj2 (proj2 (proj1 (@validate_index_missing
                                 literal_re "index" placeholder_checks
                                 "<body>%config%</body>") _))
                "scripts" "renderer" [] _).
  - repeat constructor; eexists; reflexivity.
  - reflexivity.
Defined.

(** The keys of an input with [ANY] and [ALLSMALLER]. *)
Lemma get_wildcard_keys_keys_witness :
  exists keys,
    get_wildcard_keys
      (in_value (PyDict [(PyStr "type", PyWildcard ANY);
                         (PyStr "index", PyWildcard ALLSMALLER)]))
      [ANY]
    = Ok keys /\
    forall k,
      k ∈ keys <->
      wildcard_key
        (in_value (PyDict [(PyStr "type", PyWildcard ANY);
                           (PyStr "index", PyWildcard ALLSMALLER)]))
        [ANY] k.
Proof.
  destruct (proj1 (get_wildcard_keys_keys
                     (in_value (PyDict [(PyStr "type", PyWildcard ANY);
                                        (PyStr "index", PyWildcard ALLSMALLER)]))
                     [ANY]))
    as (keys & Hr & Hkeys & _).
  - eexists _, _, _, _. reflexivity.
  - exists keys. split; [exact Hr | exact Hkeys].
Defined.

End Examples.
